(** * redash-mcp: the Redash API client

    A shallow embedding of the class [RedashClient] (module [redashClient],
    lines 2825-3797 of [src/index.ts]): header construction, the partial-update
    body of [updateQuery], the archive/delete operations and the
    query-execution bridge ([executeQuery], [executeAdhocQuery],
    [pollQueryResults]).

    Conventions of the embedding.
    - A JavaScript value decoded from (or sent as) a JSON body is a [json];
      numbers are integers ([Z]), objects are finite maps from property names
      to values ([gmap string json]).  A safe integer ([safe_integer]) is the
      JavaScript number of that value; a larger one stands for the double
      nearest to it, which is also how it prints.
    - A string is the UTF-8 encoding of the JavaScript string, one [ascii]
      per byte.  The characters the code searches for are ASCII, so that
      splitting, slicing and prefix tests agree with the code's.
    - [async] methods run in the monad [M]: a state monad over the [world]
      (wall clock and log of HTTP requests sent) with exceptions.  The remote
      service and the timers are a [backend], a parameter of every method;
      [JSON.parse] and [JSON.stringify] are parameters too.
    - The [while] loop of [pollQueryResults] is a [Fixpoint] on a fuel
      argument; [OutOfFuel] is not a JavaScript outcome, and the theorems about
      results show that enough fuel yields [Return] or [Throw].
    - Logging ([logger], [console]) is left out, except where building the
      text to log can throw: a template literal that reads a property of, or
      converts to a string, a value that came from the remote service. *)

From Stdlib Require Import ZArith String Ascii List Lia DecimalString.
From stdpp Require Import base gmap strings list.

#[local] Set Warnings "-register-all".
#[local] Open Scope Z_scope.

(** ** JavaScript values and strings *)

Module Js.

Inductive json : Type :=
| JUndefined
| JNull
| JBool (b : bool)
| JNum (n : Z)
| JStr (s : string)
| JArr (xs : list json)
| JObj (m : gmap string json).

(** [if (v)], [v || w], [!v]: the falsy values are [undefined], [null],
    [false], [0] and the empty string. *)
Definition truthy (v : json) : bool :=
  match v with
  | JUndefined | JNull => false
  | JBool b => b
  | JNum n => negb (n =? 0)
  | JStr s => negb (String.eqb s EmptyString)
  | JArr _ | JObj _ => true
  end.

(** [a || b] *)
Definition or_else (a b : json) : json := if truthy a then a else b.

(** [v === undefined || v === null] *)
Definition nullish (v : json) : bool :=
  match v with
  | JUndefined | JNull => true
  | _ => false
  end.

(** [v === undefined] *)
Definition is_undefined (v : json) : bool :=
  match v with
  | JUndefined => true
  | _ => false
  end.

(** [v === n] for a number literal [n]: strict equality, no coercion. *)
Definition strict_eq_num (v : json) (n : Z) : bool :=
  match v with
  | JNum m => m =? n
  | _ => false
  end.

(** [v.k] on a value that is neither [undefined] nor [null]: the own property
    of an object, [undefined] otherwise.  (Accurate for the property names the
    client reads, none of which is defined on a built-in prototype.) *)
Definition field (k : string) (v : json) : json :=
  match v with
  | JObj m => default JUndefined (m !! k)
  | _ => JUndefined
  end.

(** [v?.k] *)
Definition opt_field (k : string) (v : json) : json :=
  if nullish v then JUndefined else field k v.

(** [Number.MAX_SAFE_INTEGER], and [Number.isSafeInteger(n)]. *)
Definition MAX_SAFE_INTEGER : Z := 9007199254740991.
Definition safe_integer (n : Z) : Prop := - MAX_SAFE_INTEGER <= n <= MAX_SAFE_INTEGER.

(** The decimal digits of an integer, with [-] before a negative one. *)
Definition decimal (n : Z) : string := NilZero.string_of_int (Z.to_int n).

(** The double nearest to a positive integer [v] (ties go to the even
    significand): the JavaScript number that [v] stands for. *)
Definition nearest_double (v : Z) : Z :=
  let bits := Z.log2 v + 1 in
  if bits <=? 53 then v
  else
    let shift := bits - 53 in
    let q := Z.shiftr v shift in
    let r := v - Z.shiftl q shift in
    let half := Z.shiftl 1 (shift - 1) in
    let q := if (half <? r) || (r =? half) && Z.odd q then q + 1 else q in
    Z.shiftl q shift.

(** [Number::toString] on a double [x] beyond the safe integers.  The digits
    printed are those of the least number of digits [k] for which some [s] of
    [k] digits and some [m] give [s * 10 ^ m] that reads back as [x]; among
    several such [s], the one nearest to [x], and the even one of two.  [D] is
    the number of digits of [x]. *)
Definition shortest_candidates (x D k : Z) : list (Z * Z) :=
  m ← [D - k; D - k + 1];
  s ← [x / 10 ^ m; x / 10 ^ m + 1];
  if (0 <=? m) && (10 ^ (k - 1) <=? s) && (s <? 10 ^ k)
     && (nearest_double (s * 10 ^ m) =? x)
  then [(s, m)] else [].

Definition closer (x : Z) (a b : Z * Z) : Z * Z :=
  let da := Z.abs (a.1 * 10 ^ a.2 - x) in
  let db := Z.abs (b.1 * 10 ^ b.2 - x) in
  if (da <? db) || (da =? db) && Z.even a.1 then a else b.

Fixpoint shortest (x D : Z) (ks : list Z) : Z * Z :=
  match ks with
  | [] => (x, 0)
  | k :: ks' =>
      match shortest_candidates x D k with
      | [] => shortest x D ks'
      | c :: cs => foldl (closer x) c cs
      end
  end.

Fixpoint zeros (n : nat) : string :=
  match n with
  | O => EmptyString
  | S n' => String "0" (zeros n')
  end.

(** The digits and then zeros up to 21 digits; the exponent form beyond. *)
Definition string_of_double (x : Z) : string :=
  let D := Z.of_nat (String.length (decimal x)) in
  let '(s, m) := shortest x D (Z.of_nat <$> seq 1 17) in
  let k := Z.of_nat (String.length (decimal s)) in
  let n := m + k in
  if n <=? 21 then decimal s +:+ zeros (Z.to_nat m)
  else
    match decimal s with
    | EmptyString => EmptyString
    | String d EmptyString => String d ("e+" +:+ decimal (n - 1))
    | String d ds => String d ("." +:+ ds +:+ "e+" +:+ decimal (n - 1))
    end.

(** [`${n}`] and [String(n)] for a number: all the digits of a safe integer;
    beyond, the integer stands for the double nearest to it, which prints
    with the fewest digits that read back as it, in exponent form from 1e21
    on, and as [Infinity] past the largest double. *)
Definition string_of_Z (n : Z) : string :=
  if Z.abs n <=? MAX_SAFE_INTEGER then decimal n
  else
    let x := nearest_double (Z.abs n) in
    (if n <? 0 then "-" else EmptyString) +:+
    (if 2 ^ 1024 <=? x then "Infinity" else string_of_double x).

(** Whether [String(v)], or a template literal [`${v}`], returns.  Converting
    an object calls its [toString] and then its [valueOf]: for an object that
    came out of [JSON.parse] an own property [toString] is data, not a
    function, and [valueOf] gives no primitive, so that the conversion throws
    a [TypeError]; without that property [Object.prototype.toString] answers.
    An array joins the conversions of its elements other than [null] and
    [undefined]. *)
Fixpoint converts (v : json) : bool :=
  match v with
  | JArr xs => forallb (fun x => nullish x || converts x) xs
  | JObj m => bool_decide (m !! "toString" = None)
  | _ => true
  end.

(** What [String(v)] returns when it does ([converts v]); where the value may
    be one that does not convert, the code is modelled with [ToString]. *)
Fixpoint toString (v : json) : string :=
  match v with
  | JUndefined => "undefined"
  | JNull => "null"
  | JBool b => if b then "true" else "false"
  | JNum n => string_of_Z n
  | JStr s => s
  | JArr xs =>
      String.concat ","
        (List.map (fun x => if nullish x then EmptyString else toString x) xs)
  | JObj _ => "[object Object]"
  end.

(** [s.startsWith(p)] *)
Definition startsWith (s p : string) : bool := String.prefix p s.

(** [s.includes(sub)] *)
Fixpoint includes (s sub : string) : bool :=
  String.prefix sub s ||
  match s with
  | EmptyString => false
  | String _ s' => includes s' sub
  end.

(** [s] contains [sub] as a substring. *)
Definition Contains (s sub : string) : Prop :=
  exists pre post : string, s = pre +:+ sub +:+ post.

(** [s.split(/[;,]/)] for a separator class [sep]. *)
Fixpoint split (sep : ascii -> bool) (s : string) : list string :=
  match s with
  | EmptyString => [EmptyString]
  | String c s' =>
      if sep c then EmptyString :: split sep s'
      else match split sep s' with
           | [] => [String c EmptyString]
           | h :: t => String c h :: t
           end
  end.

(** [s.indexOf('=')], with [None] for [-1]. *)
Definition indexOf (s sub : string) : option nat := String.index 0 sub s.

(** [s.slice(i, j)] and [s.slice(i)] for [0 <= i <= j]. *)
Definition slice (i j : nat) (s : string) : string := String.substring i (j - i) s.
Definition slice_from (i : nat) (s : string) : string :=
  String.substring i (String.length s - i) s.

(** The white space that [s.trim()] strips ([WhiteSpace] and
    [LineTerminator] of ECMAScript), by the bytes of its encoding: U+0009 to
    U+000D and U+0020 (one byte); U+00A0 (two bytes); U+1680, U+2000 to
    U+200A, U+2028, U+2029, U+202F, U+205F, U+3000 and U+FEFF (three bytes). *)
Definition white_space1 (a : ascii) : bool :=
  let x := nat_of_ascii a in
  ((9 <=? x) && (x <=? 13) || (x =? 32))%nat.
Definition white_space2 (a b : ascii) : bool :=
  ((nat_of_ascii a =? 194) && (nat_of_ascii b =? 160))%nat.
Definition white_space3 (a b c : ascii) : bool :=
  let x := nat_of_ascii a in
  let y := nat_of_ascii b in
  let z := nat_of_ascii c in
  ((x =? 225) && (y =? 154) && (z =? 128)
   || (x =? 226) && (y =? 128)
      && ((128 <=? z) && (z <=? 138) || (z =? 168) || (z =? 169) || (z =? 175))
   || (x =? 226) && (y =? 129) && (z =? 159)
   || (x =? 227) && (y =? 128) && (z =? 128)
   || (x =? 239) && (y =? 187) && (z =? 191))%nat.

(** [s] without the white space it starts with; with [backwards], [s] is a
    reversed string and the bytes of a character come last byte first. *)
Fixpoint strip (backwards : bool) (s : string) : string :=
  match s with
  | EmptyString => EmptyString
  | String a s1 =>
      if white_space1 a then strip backwards s1
      else
        match s1 with
        | EmptyString => s
        | String b s2 =>
            if (if backwards then white_space2 b a else white_space2 a b)
            then strip backwards s2
            else
              match s2 with
              | EmptyString => s
              | String c s3 =>
                  if (if backwards then white_space3 c b a else white_space3 a b c)
                  then strip backwards s3
                  else s
              end
        end
  end.

(** [s.trimStart()], [s.trimEnd()] and [s.trim()]. *)
Definition trimStart (s : string) : string := strip false s.
Definition trimEnd (s : string) : string := String.rev (strip true (String.rev s)).
Definition trim (s : string) : string := trimEnd (trimStart s).

End Js.
Export Js.

(** ** The outside world: HTTP requests, thrown values, clock *)

Module Http.

Inductive method : Type := GET | POST | DELETE.

(** A call [this.client.get(url)], [this.client.post(url, data)] or
    [this.client.delete(url)]; [data] is [JUndefined] when no body is passed. *)
Record request : Type := Request {
  req_method : method;
  req_url : string;
  req_data : json
}.

(** What a [catch (error)] clause can receive. *)
Inductive thrown : Type :=
| AxiosError (message : string) (response : option (Z * json)) (request : bool)
  (** an error of axios: [response] holds [status] and [data] when the remote
      answered, [request] tells whether [error.request] is set *)
| Error (message : string)
  (** [new Error(message)], or a built-in error such as a [TypeError] *)
| Thrown (v : json).
  (** any other thrown value *)

(** [error instanceof Error] *)
Definition instanceofError (e : thrown) : bool :=
  match e with
  | AxiosError _ _ _ | Error _ => true
  | Thrown _ => false
  end.

(** [axios.isAxiosError(error)] *)
Definition isAxiosError (e : thrown) : bool :=
  match e with
  | AxiosError _ _ _ => true
  | _ => false
  end.

(** [error instanceof Error ? error.message : String(error)] *)
Definition errorText (e : thrown) : string :=
  match e with
  | AxiosError m _ _ | Error m => m
  | Thrown v => toString v
  end.

(** The state the client can observe: [Date.now()] in milliseconds, and the
    requests sent so far, oldest first. *)
Record world : Type := World {
  now : Z;
  sent : list request
}.

(** The remote service and the timers.  [respond w r] is how request [r], sent
    in world [w], settles: the response body or the rejection, and the
    milliseconds it took.  [timer_lag w] is how much later than asked a timer
    set in [w] fires. *)
Record backend : Type := Backend {
  respond : world -> request -> (thrown + json) * N;
  timer_lag : world -> N
}.

Inductive outcome (A : Type) : Type :=
| Return (a : A)
| Throw (e : thrown)
| OutOfFuel.
Arguments Return {A} a.
Arguments Throw {A} e.
Arguments OutOfFuel {A}.

Definition M (A : Type) : Type := world -> outcome A * world.

Definition ret {A} (a : A) : M A := fun w => (Return a, w).
Definition throw {A} (e : thrown) : M A := fun w => (Throw e, w).
Definition out_of_fuel {A} : M A := fun w => (OutOfFuel, w).

Definition bind {A B} (m : M A) (k : A -> M B) : M B := fun w =>
  match m w with
  | (Return a, w') => k a w'
  | (Throw e, w') => (Throw e, w')
  | (OutOfFuel, w') => (OutOfFuel, w')
  end.

(** [try { m } catch (error) { h error }] *)
Definition try_catch {A} (m : M A) (h : thrown -> M A) : M A := fun w =>
  match m w with
  | (Throw e, w') => h e w'
  | r => r
  end.

(** The world after request [r] settled, [d] milliseconds later. *)
Definition after_request (r : request) (d : N) (w : world) : world :=
  {| now := now w + Z.of_N d; sent := sent w ++ [r] |}.

(** The world after [await new Promise(resolve => setTimeout(resolve, ms))]:
    the timer fires [ms] milliseconds later (at once for a negative [ms]), or
    [lag] milliseconds after that. *)
Definition after_sleep (ms : Z) (lag : N) (w : world) : world :=
  {| now := now w + Z.max 0 ms + Z.of_N lag; sent := sent w |}.

Section Primitives.
Variable env : backend.

Definition http (r : request) : M json := fun w =>
  let '(res, d) := respond env w r in
  match res with
  | inl e => (Throw e, after_request r d w)
  | inr data => (Return data, after_request r d w)
  end.

(** [(await this.client.get(url)).data] and its siblings. *)
Definition client_get (url : string) : M json := http (Request GET url JUndefined).
Definition client_post (url : string) (data : json) : M json := http (Request POST url data).
Definition client_delete (url : string) : M json := http (Request DELETE url JUndefined).

Definition Date_now : M Z := fun w => (Return (now w), w).

Definition sleep (ms : Z) : M unit := fun w =>
  (Return tt, after_sleep ms (timer_lag env w) w).

End Primitives.

(** [v.k], which throws a [TypeError] when [v] is [undefined] or [null] (the
    message is V8's). *)
Definition member (v : json) (k : string) : M json :=
  if nullish v
  then throw (Error ("Cannot read properties of " +:+ toString v +:+
                     " (reading '" +:+ k +:+ "')"))
  else ret (field k v).

(** The [TypeError] of a conversion to a string that fails (the message is
    V8's). *)
Definition cannot_convert : thrown := Error "Cannot convert object to primitive value".

(** [String(v)] and [`${v}`] for a value of any type. *)
Definition ToString (v : json) : M string :=
  if converts v then ret (toString v) else throw cannot_convert.

End Http.
Export Http.

Declare Scope js_scope.
Delimit Scope js_scope with js.
Notation "'let*' x := m 'in' k" := (bind m (fun x => k))
  (at level 10, x name, m at level 100, k at level 200) : js_scope.
Notation "'await' m ; k" := (bind m (fun _ => k))
  (at level 10, m at level 100, k at level 200) : js_scope.
#[local] Open Scope js_scope.

(** ** The client *)

Module RedashClient.

(** What the constructor passes to [axios.create] (the request timeout, parsed
    from [REDASH_TIMEOUT], plays no part below and is left out). *)
Record AxiosConfig : Type := {
  baseURL : string;
  headers : gmap string string
}.

(** [extraHeaders[k]] used as a condition. *)
Definition header_truthy (h : option string) : bool :=
  match h with
  | Some v => negb (String.eqb v EmptyString)
  | None => false
  end.

(** The character class of [/[;,]/]. *)
Definition is_separator (c : ascii) : bool :=
  Ascii.eqb c ";" || Ascii.eqb c ",".

(** [headers[key] = value] on a plain object, for a string [value]: the
    assignment to [__proto__] runs the setter of [Object.prototype], which
    ignores a string, and creates no property. *)
Definition assign (key value : string) (headers : gmap string string)
  : gmap string string :=
  if String.eqb key "__proto__" then headers else <[key := value]> headers.

(** The fallback of [parseExtraHeaders]: [key=value; key2=value2]. *)
Definition parseKeyValue (raw : string) : gmap string string :=
  foldl
    (fun (headers : gmap string string) (part : string) =>
       match indexOf part "=" with
       | None => headers
       | Some idx =>
           let key := trim (slice 0 idx part) in
           let value := trim (slice_from (idx + 1) part) in
           if String.eqb key EmptyString then headers else assign key value headers
       end)
    ∅ (split is_separator raw).

(** The fields of [UpdateQueryRequest], in the order [updateQuery] copies them. *)
Definition UpdateQueryRequest_fields : list string :=
  ["name"; "data_source_id"; "query"; "description"; "options"; "schedule";
   "tags"; "is_archived"; "is_draft"].

(** [queryData.k] for an object given by its properties. *)
Definition get (k : string) (o : gmap string json) : json :=
  default JUndefined (o !! k).

(** [if (queryData.k !== undefined) requestData.k = queryData.k;] *)
Definition copy_defined (k : string) (queryData requestData : gmap string json)
  : gmap string json :=
  if negb (is_undefined (get k queryData))
  then <[k := get k queryData]> requestData
  else requestData.

(** The payload [updateQuery] builds before it posts. *)
Definition updateQuery_requestData (queryData : gmap string json) : gmap string json :=
  let requestData : gmap string json := ∅ in
  let requestData := copy_defined "name" queryData requestData in
  let requestData := copy_defined "data_source_id" queryData requestData in
  let requestData := copy_defined "query" queryData requestData in
  let requestData := copy_defined "description" queryData requestData in
  let requestData := copy_defined "options" queryData requestData in
  let requestData := copy_defined "schedule" queryData requestData in
  let requestData := copy_defined "tags" queryData requestData in
  let requestData := copy_defined "is_archived" queryData requestData in
  let requestData := copy_defined "is_draft" queryData requestData in
  requestData.

(** [{ success: true }] *)
Definition success_true : json := JObj {[ "success" := JBool true ]}.

Section Client.

(** [JSON.parse]: [None] when it throws.  [JSON.stringify]: a [JStr], or
    [JUndefined] for a value that has no JSON text. *)
Variable JSON_parse : string -> option json.
Variable JSON_stringify : json -> json.
Variable env : backend.

Definition parseExtraHeaders (REDASH_EXTRA_HEADERS : option string)
  : gmap string string :=
  match REDASH_EXTRA_HEADERS with
  | None => ∅
  | Some raw =>
      if String.eqb raw EmptyString then ∅
      else match JSON_parse raw with
           | Some (JObj obj) =>
               let entries :=
                 filter (fun kv : string * json => negb (nullish kv.2)) obj in
               (* [String(v)] that throws is caught by the [try], and the
                  fallback runs *)
               if bool_decide (map_Forall (fun _ v => converts v = true) entries)
               then toString <$> entries
               else parseKeyValue raw
           | _ => parseKeyValue raw
           end
  end.

Definition constructor (REDASH_URL REDASH_API_KEY REDASH_EXTRA_HEADERS : option string)
  : thrown + AxiosConfig :=
  let baseUrl := default EmptyString REDASH_URL in
  let apiKey := default EmptyString REDASH_API_KEY in
  if String.eqb baseUrl EmptyString || String.eqb apiKey EmptyString
  then inl (Error "REDASH_URL and REDASH_API_KEY must be provided in .env file")
  else
    let defaultHeaders : gmap string string :=
      {[ "Authorization" := "Key " +:+ apiKey;
         "Content-Type" := "application/json" ]} in
    let extraHeaders := parseExtraHeaders REDASH_EXTRA_HEADERS in
    let extraHeaders :=
      if header_truthy (extraHeaders !! "Authorization")
         || header_truthy (extraHeaders !! "authorization")
      then delete "authorization" (delete "Authorization" extraHeaders)
      else extraHeaders in
    inr {| baseURL := baseUrl; headers := extraHeaders ∪ defaultHeaders |}.

(** The inner [catch (axiosError: any)] of [updateQuery]. *)
Definition updateQuery_inner_catch (axiosError : thrown) : M json :=
  match axiosError with
  | AxiosError _ (Some (status, data)) _ =>
      throw (Error ("Redash API error (" +:+ string_of_Z status +:+ "): " +:+
                    toString (JSON_stringify data)))
  | AxiosError msg None true =>
      throw (Error ("No response received from Redash API: " +:+ msg))
  | AxiosError _ None false | Error _ => throw axiosError
  | Thrown v =>
      let* response := member v "response" in
      if truthy response
      then throw (Error ("Redash API error (" +:+ toString (field "status" response)
                         +:+ "): " +:+ toString (JSON_stringify (field "data" response))))
      else if truthy (field "request" v)
      then throw (Error ("No response received from Redash API: " +:+
                         toString (field "message" v)))
      else throw axiosError
  end.

Definition updateQuery (queryId : Z) (queryData : gmap string json) : M json :=
  try_catch
    (try_catch
       (let requestData := updateQuery_requestData queryData in
        client_post env ("/api/queries/" +:+ string_of_Z queryId) (JObj requestData))
       updateQuery_inner_catch)
    (fun error =>
       throw (Error ("Failed to update query " +:+ string_of_Z queryId +:+ ": " +:+
                     errorText error))).

Definition archiveQuery (queryId : Z) : M json :=
  try_catch
    (await client_delete env ("/api/queries/" +:+ string_of_Z queryId);
     ret success_true)
    (fun error =>
       throw (Error ("Failed to archive query " +:+ string_of_Z queryId +:+ ": " +:+
                     errorText error))).

(** Declared [Promise<void>]: resolves to [undefined]. *)
Definition deleteVisualization (visualizationId : Z) : M json :=
  try_catch
    (await client_delete env ("/api/visualizations/" +:+ string_of_Z visualizationId);
     ret JUndefined)
    (fun _ =>
       throw (Error ("Failed to delete visualization " +:+ string_of_Z visualizationId))).

Definition archiveDashboard (dashboardId : Z) : M json :=
  try_catch
    (await client_delete env ("/api/dashboards/" +:+ string_of_Z dashboardId);
     ret success_true)
    (fun error =>
       throw (Error ("Failed to archive dashboard " +:+ string_of_Z dashboardId +:+ ": "
                     +:+ errorText error))).

Definition deleteAlert (alertId : Z) : M json :=
  try_catch
    (await client_delete env ("/api/alerts/" +:+ string_of_Z alertId);
     ret success_true)
    (fun error =>
       throw (Error ("Failed to delete alert " +:+ string_of_Z alertId +:+ ": " +:+
                     errorText error))).

Definition deleteWidget (widgetId : Z) : M json :=
  try_catch
    (await client_delete env ("/api/widgets/" +:+ string_of_Z widgetId);
     ret success_true)
    (fun error =>
       throw (Error ("Failed to delete widget " +:+ string_of_Z widgetId +:+ ": " +:+
                     errorText error))).

Definition deleteQuerySnippet (snippetId : Z) : M json :=
  try_catch
    (await client_delete env ("/api/query_snippets/" +:+ string_of_Z snippetId);
     ret success_true)
    (fun error =>
       throw (Error ("Failed to delete query snippet " +:+ string_of_Z snippetId +:+ ": "
                     +:+ errorText error))).

(** *** The query-execution bridge *)

(** [errorData?.message || errorData?.error || JSON.stringify(errorData)] *)
Definition errorMessage_of (errorData : json) : json :=
  or_else (or_else (opt_field "message" errorData) (opt_field "error" errorData))
          (JSON_stringify errorData).

(** The [catch (error)] clause inside the loop of [pollQueryResults].  Every
    path through it throws, so it is given as the value thrown: the error of
    the branch taken, or the [TypeError] of the template literal that builds
    the message, when [errorMessage] (or a thrown value that is not an
    [Error]) does not convert to a string.  [jobId] is declared a [string]. *)
Definition pollQueryResults_catch (jobId : json) (error : thrown) : thrown :=
  if instanceofError error && startsWith (errorText error) "Query execution failed:"
  then error
  else
    match error with
    | AxiosError _ (Some (statusCode, errorData)) _ =>
        let errorMessage := errorMessage_of errorData in
        if converts errorMessage
        then Error ("Failed to poll for query results (job " +:+ toString jobId +:+
                    "): Redash API error (" +:+ string_of_Z statusCode +:+ "): " +:+
                    toString errorMessage)
        else cannot_convert
    | AxiosError msg None true =>
        Error ("Failed to poll for query results (job " +:+ toString jobId +:+
               "): No response received from Redash API: " +:+ msg)
    | AxiosError msg None false =>
        Error ("Failed to poll for query results (job " +:+ toString jobId +:+
               "): " +:+ msg)
    | Error msg =>
        Error ("Failed to poll for query results (job " +:+ toString jobId +:+
               "): " +:+ msg)
    | Thrown v =>
        if converts v
        then Error ("Failed to poll for query results (job " +:+ toString jobId +:+
                    "): " +:+ toString v)
        else cannot_convert
    end.

(** The [try] block of one iteration: [Some v] stands for [return v], [None]
    for reaching the end of the block, after the wait.  [jobId] is declared a
    [string]; [query_result_id] and [error] come from the response and are
    converted by template literals (the first one in the log line before the
    GET). *)
Definition poll_try (jobId : json) (interval : Z) : M (option json) :=
  let* data := client_get env ("/api/jobs/" +:+ toString jobId) in
  let* job := member data "job" in
  let* status := member job "status" in
  if strict_eq_num status 3 then
    if truthy (field "query_result_id" job) then
      let* query_result_id := ToString (field "query_result_id" job) in
      let* resultData := client_get env ("/api/query_results/" +:+ query_result_id) in
      ret (Some resultData)
    else ret (Some (field "result" job))
  else if strict_eq_num status 4 then
    let errorDetails := or_else (field "error" job) (JStr "Unknown error") in
    let* details := ToString errorDetails in
    throw (Error ("Query execution failed: " +:+ details))
  else
    await sleep env interval;
    ret None.

Definition poll_iteration (jobId : json) (interval : Z) : M (option json) :=
  try_catch (poll_try jobId interval)
            (fun error => throw (pollQueryResults_catch jobId error)).

(** [while (Date.now() - startTime < timeout) { ... }] and the [throw] after it. *)
Fixpoint poll_loop (fuel : nat) (jobId : json) (timeout interval startTime : Z)
  : M json :=
  match fuel with
  | O => out_of_fuel
  | S fuel' =>
      let* t := Date_now in
      if t - startTime <? timeout then
        let* r := poll_iteration jobId interval in
        match r with
        | Some v => ret v
        | None => poll_loop fuel' jobId timeout interval startTime
        end
      else
        throw (Error ("Query execution timed out after " +:+ string_of_Z timeout +:+ "ms"))
  end.

Definition pollQueryResults (fuel : nat) (jobId : json) (timeout interval : Z)
  : M json :=
  let* startTime := Date_now in
  poll_loop fuel jobId timeout interval startTime.

(** The defaults of [pollQueryResults], which both callers use. *)
Definition default_timeout : Z := 60000.
Definition default_interval : Z := 1000.

(** [this.pollQueryResults(jobId)] as [executeQuery] and [executeAdhocQuery]
    call it, with the defaults and with [job.id] as it came in the response,
    of any type.  A [jobId] that does not convert to a string makes the first
    template literal of the [try] block throw, and the template literal of the
    [catch] clause throw again, before anything is sent: the call throws that
    [TypeError]. *)
Definition poll_job (fuel : nat) (jobId : json) : M json :=
  if converts jobId
  then pollQueryResults fuel jobId default_timeout default_interval
  else throw cannot_convert.

(** The [catch (error)] clause of [executeQuery], as the value thrown (see
    [pollQueryResults_catch]). *)
Definition executeQuery_catch (queryId : Z) (error : thrown) : thrown :=
  match error with
  | AxiosError _ (Some (statusCode, errorData)) _ =>
      let errorMessage := errorMessage_of errorData in
      if converts errorMessage
      then Error ("Failed to execute query " +:+ string_of_Z queryId +:+
                  ": Redash API error (" +:+ string_of_Z statusCode +:+ "): " +:+
                  toString errorMessage)
      else cannot_convert
  | AxiosError msg None true =>
      Error ("Failed to execute query " +:+ string_of_Z queryId +:+
             ": No response received from Redash API: " +:+ msg)
  | AxiosError msg None false =>
      Error ("Failed to execute query " +:+ string_of_Z queryId +:+ ": " +:+ msg)
  | Error msg =>
      Error ("Failed to execute query " +:+ string_of_Z queryId +:+ ": " +:+ msg)
  | Thrown v =>
      if converts v
      then Error ("Failed to execute query " +:+ string_of_Z queryId +:+ ": " +:+
                  toString v)
      else cannot_convert
  end.

Definition executeQuery (fuel : nat) (queryId : Z) (parameters : json) : M json :=
  try_catch
    (let* data :=
       client_post env ("/api/queries/" +:+ string_of_Z queryId +:+ "/results")
                   (JObj {[ "parameters" := parameters ]}) in
     let* job := member data "job" in
     if truthy job then poll_job fuel (field "id" job)
     else ret data)
    (fun error => throw (executeQuery_catch queryId error)).

(** The [catch (error)] clause of [executeAdhocQuery], as the value thrown. *)
Definition executeAdhocQuery_catch (error : thrown) : thrown :=
  Error ("Failed to execute adhoc query: " +:+ errorText error).

Definition executeAdhocQuery (fuel : nat) (query : string) (dataSourceId : Z)
  : M json :=
  try_catch
    (let payload : gmap string json :=
       {[ "query" := JStr query;
          "data_source_id" := JNum dataSourceId;
          "max_age" := JNum 0;
          "apply_auto_limit" := JBool true;
          "parameters" := JObj ∅ ]} in
     let* data := client_post env "/api/query_results" (JObj payload) in
     let* job := member data "job" in
     if truthy job then poll_job fuel (field "id" job)
     else ret data)
    (fun error => throw (executeAdhocQuery_catch error)).

End Client.

End RedashClient.
Export RedashClient.

(** ** Vocabulary of the statements *)

(** The GET of one poll, and the GET that fetches a persisted result. *)
Definition poll_request (jobId : json) : request :=
  Request GET ("/api/jobs/" +:+ toString jobId) JUndefined.
Definition result_request (query_result_id : json) : request :=
  Request GET ("/api/query_results/" +:+ toString query_result_id) JUndefined.

(** A poll response that carries a job whose status is neither 3 nor 4. *)
Definition is_pending (data : json) : bool :=
  negb (nullish data) && negb (nullish (field "job" data))
  && negb (strict_eq_num (field "status" (field "job" data)) 3)
  && negb (strict_eq_num (field "status" (field "job" data)) 4).

(** The error thrown after the loop. *)
Definition timed_out (timeout : Z) : thrown :=
  Error ("Query execution timed out after " +:+ string_of_Z timeout +:+ "ms").

(** The two ways to run a query. *)
Inductive execution : Type :=
| Saved (queryId : Z) (parameters : json)
| Adhoc (query : string) (dataSourceId : Z).

Definition execute (JSON_stringify : json -> json) (env : backend) (fuel : nat)
    (x : execution) : M json :=
  match x with
  | Saved queryId parameters => executeQuery JSON_stringify env fuel queryId parameters
  | Adhoc query dataSourceId => executeAdhocQuery JSON_stringify env fuel query dataSourceId
  end.

(** The POST each of them starts with. *)
Definition execution_post (x : execution) : request :=
  match x with
  | Saved queryId parameters =>
      Request POST ("/api/queries/" +:+ string_of_Z queryId +:+ "/results")
              (JObj {[ "parameters" := parameters ]})
  | Adhoc query dataSourceId =>
      Request POST "/api/query_results"
              (JObj {[ "query" := JStr query;
                       "data_source_id" := JNum dataSourceId;
                       "max_age" := JNum 0;
                       "apply_auto_limit" := JBool true;
                       "parameters" := JObj ∅ ]})
  end.

(** Their [catch] clauses. *)
Definition execution_catch (JSON_stringify : json -> json) (x : execution)
    (error : thrown) : thrown :=
  match x with
  | Saved queryId _ => executeQuery_catch JSON_stringify queryId error
  | Adhoc _ _ => executeAdhocQuery_catch error
  end.

(** The message of the [TypeError] for reading [key] off [v]. *)
Definition cannot_read (v : json) (key : string) : string :=
  "Cannot read properties of " +:+ toString v +:+ " (reading '" +:+ key +:+ "')".

(** A rejection that the [catch] clauses of [pollQueryResults] and
    [executeQuery] cannot put in a message: an error response whose
    [message || error || JSON.stringify(data)] does not convert to a string,
    or a thrown value that is not an [Error] and does not convert. *)
Definition unprintable (JSON_stringify : json -> json) (e : thrown) : bool :=
  match e with
  | AxiosError _ (Some (_, errorData)) _ =>
      negb (converts (errorMessage_of JSON_stringify errorData))
  | Thrown v => negb (converts v)
  | _ => false
  end.

(** An error that can reach a [catch] clause of the client: an [Error] made
    on the way, or a rejection by the remote. *)
Definition raised (env : backend) (e : thrown) : Prop :=
  (exists msg : string, e = Error msg) \/
  (exists (w : world) (r : request) (d : N), respond env w r = (inl e, d)).

(** What the loop of [pollQueryResults] puts before the cause of a failed
    poll. *)
Definition poll_failure (jobId : json) : string :=
  "Failed to poll for query results (job " +:+ toString jobId +:+ "): ".

(** An operation [op] that sends one DELETE to [path ++ id], returns
    [{ success: true }] when it succeeds, and otherwise throws
    [Failed to <what> <id>: <cause>]. *)
Definition reports_success (op : backend -> Z -> M json) (path what : string) : Prop :=
  forall (env : backend) (id : Z) (w : world),
    let r := Request DELETE (path +:+ string_of_Z id) JUndefined in
    match respond env w r with
    | (inr _, d) => op env id w = (Return success_true, after_request r d w)
    | (inl e, d) =>
        op env id w =
        (Throw (Error ("Failed to " +:+ what +:+ " " +:+ string_of_Z id +:+ ": " +:+
                       errorText e)),
         after_request r d w)
    end.

(** ** Sample backends *)

(** A backend that settles every request at once, by [f], with exact timers. *)
Definition instant (f : request -> thrown + json) : backend :=
  {| respond := fun _ r => (f r, 0%N); timer_lag := fun _ => 0%N |}.

(** A stand-in for [JSON.stringify] in runs that never need its result. *)
Definition no_stringify (_ : json) : json := JUndefined.

(** Every poll finds the job started and not finished. *)
Definition pending_backend : backend :=
  instant (fun _ => inr (JObj {[ "job" := JObj {[ "status" := JNum 2 ]} ]})).

(** The mocks of the test [should poll for async results]: the POST returns a
    job handle, the GET a completed job with its result inline. *)
Definition inline_result : json :=
  JObj {[ "id" := JNum 1;
          "data" := JObj {[ "columns" := JArr []; "rows" := JArr [] ]} ]}.
Definition completed_backend : backend :=
  instant (fun r =>
    match req_method r with
    | POST => inr (JObj {[ "job" := JObj {[ "id" := JStr "job-123" ]} ]})
    | _ => inr (JObj {[ "job" := JObj {[ "status" := JNum 3;
                                         "result" := inline_result ]} ]})
    end).

(** The job has failed with [syntax error]. *)
Definition failed_backend : backend :=
  instant (fun r =>
    match req_method r with
    | POST => inr (JObj {[ "job" := JObj {[ "id" := JStr "job-123" ]} ]})
    | _ => inr (JObj {[ "job" := JObj {[ "status" := JNum 4;
                                         "error" := JStr "syntax error" ]} ]})
    end).

(** The job has completed and points to a persisted result, but the network
    is lost before that result is fetched. *)
Definition fetch_rejected_backend : backend :=
  instant (fun r =>
    if String.eqb (req_url r) "/api/jobs/job-123"
    then inr (JObj {[ "job" := JObj {[ "status" := JNum 3;
                                       "query_result_id" := JNum 42 ]} ]})
    else inl (AxiosError "Network Error" None true)).

(** The remote answers every request with status 500. *)
Definition internal_error : thrown :=
  AxiosError "Request failed with status code 500"
             (Some (500, JObj {[ "message" := JStr "Internal Server Error" ]})) true.
Definition rejecting_backend : backend := instant (fun _ => inl internal_error).

(** The remote answers the POST with the result itself. *)
Definition immediate_result : json :=
  JObj {[ "id" := JNum 1; "query_id" := JNum 123;
          "data" := JObj {[ "columns" := JArr []; "rows" := JArr [] ]} ]}.
Definition immediate_backend : backend := instant (fun _ => inr immediate_result).

(** A backend on which every request succeeds at once with an empty object,
    as the mocked [delete] of the tests. *)
Definition accepting_backend : backend := instant (fun _ => inr (JObj ∅)).

Definition job_123 : json := JStr "job-123".
Definition start : world := World 0 [].

(** An object with a property [toString], as [JSON.parse] gives for the text
    [{ toString: 1 }]; an error response with such a [message]; a remote that
    answers every request with it. *)
Definition odd_object : json := JObj {[ "toString" := JNum 1 ]}.
Definition bad_request : thrown :=
  AxiosError "Request failed with status code 400"
             (Some (400, JObj {[ "message" := odd_object ]})) true.
Definition odd_backend : backend := instant (fun _ => inl bad_request).

(** The job has completed, and its [query_result_id] is such an object. *)
Definition odd_result_backend : backend :=
  instant (fun _ => inr (JObj {[ "job" := JObj {[ "status" := JNum 3;
                                                  "query_result_id" := odd_object ]} ]})).

(** The first poll takes longer than the timeout and finds the job completed,
    with a persisted result. *)
Definition slow_backend : backend :=
  {| respond := fun _ r =>
       if String.eqb (req_url r) "/api/jobs/job-123"
       then (inr (JObj {[ "job" := JObj {[ "status" := JNum 3;
                                           "query_result_id" := JNum 42 ]} ]}),
             70000%N)
       else (inr inline_result, 0%N);
     timer_lag := fun _ => 0%N |}.

(** ** The rest of the client *)

Module Gateway.

(** The seven keys of the body [createQuery] posts. *)
Definition CreateQueryRequest_fields : list string :=
  ["name"; "data_source_id"; "query"; "description"; "options"; "schedule"; "tags"].

(** The payload [createQuery] builds: the optional fields fall back to
    defaults with [||]. *)
Definition createQuery_requestData (queryData : gmap string json) : gmap string json :=
  {[ "name" := get "name" queryData;
     "data_source_id" := get "data_source_id" queryData;
     "query" := get "query" queryData;
     "description" := or_else (get "description" queryData) (JStr EmptyString);
     "options" := or_else (get "options" queryData) (JObj ∅);
     "schedule" := or_else (get "schedule" queryData) JNull;
     "tags" := or_else (get "tags" queryData) (JArr []) ]}.

(** [{ count, page, pageSize: page_size, results }] read off [response.data]. *)
Definition paged (data : json) : M json :=
  let* count := member data "count" in
  let* page := member data "page" in
  let* page_size := member data "page_size" in
  let* results := member data "results" in
  ret (JObj {[ "count" := count; "page" := page; "pageSize" := page_size;
               "results" := results ]}).

Section Methods.

Variable JSON_stringify : json -> json.
Variable env : backend.

(** [this.client.get(url, config)]: for a GET that passes a config object, the
    object is the third component of the request. *)
Definition client_get_config (url : string) (config : gmap string json) : M json :=
  http env (Request GET url (JObj config)).

(** [this.client.post(url)], without data. *)
Definition client_post_empty (url : string) : M json :=
  http env (Request POST url JUndefined).

(** [getQueries(page = 1, pageSize = 25, q?)]: an argument left out is [None]. *)
Definition getQueries (page pageSize : option Z) (q : json) : M json :=
  try_catch
    (let* data :=
       client_get_config "/api/queries"
         {[ "params" := JObj {[ "page" := JNum (default 1 page);
                                "page_size" := JNum (default 25 pageSize);
                                "q" := q ]} ]} in
     paged data)
    (fun _ => throw (Error "Failed to fetch queries from Redash")).

Definition getDashboards (page pageSize : option Z) : M json :=
  try_catch
    (let* data :=
       client_get_config "/api/dashboards"
         {[ "params" := JObj {[ "page" := JNum (default 1 page);
                                "page_size" := JNum (default 25 pageSize) ]} ]} in
     paged data)
    (fun _ => throw (Error "Failed to fetch dashboards from Redash")).

Definition getQuery (queryId : Z) : M json :=
  try_catch
    (client_get env ("/api/queries/" +:+ string_of_Z queryId))
    (fun _ => throw (Error ("Failed to fetch query " +:+ string_of_Z queryId +:+
                            " from Redash"))).

Definition getDataSources : M json :=
  try_catch
    (client_get env "/api/data_sources")
    (fun _ => throw (Error "Failed to fetch data sources from Redash")).

Definition getDashboard (dashboardId : Z) : M json :=
  try_catch
    (client_get env ("/api/dashboards/" +:+ string_of_Z dashboardId))
    (fun _ => throw (Error ("Failed to fetch dashboard " +:+ string_of_Z dashboardId +:+
                            " from Redash"))).

Definition getVisualization (visualizationId : Z) : M json :=
  try_catch
    (client_get env ("/api/visualizations/" +:+ string_of_Z visualizationId))
    (fun _ => throw (Error ("Failed to fetch visualization " +:+
                            string_of_Z visualizationId +:+ " from Redash"))).

Definition getSchema (dataSourceId : Z) : M json :=
  try_catch
    (client_get env ("/api/data_sources/" +:+ string_of_Z dataSourceId +:+ "/schema"))
    (fun _ => throw (Error ("Failed to fetch data source " +:+ string_of_Z dataSourceId +:+
                            " schema from Redash"))).

(** [createQuery]: its inner [catch (axiosError: any)] is, statement for
    statement, the one of [updateQuery].  After the POST, the log line
    [`Created query with ID: ${response.data.id}`] reads [id] off the body and
    converts it, inside the inner [try]. *)
Definition createQuery (queryData : gmap string json) : M json :=
  try_catch
    (try_catch
       (let requestData := createQuery_requestData queryData in
        let* data := client_post env "/api/queries" (JObj requestData) in
        let* id := member data "id" in
        await ToString id;
        ret data)
       (updateQuery_inner_catch JSON_stringify))
    (fun error => throw (Error ("Failed to create query: " +:+ errorText error))).

(** The [catch (error)] clause of [getQueryResultsAsCsv], as the value thrown
    (see [pollQueryResults_catch]); here the body of an error response is
    itself put in the message. *)
Definition getQueryResultsAsCsv_catch (queryId : Z) (error : thrown) : thrown :=
  match error with
  | AxiosError _ (Some (statusCode, errorData)) _ =>
      if converts errorData
      then Error ("Failed to fetch CSV results for query " +:+ string_of_Z queryId +:+
                  ": Redash API error (" +:+ string_of_Z statusCode +:+ "): " +:+
                  toString errorData)
      else cannot_convert
  | AxiosError msg None true =>
      Error ("Failed to fetch CSV results for query " +:+ string_of_Z queryId +:+
             ": No response received from Redash API: " +:+ msg)
  | AxiosError msg None false =>
      Error ("Failed to fetch CSV results for query " +:+ string_of_Z queryId +:+
             ": " +:+ msg)
  | Error msg =>
      Error ("Failed to fetch CSV results for query " +:+ string_of_Z queryId +:+
             ": " +:+ msg)
  | Thrown v =>
      if converts v
      then Error ("Failed to fetch CSV results for query " +:+ string_of_Z queryId +:+
                  ": " +:+ toString v)
      else cannot_convert
  end.

(** The GET of the CSV rendering. *)
Definition csv_request (queryId : Z) : request :=
  Request GET ("/api/queries/" +:+ string_of_Z queryId +:+ "/results.csv")
          (JObj {[ "responseType" := JStr "text" ]}).

(** [getQueryResultsAsCsv(queryId, refresh = false)] *)
Definition getQueryResultsAsCsv (fuel : nat) (queryId : Z) (refresh : bool) : M json :=
  try_catch
    (await (if refresh
            then executeQuery JSON_stringify env fuel queryId JUndefined
            else ret JUndefined);
     client_get_config ("/api/queries/" +:+ string_of_Z queryId +:+ "/results.csv")
                       {[ "responseType" := JStr "text" ]})
    (fun error => throw (getQueryResultsAsCsv_catch queryId error)).

(** The operations that answer [{ success: true }] besides the archive and
    delete ones. *)
Definition unshareDashboard (dashboardId : Z) : M json :=
  try_catch
    (await client_delete env ("/api/dashboards/" +:+ string_of_Z dashboardId +:+ "/share");
     ret success_true)
    (fun error =>
       throw (Error ("Failed to unshare dashboard " +:+ string_of_Z dashboardId +:+ ": "
                     +:+ errorText error))).

Definition addDashboardFavorite (dashboardId : Z) : M json :=
  try_catch
    (await client_post_empty ("/api/dashboards/" +:+ string_of_Z dashboardId +:+ "/favorite");
     ret success_true)
    (fun error =>
       throw (Error ("Failed to add dashboard " +:+ string_of_Z dashboardId +:+
                     " to favorites: " +:+ errorText error))).

Definition removeDashboardFavorite (dashboardId : Z) : M json :=
  try_catch
    (await client_delete env ("/api/dashboards/" +:+ string_of_Z dashboardId +:+ "/favorite");
     ret success_true)
    (fun error =>
       throw (Error ("Failed to remove dashboard " +:+ string_of_Z dashboardId +:+
                     " from favorites: " +:+ errorText error))).

Definition muteAlert (alertId : Z) : M json :=
  try_catch
    (await client_post_empty ("/api/alerts/" +:+ string_of_Z alertId +:+ "/mute");
     ret success_true)
    (fun error =>
       throw (Error ("Failed to mute alert " +:+ string_of_Z alertId +:+ ": " +:+
                     errorText error))).

Definition removeAlertSubscription (alertId subscriptionId : Z) : M json :=
  try_catch
    (await client_delete env ("/api/alerts/" +:+ string_of_Z alertId +:+
                              "/subscriptions/" +:+ string_of_Z subscriptionId);
     ret success_true)
    (fun error =>
       throw (Error ("Failed to remove subscription " +:+ string_of_Z subscriptionId +:+
                     " from alert " +:+ string_of_Z alertId +:+ ": " +:+
                     errorText error))).

Definition addQueryFavorite (queryId : Z) : M json :=
  try_catch
    (await client_post_empty ("/api/queries/" +:+ string_of_Z queryId +:+ "/favorite");
     ret success_true)
    (fun error =>
       throw (Error ("Failed to add query " +:+ string_of_Z queryId +:+
                     " to favorites: " +:+ errorText error))).

Definition removeQueryFavorite (queryId : Z) : M json :=
  try_catch
    (await client_delete env ("/api/queries/" +:+ string_of_Z queryId +:+ "/favorite");
     ret success_true)
    (fun error =>
       throw (Error ("Failed to remove query " +:+ string_of_Z queryId +:+
                     " from favorites: " +:+ errorText error))).

End Methods.

End Gateway.
Export Gateway.

(** ** The server: tool handlers and resources ([src/index.ts], lines 1-2556) *)

Module Server.

(** [{ content: [{ type: "text", text }] }], the result of a tool, and the
    same with [isError: true]. *)
Definition tool_result (text : json) : json :=
  JObj {[ "content" := JArr [JObj {[ "type" := JStr "text"; "text" := text ]}] ]}.
Definition tool_error (text : string) : json :=
  JObj {[ "isError" := JBool true;
          "content" := JArr [JObj {[ "type" := JStr "text"; "text" := JStr text ]}] ]}.

(** The [queryData] the tool [update_query] builds from [updateData], the
    parameters other than [queryId]. *)
Definition updateQuery_queryData (updateData : gmap string json) : gmap string json :=
  let queryData : gmap string json := ∅ in
  let queryData := copy_defined "name" updateData queryData in
  let queryData := copy_defined "data_source_id" updateData queryData in
  let queryData := copy_defined "query" updateData queryData in
  let queryData := copy_defined "description" updateData queryData in
  let queryData := copy_defined "options" updateData queryData in
  let queryData := copy_defined "schedule" updateData queryData in
  let queryData := copy_defined "tags" updateData queryData in
  let queryData := copy_defined "is_archived" updateData queryData in
  let queryData := copy_defined "is_draft" updateData queryData in
  queryData.

(** The [queryData] the tool [create_query] builds from its parameters. *)
Definition createQuery_queryData (params : gmap string json) : gmap string json :=
  {[ "name" := get "name" params;
     "data_source_id" := get "data_source_id" params;
     "query" := get "query" params;
     "description" := or_else (get "description" params) (JStr EmptyString);
     "options" := or_else (get "options" params) (JObj ∅);
     "schedule" := or_else (get "schedule" params) JNull;
     "tags" := or_else (get "tags" params) (JArr []) ]}.

(** [\d]: an ASCII decimal digit. *)
Definition is_digit (c : ascii) : bool :=
  (48 <=? nat_of_ascii c)%nat && (nat_of_ascii c <=? 57)%nat.

(** [\d+] up to the end of the string. *)
Fixpoint all_digits (s : string) : bool :=
  match s with
  | EmptyString => true
  | String c s' => is_digit c && all_digits s'
  end.
Definition digits (s : string) : bool :=
  negb (String.eqb s EmptyString) && all_digits s.

(** What is left of [s] after the literal [p], when [s] starts with it. *)
Fixpoint strip_prefix (p s : string) : option string :=
  match p, s with
  | EmptyString, _ => Some s
  | String a p', String b s' => if Ascii.eqb a b then strip_prefix p' s' else None
  | String _ _, EmptyString => None
  end.

(** [uri.match(/^redash:\/\/(query|dashboard)\/(\d+)$/)]: the two groups of
    the match, or [None] for [null]. *)
Definition match_resource_uri (uri : string) : option (string * string) :=
  match strip_prefix "redash://" uri with
  | None => None
  | Some rest =>
      match
        match strip_prefix "query/" rest with
        | Some id => if digits id then Some ("query", id) else None
        | None => None
        end
      with
      | Some m => Some m
      | None =>
          match strip_prefix "dashboard/" rest with
          | Some id => if digits id then Some ("dashboard", id) else None
          | None => None
          end
      end
  end.

(** [xs.map(f)] for a callback that may throw. *)
Fixpoint mapM {A B : Type} (f : A -> M B) (xs : list A) : M (list B) :=
  match xs with
  | [] => ret []
  | x :: xs' =>
      let* y := f x in
      let* ys := mapM f xs' in
      ret (y :: ys)
  end.

(** [v.map(f)] for [v] of any type; [what] is the text of the expression [v]
    (the messages are V8's). *)
Definition array_map (what : string) (f : json -> M json) (v : json) : M (list json) :=
  match v with
  | JArr xs => mapM f xs
  | JUndefined | JNull =>
      throw (Error ("Cannot read properties of " +:+ toString v +:+ " (reading 'map')"))
  | _ => throw (Error (what +:+ ".map is not a function"))
  end.

(** The callbacks of [ListResources]: the [uri] is built first, by a template
    literal that converts the [id]. *)
Definition query_resource (query : json) : M json :=
  let* id := member query "id" in
  let* id := ToString id in
  ret (JObj {[ "uri" := JStr ("redash://query/" +:+ id);
               "name" := field "name" query;
               "description" := or_else (field "description" query)
                                        (JStr ("Query ID: " +:+ id)) ]}).

Definition dashboard_resource (dashboard : json) : M json :=
  let* id := member dashboard "id" in
  let* id := ToString id in
  ret (JObj {[ "uri" := JStr ("redash://dashboard/" +:+ id);
               "name" := field "name" dashboard;
               "description" := JStr ("Dashboard ID: " +:+ id) ]}).

Section Handlers.

(** [JSON.stringify(v)], [JSON.stringify(v, null, 2)] and [parseInt(s, 10)]. *)
Variable JSON_stringify : json -> json.
Variable JSON_stringify_pretty : json -> json.
Variable parseInt : string -> Z.
Variable env : backend.

(** Tool [update_query], for [params = { queryId, ...updateData }]. *)
Definition updateQuery (queryId : Z) (updateData : gmap string json) : M json :=
  try_catch
    (let queryData := updateQuery_queryData updateData in
     let* result := RedashClient.updateQuery JSON_stringify env queryId queryData in
     ret (tool_result (JSON_stringify_pretty result)))
    (fun error =>
       ret (tool_error ("Error updating query " +:+ string_of_Z queryId +:+ ": " +:+
                        errorText error))).

(** Tool [create_query]. *)
Definition createQuery (params : gmap string json) : M json :=
  try_catch
    (let queryData := createQuery_queryData params in
     let* result := Gateway.createQuery JSON_stringify env queryData in
     ret (tool_result (JSON_stringify_pretty result)))
    (fun error => ret (tool_error ("Error creating query: " +:+ errorText error))).

(** Tool [execute_query]. *)
Definition executeQuery (fuel : nat) (queryId : Z) (parameters : json) : M json :=
  try_catch
    (let* result := RedashClient.executeQuery JSON_stringify env fuel queryId parameters in
     ret (tool_result (JSON_stringify_pretty result)))
    (fun error =>
       ret (tool_error ("Error executing query " +:+ string_of_Z queryId +:+ ": " +:+
                        errorText error))).

(** Tool [get_query_results_csv]. *)
Definition getQueryResultsCsv (fuel : nat) (queryId : Z) (refresh : bool) : M json :=
  try_catch
    (let* csv := getQueryResultsAsCsv JSON_stringify env fuel queryId refresh in
     ret (tool_result csv))
    (fun error =>
       ret (tool_error ("Error getting CSV results for query " +:+ string_of_Z queryId +:+
                        ": " +:+ errorText error))).

(** The handler of [ListResourcesRequestSchema]. *)
Definition listResources : M json :=
  try_catch
    (let* queries := getQueries env (Some 1) (Some 100) JUndefined in
     let* queryResources :=
       array_map "queries.results" query_resource (field "results" queries) in
     let* dashboards := getDashboards env (Some 1) (Some 100) in
     let* dashboardResources :=
       array_map "dashboards.results" dashboard_resource (field "results" dashboards) in
     ret (JObj {[ "resources" := JArr (queryResources ++ dashboardResources) ]}))
    (fun _ => ret (JObj {[ "resources" := JArr [] ]})).

(** [{ contents: [{ uri, mimeType: "application/json", text }] }] *)
Definition resource_contents (uri : string) (text : json) : json :=
  JObj {[ "contents" :=
            JArr [JObj {[ "uri" := JStr uri;
                          "mimeType" := JStr "application/json";
                          "text" := text ]}] ]}.

(** The handler of [ReadResourceRequestSchema]. *)
Definition readResource (fuel : nat) (uri : string) : M json :=
  try_catch
    (match match_resource_uri uri with
     | None => throw (Error ("Invalid resource URI: " +:+ uri))
     | Some (type, id) =>
         let resourceId := parseInt id in
         if String.eqb type "query" then
           let* query := getQuery env resourceId in
           let* result :=
             RedashClient.executeQuery JSON_stringify env fuel resourceId JUndefined in
           ret (resource_contents uri
                  (JSON_stringify_pretty (JObj {[ "query" := query; "result" := result ]})))
         else if String.eqb type "dashboard" then
           let* dashboard := getDashboard env resourceId in
           ret (resource_contents uri (JSON_stringify_pretty dashboard))
         else throw (Error ("Unsupported resource type: " +:+ type))
     end)
    (fun error => throw error).

End Handlers.

End Server.

(** ** Vocabulary of the further statements *)

(** A read [op]: one GET to [url]; the body is returned as it is, and every
    rejection becomes the one message [failure]. *)
Definition reads (op : backend -> M json) (url failure : string) : Prop :=
  forall (env : backend) (w : world),
    let r := Request GET url JUndefined in
    match respond env w r with
    | (inr data, d) => op env w = (Return data, after_request r d w)
    | (inl _, d) => op env w = (Throw (Error failure), after_request r d w)
    end.

(** The page a list operation returns for the body [data]. *)
Definition page_of (data : json) : json :=
  JObj {[ "count" := field "count" data; "page" := field "page" data;
          "pageSize" := field "page_size" data; "results" := field "results" data ]}.

(** A list [op]: one GET [r]; a body other than [null] gives its page, and
    anything else the one message [failure]. *)
Definition lists (op : backend -> M json) (r : request) (failure : string) : Prop :=
  forall (env : backend) (w : world),
    match respond env w r with
    | (inr data, d) =>
        op env w =
        (if nullish data then Throw (Error failure) else Return (page_of data),
         after_request r d w)
    | (inl _, d) => op env w = (Throw (Error failure), after_request r d w)
    end.

(** What [createQuery] and [updateQuery] throw, after the prefix of the
    operation, for a rejection [e] of their POST that is an [Error]. *)
Definition mutation_failure (JSON_stringify : json -> json) (e : thrown) : string :=
  match e with
  | AxiosError _ (Some (status, data)) _ =>
      "Redash API error (" +:+ string_of_Z status +:+ "): " +:+
      toString (JSON_stringify data)
  | AxiosError msg None true => "No response received from Redash API: " +:+ msg
  | _ => errorText e
  end.

(** An [op] that sends the one request [r id], answers [{ success: true }]
    when it succeeds and otherwise throws [failure id] followed by the cause. *)
Definition acknowledges {I : Type} (op : backend -> I -> M json) (r : I -> request)
    (failure : I -> string) : Prop :=
  forall (env : backend) (id : I) (w : world),
    match respond env w (r id) with
    | (inr _, d) => op env id w = (Return success_true, after_request (r id) d w)
    | (inl e, d) =>
        op env id w =
        (Throw (Error (failure id +:+ errorText e)), after_request (r id) d w)
    end.

(** The remote answers every request with the body [null]. *)
Definition null_backend : backend := instant (fun _ => inr JNull).

(** The remote answers every poll with a job whose status is the string [3]. *)
Definition string_status_backend : backend :=
  instant (fun _ => inr (JObj {[ "job" := JObj {[ "status" := JStr "3" ]} ]})).

(** Every character of [s] satisfies [P]. *)
Fixpoint string_forall (P : ascii -> bool) (s : string) : bool :=
  match s with
  | EmptyString => true
  | String c s' => P c && string_forall P s'
  end.

Definition is_equals (c : ascii) : bool := Ascii.eqb c "=".

(** White space only, of any kind that [trim] strips.  An ASCII character
    other than white space; a header name (not empty, of such characters other
    than [;], [,] and [=]); a header value (of such characters other than [;]
    and [,]). *)
Definition blank (s : string) : bool := String.eqb (trimStart s) EmptyString.
Definition plain (c : ascii) : bool :=
  (nat_of_ascii c <? 128)%nat && negb (white_space1 c).
Definition header_name (s : string) : bool :=
  negb (String.eqb s EmptyString) &&
  string_forall (fun c => plain c && negb (is_separator c) && negb (is_equals c)) s.
Definition header_value (s : string) : bool :=
  string_forall (fun c => plain c && negb (is_separator c)) s.

(** The encoding of a no-break space, U+00A0. *)
Definition no_break_space : string := String "194" (String "160" EmptyString).

(** A sequence of white space characters, by its encoding. *)
Inductive Blank : string -> Prop :=
| Blank_nil : Blank EmptyString
| Blank_1 a s : white_space1 a = true -> Blank s -> Blank (String a s)
| Blank_2 a b s : white_space2 a b = true -> Blank s -> Blank (String a (String b s))
| Blank_3 a b c s :
    white_space3 a b c = true -> Blank s -> Blank (String a (String b (String c s))).

(** One step of the loop of the fallback parser. *)
Definition keyValue_step (headers : gmap string string) (part : string)
  : gmap string string :=
  match indexOf part "=" with
  | None => headers
  | Some idx =>
      let key := trim (slice 0 idx part) in
      let value := trim (slice_from (idx + 1) part) in
      if String.eqb key EmptyString then headers else assign key value headers
  end.

(** A [tool] that runs [client] and turns each of its outcomes into a result:
    the text [ok v] for a value [v], and [isError] with [prefix] before the
    message for a throw. *)
Definition wraps (tool client : M json) (ok : json -> json) (prefix : string) : Prop :=
  forall w : world,
    tool w =
    match client w with
    | (Return v, w') => (Return (Server.tool_result (ok v)), w')
    | (Throw e, w') => (Return (Server.tool_error (prefix +:+ errorText e)), w')
    | (OutOfFuel, w') => (OutOfFuel, w')
    end.

(** [{ resources: [] }] *)
Definition no_resources : json := JObj {[ "resources" := JArr [] ]}.

(** The GETs of [ListResources]. *)
Definition list_queries_request : request :=
  Request GET "/api/queries"
    (JObj {[ "params" := JObj {[ "page" := JNum 1; "page_size" := JNum 100;
                                 "q" := JUndefined ]} ]}).

(** The integer that a string of decimal digits denotes (0 for another
    string).  For decimal digits, [parseInt(s, 10)] returns the number that
    this integer stands for: the integer itself when it is safe, and the
    double nearest to it beyond (where ECMAScript lets an implementation
    ignore the digits after the 20th). *)
Definition decimal_value (s : string) : Z :=
  match NilEmpty.uint_of_string s with
  | Some u => Z.of_uint u
  | None => 0
  end.

(** The JSON text of [{ X-Api: 1 }], and a [JSON.parse] that knows this text
    only. *)
Definition quote : string := String "034" EmptyString.

Definition sample_json_text : string := "{" +:+ quote +:+ "X-Api" +:+ quote +:+ ":1}".

Definition sample_parse (s : string) : option json :=
  if String.eqb s sample_json_text then Some (JObj {[ "X-Api" := JNum 1 ]}) else None.

(** A computation that needs no fuel: it returns or throws. *)
Definition settles {A : Type} (m : M A) : Prop :=
  forall w : world, (m w).1 <> OutOfFuel.

(** ** Facts about strings *)

Section Strings.

Lemma app_cons (c : ascii) (a b : string) : String c a +:+ b = String c (a +:+ b).
Proof. reflexivity. Qed.

Lemma app_empty_l (b : string) : EmptyString +:+ b = b.
Proof. reflexivity. Qed.

Lemma app_empty_r (a : string) : a +:+ EmptyString = a.
Proof. induction a as [|c a IH]; [done | by rewrite app_cons, IH]. Qed.

Lemma app_assoc_str (a b c : string) : (a +:+ b) +:+ c = a +:+ (b +:+ c).
Proof. induction a as [|x a IH]; [done | by rewrite !app_cons, IH]. Qed.

Lemma prefix_app (p s : string) : String.prefix p (p +:+ s) = true.
Proof.
  induction p as [|c p IH].
  - by destruct s.
  - rewrite app_cons. simpl. destruct (ascii_dec c c); [exact IH | congruence].
Qed.

Lemma includes_unfold (s sub : string) :
  includes s sub =
  String.prefix sub s ||
  match s with
  | EmptyString => false
  | String _ s' => includes s' sub
  end.
Proof. by destruct s. Qed.

Lemma Contains_includes (s sub : string) : Contains s sub -> includes s sub = true.
Proof.
  intros (pre & post & ->). induction pre as [|c pre IH].
  - rewrite app_empty_l, includes_unfold, prefix_app. done.
  - rewrite app_cons, includes_unfold, IH. apply orb_true_r.
Qed.

Lemma Contains_suffix (a s sub : string) : Contains s sub -> Contains (a +:+ s) sub.
Proof.
  intros (pre & post & ->). exists (a +:+ pre), post. by rewrite app_assoc_str.
Qed.

Lemma Contains_here (a sub : string) : Contains (a +:+ sub) sub.
Proof. exists a, EmptyString. by rewrite app_empty_r. Qed.

(** Numbers as JavaScript prints them. *)
Example string_of_Z_samples :
  string_of_Z 123 = "123" /\ string_of_Z (-7) = "-7" /\
  string_of_Z 9007199254740993 = "9007199254740992" /\
  string_of_Z (2 ^ 60) = "1152921504606847000" /\
  string_of_Z (10 ^ 20) = "100000000000000000000" /\
  string_of_Z (10 ^ 21) = "1e+21" /\
  string_of_Z (2 ^ 70) = "1.1805916207174113e+21" /\
  string_of_Z (10 ^ 400) = "Infinity".
Proof. repeat split; by vm_compute. Qed.

End Strings.

(** ** Partial updates: the body of [updateQuery] *)

Section UpdateQuery.

Lemma updateQuery_requestData_fold (queryData : gmap string json) :
  updateQuery_requestData queryData =
  foldl (fun acc k => copy_defined k queryData acc) ∅ UpdateQueryRequest_fields.
Proof. reflexivity. Qed.

Lemma copy_defined_lookup (queryData acc : gmap string json) (x k : string) :
  copy_defined x queryData acc !! k =
  if decide (x = k)
  then if is_undefined (get k queryData) then acc !! k else Some (get k queryData)
  else acc !! k.
Proof.
  unfold copy_defined. case_decide as Hx.
  - subst x. destruct (is_undefined (get k queryData)); simpl; [done|].
    apply lookup_insert_eq.
  - destruct (is_undefined (get x queryData)); simpl; [done|].
    by apply lookup_insert_ne.
Qed.

Lemma copy_defined_fold_lookup (queryData : gmap string json) (fs : list string) :
  forall (acc : gmap string json) (k : string),
    foldl (fun acc k => copy_defined k queryData acc) acc fs !! k =
    if decide (k ∈ fs)
    then if is_undefined (get k queryData) then acc !! k else Some (get k queryData)
    else acc !! k.
Proof.
  induction fs as [|x fs IH]; intros acc k; cbn [foldl].
  - case_decide as H; [by apply elem_of_nil in H | done].
  - rewrite IH, copy_defined_lookup.
    destruct (decide (k ∈ x :: fs)) as [Hc|Hc].
    + destruct (decide (k ∈ fs)); destruct (decide (x = k));
        destruct (is_undefined (get k queryData)); try done;
        apply elem_of_cons in Hc as [?|?]; done || congruence.
    + apply not_elem_of_cons in Hc as [? ?].
      destruct (decide (k ∈ fs)); destruct (decide (x = k)); try done; congruence.
Qed.

Lemma updateQuery_requestData_lookup (queryData : gmap string json) (k : string) :
  updateQuery_requestData queryData !! k =
  if decide (k ∈ UpdateQueryRequest_fields)
  then if is_undefined (get k queryData) then None else Some (get k queryData)
  else None.
Proof.
  rewrite updateQuery_requestData_fold, copy_defined_fold_lookup.
  by rewrite lookup_empty.
Qed.

Lemma get_defined_lookup (o : gmap string json) (k : string) :
  is_undefined (get k o) = false -> o !! k = Some (get k o).
Proof. unfold get. by destruct (o !! k). Qed.

Lemma updateQuery_inner_catch_world (JSON_stringify : json -> json)
    (e : thrown) (w : world) :
  (updateQuery_inner_catch JSON_stringify e w).2 = w.
Proof.
  unfold updateQuery_inner_catch, member, bind, throw, ret.
  repeat case_match; simplify_eq/=; done.
Qed.

Lemma updateQuery_sent (JSON_stringify : json -> json) (env : backend)
    (queryId : Z) (queryData : gmap string json) (w : world) :
  sent (updateQuery JSON_stringify env queryId queryData w).2 =
  sent w ++ [Request POST ("/api/queries/" +:+ string_of_Z queryId)
                     (JObj (updateQuery_requestData queryData))].
Proof.
  unfold updateQuery, try_catch, client_post, http.
  destruct (respond env w _) as [[e|data] d]; simpl; [|done].
  pose proof (updateQuery_inner_catch_world JSON_stringify e
                (after_request (Request POST ("/api/queries/" +:+ string_of_Z queryId)
                   (JObj (updateQuery_requestData queryData))) d w)) as Hw.
  destruct (updateQuery_inner_catch _ _ _) as [[a|e'|] w']; simpl in *; by subst.
Qed.

(** C7. For a payload of type [UpdateQueryRequest], the body [updateQuery]
    posts has as keys exactly the keys of the payload whose value is not
    [undefined], each with the payload's own value. *)
Theorem updateQuery_body_keys (queryData : gmap string json) :
  dom queryData ⊆ list_to_set UpdateQueryRequest_fields ->
  exists requestData : gmap string json,
    (forall JSON_stringify env queryId w,
        sent (updateQuery JSON_stringify env queryId queryData w).2 =
        sent w ++ [Request POST ("/api/queries/" +:+ string_of_Z queryId)
                           (JObj requestData)]) /\
    dom requestData =
      filter (fun k => negb (is_undefined (get k queryData))) (dom queryData) /\
    (forall k, k ∈ dom requestData -> requestData !! k = queryData !! k).
Proof.
  intros Htyped. exists (updateQuery_requestData queryData).
  split; [intros; apply updateQuery_sent|]. split.
  - apply set_eq. intros k.
    rewrite elem_of_filter, !elem_of_dom, updateQuery_requestData_lookup.
    destruct (is_undefined (get k queryData)) eqn:Hu; simpl.
    + split; [|by intros [[] _]]. case_decide; by intros [? ?].
    + split.
      * intros _. split; [done|]. rewrite (get_defined_lookup _ _ Hu). by eexists.
      * intros [_ Hin]. case_decide as Hk; [by eexists|].
        exfalso. apply Hk. apply elem_of_dom in Hin. apply Htyped in Hin.
        by apply elem_of_list_to_set in Hin.
  - intros k. rewrite elem_of_dom, updateQuery_requestData_lookup.
    case_decide; [|by intros [? ?]].
    destruct (is_undefined (get k queryData)) eqn:Hu; [by intros [? ?]|].
    intros _. symmetry. by apply get_defined_lookup.
Qed.

Lemma updateQuery_body_keys_witness :
  let queryData : gmap string json :=
    {[ "name" := JStr "Updated Query"; "description" := JUndefined ]} in
  dom queryData ⊆ list_to_set UpdateQueryRequest_fields /\
  exists requestData : gmap string json,
    (forall JSON_stringify env queryId w,
        sent (updateQuery JSON_stringify env queryId queryData w).2 =
        sent w ++ [Request POST ("/api/queries/" +:+ string_of_Z queryId)
                           (JObj requestData)]) /\
    dom requestData =
      filter (fun k => negb (is_undefined (get k queryData))) (dom queryData) /\
    (forall k, k ∈ dom requestData -> requestData !! k = queryData !! k).
Proof.
  assert (H : dom ({[ "name" := JStr "Updated Query"; "description" := JUndefined ]}
                     : gmap string json)
              ⊆ list_to_set UpdateQueryRequest_fields).
  { apply (bool_decide_unpack _). vm_compute. exact I. }
  split; [exact H | exact (updateQuery_body_keys _ H)].
Defined.

(** The test [should only include defined fields]. *)
Example updateQuery_only_defined_fields :
  updateQuery_requestData {[ "name" := JStr "Updated Query"; "description" := JUndefined ]}
  = {[ "name" := JStr "Updated Query" ]}.
Proof. reflexivity. Qed.

End UpdateQuery.

(** ** Header construction *)

Section Headers.

Variable JSON_parse : string -> option json.

(** The [Authorization] entry of the headers handed to [axios.create]: the
    derived one, unless the extra headers hold an empty [Authorization] and no
    non-empty [authorization]. *)
Lemma constructor_Authorization (url key raw : option string) (cfg : AxiosConfig) :
  constructor JSON_parse url key raw = inr cfg ->
  let extraHeaders := parseExtraHeaders JSON_parse raw in
  headers cfg !! "Authorization" =
  if header_truthy (extraHeaders !! "Authorization")
     || header_truthy (extraHeaders !! "authorization")
  then Some ("Key " +:+ default EmptyString key)
  else match extraHeaders !! "Authorization" with
       | Some v => Some v
       | None => Some ("Key " +:+ default EmptyString key)
       end.
Proof.
  intros H. unfold constructor in H. cbv zeta.
  set (extraHeaders := parseExtraHeaders JSON_parse raw) in *.
  destruct (_ || _) in H; [discriminate|]. injection H as <-. cbn [headers].
  rewrite lookup_union.
  assert (Hd : ({[ "Authorization" := "Key " +:+ default EmptyString key;
                   "Content-Type" := "application/json" ]} : gmap string string)
               !! "Authorization" = Some ("Key " +:+ default EmptyString key)).
  { apply lookup_insert_eq. }
  rewrite Hd. destruct (_ || _).
  - rewrite lookup_delete_ne by done. rewrite lookup_delete_eq. done.
  - by destruct (extraHeaders !! "Authorization").
Qed.

(** C8, at an extra header [Authorization] with an empty value: the entry is
    not dropped, and it replaces the derived [Authorization] header. *)
Theorem constructor_empty_Authorization_overrides :
  JSON_parse "Authorization=" = None ->
  exists cfg : AxiosConfig,
    constructor JSON_parse (Some "https://redash.example.com") (Some "test-api-key")
                (Some "Authorization=") = inr cfg /\
    headers cfg !! "Authorization" = Some EmptyString /\
    headers cfg !! "Authorization" <> Some "Key test-api-key".
Proof.
  intros Hparse.
  assert (Hextra : parseExtraHeaders JSON_parse (Some "Authorization=")
                   = parseKeyValue "Authorization=").
  { unfold parseExtraHeaders. by rewrite Hparse. }
  unfold constructor. rewrite Hextra.
  eexists. split; [reflexivity|]. split; [by vm_compute | by vm_compute].
Qed.

End Headers.

Lemma constructor_empty_Authorization_overrides_witness :
  (fun _ : string => @None json) "Authorization=" = None /\
  exists cfg : AxiosConfig,
    constructor (fun _ => None) (Some "https://redash.example.com")
                (Some "test-api-key") (Some "Authorization=") = inr cfg /\
    headers cfg !! "Authorization" = Some EmptyString /\
    headers cfg !! "Authorization" <> Some "Key test-api-key".
Proof.
  split; [reflexivity|].
  apply (constructor_empty_Authorization_overrides (fun _ => None)). reflexivity.
Defined.

(** The test [should prevent Authorization header override]: whatever the text
    [raw], if it parses to [{ Authorization: 'malicious-key' }] the derived
    header stays. *)
Example constructor_drops_malicious_key :
  forall JSON_parse raw cfg,
    JSON_parse raw = Some (JObj {[ "Authorization" := JStr "malicious-key" ]}) ->
    String.eqb raw EmptyString = false ->
    constructor JSON_parse (Some "https://redash.example.com") (Some "test-api-key")
                (Some raw) = inr cfg ->
    headers cfg !! "Authorization" = Some "Key test-api-key".
Proof.
  intros JSON_parse raw cfg Hparse Hraw Hcfg.
  rewrite (constructor_Authorization _ _ _ _ _ Hcfg).
  unfold parseExtraHeaders. rewrite Hraw, Hparse. reflexivity.
Qed.

(** ** Archive and delete operations *)

Section Removal.

Ltac run_delete :=
  intros env id w; cbv zeta;
  unfold try_catch, bind, client_delete, http, ret, throw;
  destruct (respond env w _) as [[e|data] d]; reflexivity.

Lemma archiveQuery_reports : reports_success archiveQuery "/api/queries/" "archive query".
Proof. unfold reports_success, archiveQuery. run_delete. Qed.

Lemma archiveDashboard_reports :
  reports_success archiveDashboard "/api/dashboards/" "archive dashboard".
Proof. unfold reports_success, archiveDashboard. run_delete. Qed.

Lemma deleteAlert_reports : reports_success deleteAlert "/api/alerts/" "delete alert".
Proof. unfold reports_success, deleteAlert. run_delete. Qed.

Lemma deleteWidget_reports : reports_success deleteWidget "/api/widgets/" "delete widget".
Proof. unfold reports_success, deleteWidget. run_delete. Qed.

Lemma deleteQuerySnippet_reports :
  reports_success deleteQuerySnippet "/api/query_snippets/" "delete query snippet".
Proof. unfold reports_success, deleteQuerySnippet. run_delete. Qed.

(** C9, amended.  [archiveQuery], [archiveDashboard], [deleteAlert],
    [deleteWidget] and [deleteQuerySnippet] send one DELETE to the id-scoped
    endpoint, return [{ success: true }] when it succeeds and throw an error
    naming the entity and the id when it does not.  [deleteVisualization] does
    the same except that it returns [undefined] on success. *)
Theorem removal_results :
  reports_success archiveQuery "/api/queries/" "archive query" /\
  reports_success archiveDashboard "/api/dashboards/" "archive dashboard" /\
  reports_success deleteAlert "/api/alerts/" "delete alert" /\
  reports_success deleteWidget "/api/widgets/" "delete widget" /\
  reports_success deleteQuerySnippet "/api/query_snippets/" "delete query snippet" /\
  forall (env : backend) (id : Z) (w : world),
    let r := Request DELETE ("/api/visualizations/" +:+ string_of_Z id) JUndefined in
    match respond env w r with
    | (inr _, d) => deleteVisualization env id w = (Return JUndefined, after_request r d w)
    | (inl _, d) =>
        deleteVisualization env id w =
        (Throw (Error ("Failed to delete visualization " +:+ string_of_Z id)),
         after_request r d w)
    end.
Proof.
  repeat split;
    [ apply archiveQuery_reports | apply archiveDashboard_reports
    | apply deleteAlert_reports | apply deleteWidget_reports
    | apply deleteQuerySnippet_reports | ].
  unfold deleteVisualization. run_delete.
Qed.

(** C9 as stated fails for [deleteVisualization]: a successful DELETE yields
    [undefined], not [{ success: true }]. *)
Lemma deleteVisualization_returns_undefined :
  respond accepting_backend (World 0 [])
          (Request DELETE "/api/visualizations/1" JUndefined) = (inr (JObj ∅), 0%N) /\
  (deleteVisualization accepting_backend 1 (World 0 [])).1 = Return JUndefined /\
  (deleteVisualization accepting_backend 1 (World 0 [])).1 <> Return success_true.
Proof. repeat split. discriminate. Qed.

(** The tests of [archiveQuery]. *)
Example archiveQuery_1 :
  archiveQuery accepting_backend 1 (World 0 [])
  = (Return success_true, World 0 [Request DELETE "/api/queries/1" JUndefined]).
Proof. reflexivity. Qed.

Example archiveQuery_999_not_found :
  (archiveQuery {| respond := fun _ _ => (inl (Error "Not found"), 0%N);
                   timer_lag := fun _ => 0%N |} 999 (World 0 [])).1
  = Throw (Error "Failed to archive query 999: Not found").
Proof. reflexivity. Qed.

End Removal.

(** ** The query-execution bridge *)

Section Running.

Variable env : backend.

Lemma bind_http_ok {B} (r : request) (k : json -> M B) (w : world) data d :
  respond env w r = (inr data, d) ->
  bind (http env r) k w = k data (after_request r d w).
Proof. intros H. unfold bind, http. by rewrite H. Qed.

Lemma bind_http_err {B} (r : request) (k : json -> M B) (w : world) e d :
  respond env w r = (inl e, d) ->
  bind (http env r) k w = (Throw e, after_request r d w).
Proof. intros H. unfold bind, http. by rewrite H. Qed.

Lemma bind_member_ok {B} (v : json) (key : string) (k : json -> M B) (w : world) :
  nullish v = false -> bind (member v key) k w = k (field key v) w.
Proof. intros H. unfold bind, member. by rewrite H. Qed.

Lemma bind_ToString {B} (v : json) (k : string -> M B) (w : world) :
  bind (ToString v) k w =
  if converts v then k (toString v) w else (Throw cannot_convert, w).
Proof. unfold bind, ToString. by destruct (converts v). Qed.

Lemma strict_eq_num_field_object (k : string) (v : json) (n : Z) :
  strict_eq_num (field k v) n = true -> nullish v = false.
Proof. by destruct v. Qed.

Lemma strict_eq_num_inv (v : json) (n : Z) : strict_eq_num v n = true -> v = JNum n.
Proof. destruct v; simpl; try done. by intros ->%Z.eqb_eq. Qed.

End Running.

Section Bridge.

Variable JSON_stringify : json -> json.
Variable env : backend.
Variables (jobId : json) (timeout interval startTime : Z).

#[local] Abbreviation poll_try := (poll_try env jobId interval).
#[local] Abbreviation poll_iteration := (poll_iteration JSON_stringify env jobId interval).
#[local] Abbreviation poll_loop fuel :=
  (poll_loop JSON_stringify env fuel jobId timeout interval startTime).
#[local] Abbreviation catch := (pollQueryResults_catch JSON_stringify jobId).

(** One iteration after its GET has been answered with a body that carries a
    job. *)
Lemma poll_try_answered (w : world) (data : json) (d : N) :
  respond env w (poll_request jobId) = (inr data, d) ->
  nullish data = false ->
  nullish (field "job" data) = false ->
  let job := field "job" data in
  let errorDetails := or_else (field "error" job) (JStr "Unknown error") in
  poll_try w =
  (if strict_eq_num (field "status" job) 3 then
     if truthy (field "query_result_id" job) then
       if converts (field "query_result_id" job) then
         bind (http env (result_request (field "query_result_id" job)))
              (fun resultData => ret (Some resultData))
       else throw cannot_convert
     else ret (Some (field "result" job))
   else if strict_eq_num (field "status" job) 4 then
     if converts errorDetails
     then throw (Error ("Query execution failed: " +:+ toString errorDetails))
     else throw cannot_convert
   else bind (sleep env interval) (fun _ => ret None))
    (after_request (poll_request jobId) d w).
Proof.
  intros Hresp Hdata Hjob job errorDetails. unfold RedashClient.poll_try, client_get.
  fold (poll_request jobId). rewrite (bind_http_ok _ _ _ _ _ _ Hresp).
  rewrite bind_member_ok by done. rewrite bind_member_ok by done. fold job.
  destruct (strict_eq_num (field "status" job) 3).
  - destruct (truthy (field "query_result_id" job)); [|reflexivity].
    rewrite bind_ToString. by destruct (converts (field "query_result_id" job)).
  - destruct (strict_eq_num (field "status" job) 4); [|reflexivity].
    cbv zeta. rewrite bind_ToString. fold errorDetails.
    by destruct (converts errorDetails).
Qed.

Lemma poll_try_rejected (w : world) (e : thrown) (d : N) :
  respond env w (poll_request jobId) = (inl e, d) ->
  poll_try w = (Throw e, after_request (poll_request jobId) d w).
Proof.
  intros Hresp. unfold RedashClient.poll_try, client_get. fold (poll_request jobId).
  by rewrite (bind_http_err _ _ _ _ _ _ Hresp).
Qed.

Lemma poll_iteration_eq (w : world) :
  poll_iteration w =
  match poll_try w with
  | (Throw e, w') => (Throw (catch e), w')
  | r => r
  end.
Proof. reflexivity. Qed.

Lemma poll_loop_S (fuel : nat) (w : world) :
  poll_loop (S fuel) w =
  if now w - startTime <? timeout then
    match poll_iteration w with
    | (Return (Some v), w') => (Return v, w')
    | (Return None, w') => poll_loop fuel w'
    | (Throw e, w') => (Throw e, w')
    | (OutOfFuel, w') => (OutOfFuel, w')
    end
  else (Throw (timed_out timeout), w).
Proof.
  cbn [RedashClient.poll_loop]. unfold bind, Date_now.
  destruct (now w - startTime <? timeout); [|reflexivity].
  by destruct (poll_iteration w) as [[[v|]|e|] w'].
Qed.

(** The handler on an [Error] that is not the loop's own. *)
Lemma catch_Error (msg : string) :
  startsWith msg "Query execution failed:" = false ->
  catch (Error msg) = Error (poll_failure jobId +:+ msg).
Proof.
  intros Hmsg. unfold pollQueryResults_catch, poll_failure.
  cbn [instanceofError errorText andb]. rewrite Hmsg.
  by rewrite !app_assoc_str.
Qed.

Lemma catch_cannot_convert :
  catch cannot_convert
  = Error (poll_failure jobId +:+ "Cannot convert object to primitive value").
Proof. by apply catch_Error. Qed.

(** The handler on the loop's own error. *)
Lemma catch_own (details : string) :
  catch (Error ("Query execution failed: " +:+ details))
  = Error ("Query execution failed: " +:+ details).
Proof.
  unfold pollQueryResults_catch. cbn [instanceofError errorText andb].
  unfold startsWith.
  change "Query execution failed: " with ("Query execution failed:" +:+ " ").
  by rewrite app_assoc_str, prefix_app.
Qed.

(** C1, amended.  When a poll made before the timeout is answered with a job
    of status 3: if the job has a truthy [query_result_id] that converts to a
    string, one further GET to [/api/query_results/{query_result_id}] is sent
    and its response body is returned, or, if that GET is rejected, the poll
    fails with the rejection as classified by the loop's handler; if the
    [query_result_id] does not convert, no GET is sent and the poll fails with
    the [TypeError] of the conversion, wrapped as a poll failure; otherwise
    (no truthy [query_result_id]) the job's [result] is returned and no
    further request is sent. *)
Theorem poll_completed (fuel : nat) (w : world) (data : json) (d : N) :
  now w - startTime < timeout ->
  respond env w (poll_request jobId) = (inr data, d) ->
  strict_eq_num (field "status" (field "job" data)) 3 = true ->
  let job := field "job" data in
  let w1 := after_request (poll_request jobId) d w in
  let fetch := result_request (field "query_result_id" job) in
  if truthy (field "query_result_id" job) then
    if converts (field "query_result_id" job) then
      match respond env w1 fetch with
      | (inr resultData, d') =>
          poll_loop (S fuel) w = (Return resultData, after_request fetch d' w1)
      | (inl e, d') =>
          poll_loop (S fuel) w = (Throw (catch e), after_request fetch d' w1)
      end
    else
      poll_loop (S fuel) w
      = (Throw (Error (poll_failure jobId +:+
                       "Cannot convert object to primitive value")), w1)
  else poll_loop (S fuel) w = (Return (field "result" job), w1).
Proof.
  intros Hwin Hresp Hst job w1 fetch.
  pose proof (strict_eq_num_field_object _ _ _ Hst) as Hjob.
  assert (Hdata : nullish data = false).
  { destruct data; try done; simpl in Hst; discriminate. }
  rewrite poll_loop_S, (proj2 (Z.ltb_lt _ _) Hwin), poll_iteration_eq.
  rewrite (poll_try_answered _ _ _ Hresp Hdata Hjob). subst job w1 fetch. cbv zeta.
  rewrite Hst.
  destruct (truthy (field "query_result_id" (field "job" data))); [|reflexivity].
  destruct (converts (field "query_result_id" (field "job" data))).
  - unfold bind, http.
    by destruct (respond env _ (result_request _)) as [[e|resultData] d'].
  - unfold throw. by rewrite catch_cannot_convert.
Qed.

(** C3.  When a poll made before the timeout is answered with a job of status
    4, the loop stops there with an [Error], and no request follows the poll.
    Its message is [Query execution failed: <details>], where [details] is
    the job's [error] if truthy and [Unknown error] otherwise (and, for an
    [error] that does not convert to a string, the poll failure that wraps
    the [TypeError] of the conversion).  The message contains a string-valued
    [error], and is [Query execution failed: Unknown error] when [error] is
    absent; [executeQuery] and [executeAdhocQuery] put their own prefix before
    it. *)
Theorem poll_failed (fuel : nat) (w : world) (data : json) (d : N) :
  now w - startTime < timeout ->
  respond env w (poll_request jobId) = (inr data, d) ->
  strict_eq_num (field "status" (field "job" data)) 4 = true ->
  let job := field "job" data in
  let errorDetails := or_else (field "error" job) (JStr "Unknown error") in
  exists msg : string,
    poll_loop (S fuel) w = (Throw (Error msg), after_request (poll_request jobId) d w) /\
    msg = (if converts errorDetails
           then "Query execution failed: " +:+ toString errorDetails
           else poll_failure jobId +:+ "Cannot convert object to primitive value") /\
    (forall s, field "error" job = JStr s -> Contains msg s) /\
    (field "error" job = JUndefined -> msg = "Query execution failed: Unknown error") /\
    (forall queryId,
        executeQuery_catch JSON_stringify queryId (Error msg)
        = Error ("Failed to execute query " +:+ string_of_Z queryId +:+ ": " +:+ msg)) /\
    executeAdhocQuery_catch (Error msg)
    = Error ("Failed to execute adhoc query: " +:+ msg).
Proof.
  intros Hwin Hresp Hst job errorDetails.
  pose proof (strict_eq_num_field_object _ _ _ Hst) as Hjob.
  assert (Hdata : nullish data = false).
  { destruct data; try done; simpl in Hst; discriminate. }
  assert (H3 : strict_eq_num (field "status" (field "job" data)) 3 = false).
  { by rewrite (strict_eq_num_inv _ _ Hst). }
  eexists. split; [|split; [reflexivity|]].
  { rewrite poll_loop_S, (proj2 (Z.ltb_lt _ _) Hwin), poll_iteration_eq.
    rewrite (poll_try_answered _ _ _ Hresp Hdata Hjob). cbv zeta.
    rewrite H3, Hst. fold job. fold errorDetails. unfold throw.
    destruct (converts errorDetails);
      [by rewrite catch_own | by rewrite catch_cannot_convert]. }
  split; [|split; [|split]].
  - intros s Hs. subst errorDetails. rewrite Hs. unfold or_else. cbn [truthy].
    destruct s as [|c s]; [by exists EmptyString, "Query execution failed: Unknown error"|].
    cbn [String.eqb negb converts toString]. apply Contains_here.
  - intros Hs. subst errorDetails. by rewrite Hs.
  - reflexivity.
  - reflexivity.
Qed.

(** C6, amended.  When the [try] block of an iteration throws, that iteration
    is the last: the loop throws at once, in the world of the throw.  What it
    throws is the caught error itself when that is an [Error] whose message
    starts with [Query execution failed:]; the [TypeError] of a conversion
    when the caught error is an error response whose message does not convert
    to a string; and otherwise a new [Error] whose message, after
    [Failed to poll for query results (job <jobId>): ], tells a response with
    an error status, a request without response, and any other failure
    apart. *)
Theorem poll_attempt_throws (fuel : nat) (w w' : world) (e : thrown) :
  now w - startTime < timeout ->
  poll_try w = (Throw e, w') ->
  poll_loop (S fuel) w = (Throw (catch e), w') /\
  if instanceofError e && startsWith (errorText e) "Query execution failed:"
  then catch e = e
  else if unprintable JSON_stringify e
  then catch e = cannot_convert
  else match e with
       | AxiosError _ (Some (statusCode, errorData)) _ =>
           catch e = Error (poll_failure jobId +:+ "Redash API error (" +:+
                            string_of_Z statusCode +:+ "): " +:+
                            toString (errorMessage_of JSON_stringify errorData))
       | AxiosError msg None true =>
           catch e = Error (poll_failure jobId +:+
                            "No response received from Redash API: " +:+ msg)
       | AxiosError msg None false | Error msg =>
           catch e = Error (poll_failure jobId +:+ msg)
       | Thrown v =>
           catch e = Error (poll_failure jobId +:+ toString v)
       end.
Proof.
  intros Hwin Htry. split.
  - by rewrite poll_loop_S, (proj2 (Z.ltb_lt _ _) Hwin), poll_iteration_eq, Htry.
  - unfold pollQueryResults_catch, poll_failure, unprintable.
    destruct (instanceofError e && _); [reflexivity|].
    destruct e as [msg [[statusCode errorData]|] [|]|msg|v]; cbn [errorText negb];
      try (f_equal; rewrite !app_assoc_str; reflexivity).
    + cbv zeta. destruct (converts (errorMessage_of JSON_stringify errorData));
        cbn [negb]; [|reflexivity].
      f_equal. rewrite !app_assoc_str. reflexivity.
    + cbv zeta. destruct (converts (errorMessage_of JSON_stringify errorData));
        cbn [negb]; [|reflexivity].
      f_equal. rewrite !app_assoc_str. reflexivity.
    + destruct (converts v); cbn [negb]; [|reflexivity].
      f_equal. rewrite !app_assoc_str. reflexivity.
Qed.

(** A rejected GET is such a throw. *)
Lemma poll_rejected_aborts (fuel : nat) (w : world) (e : thrown) (d : N) :
  now w - startTime < timeout ->
  respond env w (poll_request jobId) = (inl e, d) ->
  poll_loop (S fuel) w = (Throw (catch e), after_request (poll_request jobId) d w).
Proof.
  intros Hwin Hresp.
  by rewrite poll_loop_S, (proj2 (Z.ltb_lt _ _) Hwin), poll_iteration_eq,
    (poll_try_rejected _ _ _ Hresp).
Qed.

End Bridge.

(** *** Polling that never completes *)

Section Timeout.

Variable JSON_stringify : json -> json.
Variable env : backend.
Variables (jobId : json) (timeout interval : Z).

#[local] Abbreviation poll_loop fuel startTime :=
  (poll_loop JSON_stringify env fuel jobId timeout interval startTime).
#[local] Abbreviation pollQueryResults fuel :=
  (pollQueryResults JSON_stringify env fuel jobId timeout interval).

Lemma pollQueryResults_eq (fuel : nat) (w : world) :
  pollQueryResults fuel w = poll_loop fuel (now w) w.
Proof. reflexivity. Qed.

(** A pending answer: the iteration waits and the loop goes round. *)
Lemma poll_loop_pending_step (startTime : Z) (fuel : nat) (w : world) data d :
  now w - startTime < timeout ->
  respond env w (poll_request jobId) = (inr data, d) ->
  is_pending data = true ->
  let w1 := after_request (poll_request jobId) d w in
  poll_loop (S fuel) startTime w
  = poll_loop fuel startTime (after_sleep interval (timer_lag env w1) w1).
Proof.
  intros Hwin Hresp Hpend w1. unfold is_pending in Hpend.
  apply andb_true_iff in Hpend as [Hpend H4%negb_true_iff].
  apply andb_true_iff in Hpend as [Hpend H3%negb_true_iff].
  apply andb_true_iff in Hpend as [Hdata%negb_true_iff Hjob%negb_true_iff].
  rewrite poll_loop_S, (proj2 (Z.ltb_lt _ _) Hwin), poll_iteration_eq.
  rewrite (poll_try_answered _ _ _ _ _ _ Hresp Hdata Hjob). cbv zeta.
  by rewrite H3, H4.
Qed.

Lemma poll_loop_expired (startTime : Z) (fuel : nat) (w : world) :
  timeout <= now w - startTime ->
  poll_loop (S fuel) startTime w = (Throw (timed_out timeout), w).
Proof.
  intros Hexp. rewrite poll_loop_S.
  by rewrite (proj2 (Z.ltb_ge _ _) Hexp).
Qed.

(** [ceil (left / interval)], and no less than 0: the polls that fit in the
    time [left]. *)
Lemma polls_expired (left : Z) :
  0 < interval -> left <= 0 -> Z.max 0 ((left + interval - 1) / interval) = 0.
Proof.
  intros Hint Hleft.
  assert ((left + interval - 1) / interval < 1); [|lia].
  apply Z.div_lt_upper_bound; lia.
Qed.

Lemma polls_one_more (left : Z) :
  0 < interval -> 0 < left ->
  Z.max 0 ((left + interval - 1) / interval)
  = 1 + Z.max 0 ((left - interval + interval - 1) / interval).
Proof.
  intros Hint Hleft.
  replace (left + interval - 1) with (left - 1 + 1 * interval) by lia.
  replace (left - interval + interval - 1) with (left - 1) by lia.
  rewrite Z.div_add by lia.
  assert (0 <= (left - 1) / interval) by (apply Z.div_pos; lia). lia.
Qed.

(** While every poll made before the timeout is pending, the loop ends by
    timing out, after at most [n] polls when [n] intervals cover the time
    left; when moreover requests and timers take no extra time, the polls are
    as many as fit in the time left. *)
Lemma poll_loop_times_out (startTime : Z) :
  0 < interval ->
  (forall w, now w - startTime < timeout ->
     exists data d, respond env w (poll_request jobId) = (inr data, d) /\
                    is_pending data = true) ->
  forall (n : nat) (w : world),
    timeout - (now w - startTime) <= Z.of_nat n * interval ->
    exists (polls : nat) (w' : world),
      (polls <= n)%nat /\
      sent w' = sent w ++ replicate polls (poll_request jobId) /\
      timeout <= now w' - startTime /\
      (forall fuel, (polls < fuel)%nat ->
         poll_loop fuel startTime w = (Throw (timed_out timeout), w')) /\
      ((forall w r, (respond env w r).2 = 0%N) -> (forall w, timer_lag env w = 0%N) ->
       Z.of_nat polls
       = Z.max 0 ((timeout - (now w - startTime) + interval - 1) / interval)).
Proof.
  intros Hint Hpend n. induction n as [|n IH]; intros w Hleft.
  - exists 0%nat, w. split; [lia|]. split; [by rewrite app_nil_r|].
    split; [lia|]. split.
    + intros [|fuel] Hfuel; [lia|]. apply poll_loop_expired. lia.
    + intros _ _. rewrite polls_expired; lia.
  - destruct (Z_lt_le_dec (now w - startTime) timeout) as [Hwin|Hexp].
    + destruct (Hpend w Hwin) as (data & d & Hresp & Hp).
      set (w1 := after_request (poll_request jobId) d w).
      set (w2 := after_sleep interval (timer_lag env w1) w1).
      destruct (IH w2) as (polls & w' & Hle & Hsent & Hend & Hrun & Hexact).
      { unfold w2, w1; simpl. lia. }
      exists (S polls), w'. split; [lia|]. split.
      { rewrite Hsent. unfold w2, w1; simpl. by rewrite <- app_assoc. }
      split; [done|]. split.
      * intros [|fuel] Hfuel; [lia|].
        rewrite (poll_loop_pending_step _ _ _ _ _ Hwin Hresp Hp). apply Hrun. lia.
      * intros Hlat Hlag. rewrite Nat2Z.inj_succ, (Hexact Hlat Hlag).
        pose proof (Hlat w (poll_request jobId)) as Hd. rewrite Hresp in Hd.
        simpl in Hd.
        assert (Hnow : now w2 = now w + interval).
        { unfold w2, w1; simpl. rewrite Hlag, Hd. lia. }
        rewrite Hnow, (polls_one_more (timeout - (now w - startTime))) by lia.
        replace (timeout - (now w + interval - startTime))
          with (timeout - (now w - startTime) - interval) by lia.
        lia.
    + exists 0%nat, w. split; [lia|]. split; [by rewrite app_nil_r|].
      split; [done|]. split.
      * intros [|fuel] Hfuel; [lia|]. by apply poll_loop_expired.
      * intros _ _. rewrite polls_expired; lia.
Qed.

(** The number of whole intervals needed to cover the timeout. *)
Lemma intervals_cover :
  0 < interval ->
  timeout <= Z.of_nat (Z.to_nat ((timeout + interval - 1) / interval)) * interval.
Proof.
  intros Hint.
  pose proof (Z.mul_succ_div_gt (timeout + interval - 1) interval Hint) as Hgt.
  set (q := (timeout + interval - 1) / interval) in *.
  assert (Hq : Z.of_nat (Z.to_nat q) = Z.max 0 q) by lia.
  rewrite Hq. nia.
Qed.

(** C4, amended.  When every poll made before the timeout is answered with a
    pending job, [pollQueryResults] throws an [Error] whose message is
    [Query execution timed out after <timeout>ms]: it carries the timeout in
    milliseconds, and nothing else. *)
Theorem pollQueryResults_times_out (w : world) :
  0 < interval ->
  (forall w', now w' - now w < timeout ->
     exists data d, respond env w' (poll_request jobId) = (inr data, d) /\
                    is_pending data = true) ->
  exists (polls : nat) (w' : world),
    timeout <= now w' - now w /\
    forall fuel, (polls < fuel)%nat ->
      pollQueryResults fuel w =
      (Throw (Error ("Query execution timed out after " +:+ string_of_Z timeout +:+ "ms")),
       w').
Proof.
  intros Hint Hpend.
  destruct (poll_loop_times_out (now w) Hint Hpend
              (Z.to_nat ((timeout + interval - 1) / interval)) w)
    as (polls & w' & _ & _ & Hend & Hrun & _).
  { pose proof (intervals_cover Hint). lia. }
  exists polls, w'. split; [done|]. intros fuel Hfuel.
  rewrite pollQueryResults_eq. by apply Hrun.
Qed.

(** C5.  When every poll is answered with a pending job and the interval is
    positive, [pollQueryResults] terminates: it sends at most
    [ceil (timeout / interval)] polls, and nothing else, and then throws the
    timeout error.  The polls are exactly that many when requests and timers
    take no extra time. *)
Theorem pollQueryResults_terminates (w : world) :
  0 < interval ->
  (forall w', exists data d, respond env w' (poll_request jobId) = (inr data, d) /\
                             is_pending data = true) ->
  exists (polls : nat) (w' : world),
    Z.of_nat polls <= Z.max 0 ((timeout + interval - 1) / interval) /\
    sent w' = sent w ++ replicate polls (poll_request jobId) /\
    (forall fuel, (polls < fuel)%nat ->
       pollQueryResults fuel w = (Throw (timed_out timeout), w')) /\
    ((forall w r, (respond env w r).2 = 0%N) -> (forall w, timer_lag env w = 0%N) ->
     Z.of_nat polls = Z.max 0 ((timeout + interval - 1) / interval)).
Proof.
  intros Hint Hpend.
  destruct (poll_loop_times_out (now w) Hint (fun w' _ => Hpend w')
              (Z.to_nat ((timeout + interval - 1) / interval)) w)
    as (polls & w' & Hle & Hsent & _ & Hrun & Hexact).
  { pose proof (intervals_cover Hint). lia. }
  exists polls, w'. split; [lia|]. split; [done|]. split.
  - intros fuel Hfuel. rewrite pollQueryResults_eq. by apply Hrun.
  - intros Hlat Hlag. rewrite (Hexact Hlat Hlag). f_equal. f_equal. lia.
Qed.

End Timeout.

(** *** The public calls *)

Section Execute.

Variable JSON_stringify : json -> json.
Variable env : backend.

#[local] Abbreviation pollQueryResults := (pollQueryResults JSON_stringify env).
#[local] Abbreviation executeQuery := (executeQuery JSON_stringify env).
#[local] Abbreviation execute := (execute JSON_stringify env).
#[local] Abbreviation execution_catch := (execution_catch JSON_stringify).

Lemma poll_try_sent (jobId : json) (interval : Z) (w : world) :
  exists rest, sent (poll_try env jobId interval w).2 = sent w ++ poll_request jobId :: rest.
Proof.
  unfold poll_try, client_get. fold (poll_request jobId).
  unfold bind, http, member, ToString, sleep, throw, ret.
  repeat case_match; simplify_eq/=;
    try (by eexists []); rewrite <- app_assoc; by eexists.
Qed.

Lemma poll_loop_sent (jobId : json) (timeout interval startTime : Z) (fuel : nat) :
  forall w, exists rest,
    sent (poll_loop JSON_stringify env fuel jobId timeout interval startTime w).2
    = sent w ++ rest.
Proof.
  induction fuel as [|fuel IH]; intros w.
  - exists []. by rewrite app_nil_r.
  - rewrite poll_loop_S. destruct (_ <? _); [|exists []; by rewrite app_nil_r].
    rewrite poll_iteration_eq.
    destruct (poll_try_sent jobId interval w) as [rest Hrest].
    destruct (poll_try env jobId interval w) as [[[v|]|e|] w']; simpl in *;
      try by eexists.
    destruct (IH w') as [rest' Hrest']. rewrite Hrest', Hrest, <- app_assoc.
    by eexists.
Qed.

Lemma poll_loop_first_poll (jobId : json) (timeout interval startTime : Z)
    (fuel : nat) (w : world) :
  now w - startTime < timeout ->
  exists rest,
    sent (poll_loop JSON_stringify env (S fuel) jobId timeout interval startTime w).2
    = sent w ++ poll_request jobId :: rest.
Proof.
  intros Hwin. rewrite poll_loop_S, (proj2 (Z.ltb_lt _ _) Hwin), poll_iteration_eq.
  destruct (poll_try_sent jobId interval w) as [rest Hrest].
  destruct (poll_try env jobId interval w) as [[[v|]|e|] w']; simpl in *;
    try by eexists.
  destruct (poll_loop_sent jobId timeout interval startTime fuel w') as [rest' Hrest'].
  rewrite Hrest', Hrest, <- app_assoc. by eexists.
Qed.

Lemma execute_eq (fuel : nat) (x : execution) (w : world) :
  execute fuel x w =
  try_catch
    (bind (http env (execution_post x)) (fun data =>
     bind (member data "job") (fun job =>
     if truthy job then poll_job JSON_stringify env fuel (field "id" job)
     else ret data)))
    (fun error => throw (execution_catch x error)) w.
Proof. by destruct x. Qed.

(** Once the POST is answered, what is left of either call. *)
Lemma execute_answered (x : execution) (fuel : nat) (w : world) (data : json) (d : N) :
  respond env w (execution_post x) = (inr data, d) ->
  nullish data = false ->
  execute fuel x w =
  try_catch
    (if truthy (field "job" data)
     then poll_job JSON_stringify env fuel (field "id" (field "job" data))
     else ret data)
    (fun error => throw (execution_catch x error))
    (after_request (execution_post x) d w).
Proof.
  intros Hresp Hdata. rewrite execute_eq. unfold try_catch at 1.
  rewrite (bind_http_ok _ _ _ _ _ _ Hresp), bind_member_ok by done. reflexivity.
Qed.

(** A body that is [null] or [undefined]: reading [job] off it throws. *)
Lemma execute_no_body (x : execution) (fuel : nat) (w : world) (data : json) (d : N) :
  respond env w (execution_post x) = (inr data, d) ->
  nullish data = true ->
  execute fuel x w =
  (Throw (execution_catch x (Error (cannot_read data "job"))),
   after_request (execution_post x) d w).
Proof.
  intros Hresp Hdata. rewrite execute_eq. unfold try_catch.
  rewrite (bind_http_ok _ _ _ _ _ _ Hresp).
  unfold bind, member. by rewrite Hdata.
Qed.

(** C2, amended.  When the POST of [executeQuery] or [executeAdhocQuery] is
    answered with a body other than [null] whose [job] is absent (or falsy),
    the call returns that body and has sent nothing but the POST; the body
    [null] is not returned: reading [job] off it throws, and the call fails.
    When the body has a [job], the call is [pollQueryResults] on that job's
    [id], with the defaults, under the call's [catch], and the request that
    follows the POST is the poll of that job; a job [id] that does not convert
    to a string makes the call fail before any poll. *)
Theorem execute_sync_or_async (x : execution) (fuel : nat) (w : world)
    (data : json) (d : N) :
  respond env w (execution_post x) = (inr data, d) ->
  let w1 := after_request (execution_post x) d w in
  if nullish data then
    execute fuel x w = (Throw (execution_catch x (Error (cannot_read data "job"))), w1)
  else if truthy (field "job" data) then
    let jobId := field "id" (field "job" data) in
    if converts jobId then
      execute fuel x w =
        try_catch (pollQueryResults fuel jobId default_timeout default_interval)
                  (fun error => throw (execution_catch x error)) w1 /\
      ((0 < fuel)%nat ->
       exists rest,
         sent (execute fuel x w).2
         = sent w ++ execution_post x :: poll_request jobId :: rest)
    else execute fuel x w = (Throw (execution_catch x cannot_convert), w1)
  else execute fuel x w = (Return data, w1).
Proof.
  intros Hresp w1. destruct (nullish data) eqn:Hdata.
  { by apply execute_no_body. }
  pose proof (execute_answered x fuel w data d Hresp Hdata) as Hrun. fold w1 in Hrun.
  destruct (truthy (field "job" data)); [|by rewrite Hrun].
  cbv zeta. unfold poll_job in Hrun.
  destruct (converts (field "id" (field "job" data))); [|by rewrite Hrun].
  split; [exact Hrun|]. intros Hfuel. rewrite Hrun.
  destruct fuel as [|fuel]; [lia|].
  destruct (poll_loop_first_poll (field "id" (field "job" data)) default_timeout
              default_interval (now w1) fuel w1) as [rest Hrest]; [by unfold default_timeout; lia|].
  unfold try_catch. rewrite pollQueryResults_eq.
  destruct (poll_loop _ _ _ _ _ _ _ w1) as [[v|e|] w'] eqn:E; simpl in *.
  all: exists rest; rewrite Hrest; unfold w1; simpl; by rewrite <- app_assoc.
Qed.

(** *** Where the errors come from *)

Lemma raised_Error (msg : string) : raised env (Error msg).
Proof. left. by eexists. Qed.

Lemma raised_rejection (w : world) (r : request) (e : thrown) (d : N) :
  respond env w r = (inl e, d) -> raised env e.
Proof. intros H. right. by eexists _, _, _. Qed.

Lemma poll_try_raised (jobId : json) (interval : Z) (w w' : world) (e : thrown) :
  poll_try env jobId interval w = (Throw e, w') -> raised env e.
Proof.
  unfold poll_try, client_get, bind, http, member, ToString, sleep, throw, ret,
    cannot_convert.
  destruct (respond env w _) as [[e0|data] d] eqn:Hpoll.
  { intros [= <- _]. by eapply raised_rejection. }
  destruct (nullish data); [intros [= <- _]; apply raised_Error|].
  destruct (nullish (field "job" data)); [intros [= <- _]; apply raised_Error|].
  destruct (strict_eq_num _ 3).
  - destruct (truthy _); [|done].
    destruct (converts _); [|intros [= <- _]; apply raised_Error].
    destruct (respond env (after_request _ _ _) _) as [[e1|resultData] d'] eqn:Hfetch;
      [|done].
    intros [= <- _]. by eapply raised_rejection.
  - destruct (strict_eq_num _ 4); [|done].
    destruct (converts _); intros [= <- _]; apply raised_Error.
Qed.

Lemma catch_raised (jobId : json) (e : thrown) :
  raised env e -> raised env (pollQueryResults_catch JSON_stringify jobId e).
Proof.
  intros He. unfold pollQueryResults_catch, cannot_convert.
  destruct (instanceofError e && _); [done|].
  destruct e as [msg [[statusCode errorData]|] [|]|msg|v]; cbv zeta;
    repeat case_match; apply raised_Error.
Qed.

Lemma poll_loop_raised (jobId : json) (timeout interval startTime : Z) (fuel : nat) :
  forall (w w' : world) (e : thrown),
    poll_loop JSON_stringify env fuel jobId timeout interval startTime w = (Throw e, w') ->
    raised env e.
Proof.
  induction fuel as [|fuel IH]; intros w w' e; [done|].
  rewrite poll_loop_S. destruct (_ <? _); [|intros [= <- _]; apply raised_Error].
  rewrite poll_iteration_eq.
  destruct (poll_try env jobId interval w) as [[[v|]|e0|] w0] eqn:Htry; try done.
  - apply IH.
  - intros [= <- _]. apply catch_raised. by eapply poll_try_raised.
Qed.

(** What the [catch] clause of [executeQuery] receives. *)
Lemma executeQuery_caught (fuel : nat) (queryId : Z) (parameters : json)
    (w w' : world) (e : thrown) :
  executeQuery fuel queryId parameters w = (Throw e, w') ->
  exists e0 : thrown, raised env e0 /\ e = executeQuery_catch JSON_stringify queryId e0.
Proof.
  unfold RedashClient.executeQuery, try_catch.
  destruct (bind _ _ w) as [[v|e0|] w0] eqn:Hbody; try done.
  intros [= <- _]. exists e0. split; [|done].
  revert Hbody. unfold client_post, bind, http, member, poll_job, throw, ret,
    cannot_convert.
  destruct (respond env w _) as [[e1|data] d] eqn:Hpost.
  { intros [= <- _]. by eapply raised_rejection. }
  destruct (nullish data); [intros [= <- _]; apply raised_Error|].
  destruct (truthy _); [|done].
  destruct (converts _); [|intros [= <- _]; apply raised_Error].
  rewrite pollQueryResults_eq. apply poll_loop_raised.
Qed.

(** The two outcomes of the [catch] clause of [executeQuery]. *)
Lemma executeQuery_catch_cases (queryId : Z) (error : thrown) :
  if unprintable JSON_stringify error
  then executeQuery_catch JSON_stringify queryId error = cannot_convert
  else exists rest : string,
      executeQuery_catch JSON_stringify queryId error =
      Error ("Failed to execute query " +:+ string_of_Z queryId +:+ ": " +:+ rest).
Proof.
  unfold unprintable, executeQuery_catch.
  destruct error as [msg [[statusCode errorData]|] [|]|msg|v]; cbv zeta;
    try (by eexists).
  - destruct (converts _); cbn [negb]; [by eexists|done].
  - destruct (converts _); cbn [negb]; [by eexists|done].
  - destruct (converts v); cbn [negb]; [by eexists|done].
Qed.

Lemma raised_printable (e : thrown) :
  (forall w r e0 d, respond env w r = (inl e0, d) -> unprintable JSON_stringify e0 = false) ->
  raised env e -> unprintable JSON_stringify e = false.
Proof.
  intros Hall [[msg ->]|(w & r & d & Hr)]; [done|]. by eapply Hall.
Qed.

(** C10, amended.  Whatever [executeQuery] throws is an [Error]: one whose
    message starts with [Failed to execute query <queryId>: ], or the
    [TypeError] of a conversion to a string.  The second happens only when
    the remote rejects a request with an error response whose message does not
    convert to a string; on a remote whose rejections all convert, every
    failure has the prefix.  An error of the poll loop, such as
    [Query execution failed: ...] or [Query execution timed out after ...],
    always reaches the caller with this prefix put before its message. *)
Theorem executeQuery_failures_prefixed (fuel : nat) (queryId : Z) (parameters : json)
    (w w' : world) (e : thrown) :
  executeQuery fuel queryId parameters w = (Throw e, w') ->
  ((exists rest : string,
       e = Error ("Failed to execute query " +:+ string_of_Z queryId +:+ ": " +:+ rest))
   \/ e = cannot_convert) /\
  ((forall w0 r e0 d,
       respond env w0 r = (inl e0, d) -> unprintable JSON_stringify e0 = false) ->
   exists rest : string,
     e = Error ("Failed to execute query " +:+ string_of_Z queryId +:+ ": " +:+ rest)) /\
  (forall msg : string,
      executeQuery_catch JSON_stringify queryId (Error msg) =
      Error ("Failed to execute query " +:+ string_of_Z queryId +:+ ": " +:+ msg)) /\
  (forall data d jobId msg w1,
      respond env w (execution_post (Saved queryId parameters)) = (inr data, d) ->
      nullish data = false ->
      truthy (field "job" data) = true ->
      jobId = field "id" (field "job" data) ->
      converts jobId = true ->
      pollQueryResults fuel jobId default_timeout default_interval
        (after_request (execution_post (Saved queryId parameters)) d w)
      = (Throw (Error msg), w1) ->
      e = Error ("Failed to execute query " +:+ string_of_Z queryId +:+ ": " +:+ msg)).
Proof.
  intros Hthrow.
  destruct (executeQuery_caught _ _ _ _ _ _ Hthrow) as (e0 & Hraised & ->).
  pose proof (executeQuery_catch_cases queryId e0) as Hcases.
  split; [|split; [|split]].
  - destruct (unprintable JSON_stringify e0); [by right | by left].
  - intros Hall. by rewrite (raised_printable e0 Hall Hraised) in Hcases.
  - reflexivity.
  - intros data d jobId msg w1 Hresp Hdata Hjob -> Hconv Hpoll.
    pose proof (execute_answered (Saved queryId parameters) fuel w data d
                  Hresp Hdata) as Hx.
    rewrite Hjob in Hx. unfold poll_job in Hx. rewrite Hconv in Hx.
    change (execute fuel (Saved queryId parameters) w)
      with (executeQuery fuel queryId parameters w) in Hx.
    rewrite Hx in Hthrow.
    unfold try_catch in Hthrow. rewrite Hpoll in Hthrow.
    unfold throw in Hthrow. by injection Hthrow as <- _.
Qed.

End Execute.

(** ** The theorems at sample inputs *)

Lemma poll_completed_witness :
  now start - 0 < 60000 /\
  respond completed_backend start (poll_request job_123)
  = (inr (JObj {[ "job" := JObj {[ "status" := JNum 3; "result" := inline_result ]} ]}),
     0%N) /\
  poll_loop no_stringify completed_backend 1 job_123 60000 1000 0 start
  = (Return inline_result, World 0 [poll_request job_123]).
Proof.
  split; [reflexivity|]. split; [reflexivity|].
  exact (poll_completed no_stringify completed_backend job_123 60000 1000 0 0%nat start
           (JObj {[ "job" := JObj {[ "status" := JNum 3; "result" := inline_result ]} ]})
           0%N eq_refl eq_refl eq_refl).
Defined.

(** C1 as stated fails when the further GET is rejected: the poll response has
    status 3 and [pollQueryResults] throws. *)
Lemma completed_poll_fetch_rejected :
  respond fetch_rejected_backend start (poll_request job_123)
  = (inr (JObj {[ "job" := JObj {[ "status" := JNum 3;
                                   "query_result_id" := JNum 42 ]} ]}), 0%N) /\
  pollQueryResults no_stringify fetch_rejected_backend 2 job_123 60000 1000 start
  = (Throw (Error ("Failed to poll for query results (job job-123): " +:+
                   "No response received from Redash API: Network Error")),
     World 0 [poll_request job_123; result_request (JNum 42)]).
Proof. split; reflexivity. Qed.

Lemma execute_sync_or_async_witness :
  respond immediate_backend start (execution_post (Saved 123 JUndefined))
  = (inr immediate_result, 0%N) /\
  executeQuery no_stringify immediate_backend 0 123 JUndefined start
  = (Return immediate_result, World 0 [execution_post (Saved 123 JUndefined)]).
Proof.
  split; [reflexivity|].
  exact (execute_sync_or_async no_stringify immediate_backend (Saved 123 JUndefined)
           0%nat start immediate_result 0%N eq_refl).
Defined.

(** C2 as stated fails for the body [null]: it contains no [job], and the
    call throws instead of returning it. *)
Lemma executeQuery_null_body_throws :
  respond null_backend start (execution_post (Saved 123 JUndefined)) = (inr JNull, 0%N) /\
  field "job" JNull = JUndefined /\
  executeQuery no_stringify null_backend 5 123 JUndefined start
  = (Throw (Error ("Failed to execute query 123: " +:+
                   "Cannot read properties of null (reading 'job')")),
     World 0 [execution_post (Saved 123 JUndefined)]) /\
  (executeQuery no_stringify null_backend 5 123 JUndefined start).1 <> Return JNull.
Proof. repeat split. discriminate. Qed.

(** A job whose [id] does not convert to a string is never polled. *)
Example executeQuery_odd_job_id :
  executeQuery no_stringify
    (instant (fun _ => inr (JObj {[ "job" := JObj {[ "id" := odd_object ]} ]})))
    5 123 JUndefined start
  = (Throw (Error ("Failed to execute query 123: " +:+
                   "Cannot convert object to primitive value")),
     World 0 [execution_post (Saved 123 JUndefined)]).
Proof. reflexivity. Qed.

Lemma poll_failed_witness :
  now start - 0 < 60000 /\
  respond failed_backend start (poll_request job_123)
  = (inr (JObj {[ "job" := JObj {[ "status" := JNum 4;
                                   "error" := JStr "syntax error" ]} ]}), 0%N) /\
  exists msg : string,
    poll_loop no_stringify failed_backend 1 job_123 60000 1000 0 start
    = (Throw (Error msg), World 0 [poll_request job_123]) /\
    msg = "Query execution failed: " +:+ "syntax error" /\
    (forall s, JStr "syntax error" = JStr s -> Contains msg s) /\
    (JStr "syntax error" = JUndefined -> msg = "Query execution failed: Unknown error") /\
    (forall queryId,
        executeQuery_catch no_stringify queryId (Error msg)
        = Error ("Failed to execute query " +:+ string_of_Z queryId +:+ ": " +:+ msg)) /\
    executeAdhocQuery_catch (Error msg)
    = Error ("Failed to execute adhoc query: " +:+ msg).
Proof.
  split; [reflexivity|]. split; [reflexivity|].
  exact (poll_failed no_stringify failed_backend job_123 60000 1000 0 0%nat start
           (JObj {[ "job" := JObj {[ "status" := JNum 4;
                                     "error" := JStr "syntax error" ]} ]})
           0%N eq_refl eq_refl eq_refl).
Defined.

(** The poll sequence [{job: {status: 4, error: 'syntax error'}}]: the call
    fails with a message containing [syntax error], after one poll. *)
Example executeQuery_syntax_error :
  executeQuery no_stringify failed_backend 5 123 JUndefined start
  = (Throw (Error "Failed to execute query 123: Query execution failed: syntax error"),
     World 0 [execution_post (Saved 123 JUndefined); poll_request job_123]).
Proof. reflexivity. Qed.

Lemma pollQueryResults_times_out_witness :
  0 < 1000 /\
  (forall w', now w' - now start < 60000 ->
     exists data d, respond pending_backend w' (poll_request job_123) = (inr data, d) /\
                    is_pending data = true) /\
  exists (polls : nat) (w' : world),
    60000 <= now w' - now start /\
    forall fuel, (polls < fuel)%nat ->
      pollQueryResults no_stringify pending_backend fuel job_123 60000 1000 start =
      (Throw (Error "Query execution timed out after 60000ms"), w').
Proof.
  assert (Hpend : forall w', now w' - now start < 60000 ->
     exists data d, respond pending_backend w' (poll_request job_123) = (inr data, d) /\
                    is_pending data = true).
  { intros w' _. eexists _, _. split; reflexivity. }
  split; [reflexivity|]. split; [exact Hpend|].
  exact (pollQueryResults_times_out no_stringify pending_backend job_123 60000 1000
           start eq_refl Hpend).
Defined.

(** C4 as stated fails: the job polled is [job-123], every poll is pending,
    and the error thrown at the timeout does not mention [job-123]. *)
Lemma timeout_error_omits_job_id :
  pollQueryResults no_stringify pending_backend 61 job_123 60000 1000 start
  = (Throw (Error "Query execution timed out after 60000ms"),
     World 60000 (replicate 60 (poll_request job_123))) /\
  is_pending (JObj {[ "job" := JObj {[ "status" := JNum 2 ]} ]}) = true /\
  ~ Contains "Query execution timed out after 60000ms" "job-123".
Proof.
  split; [by vm_compute|]. split; [reflexivity|].
  intros H%Contains_includes. by vm_compute in H.
Qed.

Lemma pollQueryResults_terminates_witness :
  0 < 1000 /\
  (forall w', exists data d,
      respond pending_backend w' (poll_request job_123) = (inr data, d) /\
      is_pending data = true) /\
  exists (polls : nat) (w' : world),
    Z.of_nat polls <= Z.max 0 ((60000 + 1000 - 1) / 1000) /\
    sent w' = sent start ++ replicate polls (poll_request job_123) /\
    (forall fuel, (polls < fuel)%nat ->
       pollQueryResults no_stringify pending_backend fuel job_123 60000 1000 start
       = (Throw (timed_out 60000), w')) /\
    ((forall w r, (respond pending_backend w r).2 = 0%N) ->
     (forall w, timer_lag pending_backend w = 0%N) ->
     Z.of_nat polls = Z.max 0 ((60000 + 1000 - 1) / 1000)).
Proof.
  assert (Hpend : forall w', exists data d,
      respond pending_backend w' (poll_request job_123) = (inr data, d) /\
      is_pending data = true).
  { intros w'. eexists _, _. split; reflexivity. }
  split; [reflexivity|]. split; [exact Hpend|].
  exact (pollQueryResults_terminates no_stringify pending_backend job_123 60000 1000
           start eq_refl Hpend).
Defined.

(** With the defaults, a backend that answers at once and exact timers, the
    loop polls [60000 / 1000] times. *)
Example pollQueryResults_default_polls :
  pollQueryResults no_stringify pending_backend 61 job_123 default_timeout
                   default_interval start
  = (Throw (timed_out 60000), World 60000 (replicate 60 (poll_request job_123))).
Proof. by vm_compute. Qed.

Lemma poll_attempt_throws_witness :
  now start - 0 < 60000 /\
  poll_try rejecting_backend job_123 1000 start
  = (Throw internal_error, World 0 [poll_request job_123]) /\
  poll_loop no_stringify rejecting_backend 1 job_123 60000 1000 0 start
  = (Throw (pollQueryResults_catch no_stringify job_123 internal_error),
     World 0 [poll_request job_123]) /\
  pollQueryResults_catch no_stringify job_123 internal_error
  = Error "Failed to poll for query results (job job-123): Redash API error (500): Internal Server Error".
Proof.
  split; [reflexivity|]. split; [reflexivity|].
  exact (poll_attempt_throws no_stringify rejecting_backend job_123 60000 1000 0
           0%nat start (World 0 [poll_request job_123]) internal_error eq_refl eq_refl).
Defined.

Lemma executeQuery_failures_prefixed_witness :
  executeQuery no_stringify failed_backend 1 123 JUndefined start
  = (Throw (Error "Failed to execute query 123: Query execution failed: syntax error"),
     World 0 [execution_post (Saved 123 JUndefined); poll_request job_123]) /\
  ((exists rest : string,
       Error "Failed to execute query 123: Query execution failed: syntax error"
       = Error ("Failed to execute query " +:+ string_of_Z 123 +:+ ": " +:+ rest))
   \/ Error "Failed to execute query 123: Query execution failed: syntax error"
      = cannot_convert).
Proof.
  split; [reflexivity|].
  exact (proj1 (executeQuery_failures_prefixed no_stringify failed_backend 1%nat 123
                  JUndefined start _ _ eq_refl)).
Defined.

(** C10 as stated fails: the remote rejects the POST with status 400 and a
    body whose [message] is an object with a property [toString]; the error
    that reaches the caller is the [TypeError] of the conversion, without the
    prefix. *)
Lemma executeQuery_unprefixed_failure :
  respond odd_backend start (execution_post (Saved 123 JUndefined)) = (inl bad_request, 0%N) /\
  executeQuery no_stringify odd_backend 5 123 JUndefined start
  = (Throw (Error "Cannot convert object to primitive value"),
     World 0 [execution_post (Saved 123 JUndefined)]) /\
  startsWith "Cannot convert object to primitive value" "Failed to execute query 123: "
  = false.
Proof. repeat split. Qed.

(** C6 as stated fails at the same rejection of a poll: the loop aborts, but
    what it throws is the [TypeError], not a failure that tells the cases
    apart. *)
Lemma poll_rejection_unwrapped :
  poll_try odd_backend job_123 1000 start
  = (Throw bad_request, World 0 [poll_request job_123]) /\
  poll_loop no_stringify odd_backend 1 job_123 60000 1000 0 start
  = (Throw (Error "Cannot convert object to primitive value"),
     World 0 [poll_request job_123]) /\
  startsWith "Cannot convert object to primitive value"
             "Failed to poll for query results" = false.
Proof. repeat split. Qed.

(** A [query_result_id] that does not convert to a string: no result is
    fetched. *)
Example poll_odd_result_id :
  pollQueryResults no_stringify odd_result_backend 2 job_123 60000 1000 start
  = (Throw (Error ("Failed to poll for query results (job job-123): " +:+
                   "Cannot convert object to primitive value")),
     World 0 [poll_request job_123]).
Proof. reflexivity. Qed.

(** The tests of [executeQuery]. *)
Example executeQuery_immediate :
  executeQuery no_stringify immediate_backend 5 123 JUndefined start
  = (Return immediate_result,
     World 0 [Request POST "/api/queries/123/results"
                      (JObj {[ "parameters" := JUndefined ]})]).
Proof. reflexivity. Qed.

Example executeQuery_polls_once :
  executeQuery no_stringify completed_backend 5 123 JUndefined start
  = (Return inline_result,
     World 0 [Request POST "/api/queries/123/results"
                      (JObj {[ "parameters" := JUndefined ]});
              Request GET "/api/jobs/job-123" JUndefined]).
Proof. reflexivity. Qed.

Example executeQuery_rejected :
  (executeQuery no_stringify rejecting_backend 5 123 JUndefined start).1
  = Throw (Error "Failed to execute query 123: Redash API error (500): Internal Server Error").
Proof. reflexivity. Qed.

(** ** Reading and listing *)

Section Reading.

Ltac run_get :=
  intros env w; cbv zeta;
  unfold try_catch, bind, client_get, http, ret, throw;
  destruct (respond env w _) as [[e|data] d]; reflexivity.

(** X1.  [getQuery], [getDataSources], [getDashboard], [getVisualization] and
    [getSchema] send one GET and return the body unchanged; whatever the
    rejection, the error thrown is a fixed message that names the entity and
    the id but never the cause. *)
Theorem read_operations :
  (forall id, reads (fun env => getQuery env id) ("/api/queries/" +:+ string_of_Z id)
                ("Failed to fetch query " +:+ string_of_Z id +:+ " from Redash")) /\
  reads getDataSources "/api/data_sources" "Failed to fetch data sources from Redash" /\
  (forall id, reads (fun env => getDashboard env id)
                ("/api/dashboards/" +:+ string_of_Z id)
                ("Failed to fetch dashboard " +:+ string_of_Z id +:+ " from Redash")) /\
  (forall id, reads (fun env => getVisualization env id)
                ("/api/visualizations/" +:+ string_of_Z id)
                ("Failed to fetch visualization " +:+ string_of_Z id +:+ " from Redash")) /\
  (forall id, reads (fun env => getSchema env id)
                ("/api/data_sources/" +:+ string_of_Z id +:+ "/schema")
                ("Failed to fetch data source " +:+ string_of_Z id +:+
                 " schema from Redash")).
Proof.
  split; [|split; [|split; [|split]]].
  - intros id. unfold reads, getQuery. run_get.
  - unfold reads, getDataSources. run_get.
  - intros id. unfold reads, getDashboard. run_get.
  - intros id. unfold reads, getVisualization. run_get.
  - intros id. unfold reads, getSchema. run_get.
Qed.

Lemma paged_eq (data : json) (w : world) :
  paged data w =
  if nullish data
  then (Throw (Error ("Cannot read properties of " +:+ toString data +:+
                      " (reading 'count')")), w)
  else (Return (page_of data), w).
Proof.
  unfold paged, bind, member, throw, ret. by destruct (nullish data).
Qed.

(** X2.  [getQueries] and [getDashboards] send one GET with [page] and
    [page_size] (1 and 25 when left out) and return [count], [page] and
    [results] of the body, with [pageSize] taken from the body's [page_size],
    not from the argument.  A rejection, and also a [null] body, gives one
    fixed message. *)
Theorem list_operations (page pageSize : option Z) (q : json) :
  lists (fun env => getQueries env page pageSize q)
        (Request GET "/api/queries"
           (JObj {[ "params" := JObj {[ "page" := JNum (default 1 page);
                                        "page_size" := JNum (default 25 pageSize);
                                        "q" := q ]} ]}))
        "Failed to fetch queries from Redash" /\
  lists (fun env => getDashboards env page pageSize)
        (Request GET "/api/dashboards"
           (JObj {[ "params" := JObj {[ "page" := JNum (default 1 page);
                                        "page_size" := JNum (default 25 pageSize) ]} ]}))
        "Failed to fetch dashboards from Redash".
Proof.
  split; intros env w.
  - unfold getQueries, try_catch, client_get_config, bind, http.
    destruct (respond env w _) as [[e|data] d]; [reflexivity|].
    rewrite paged_eq. by destruct (nullish data).
  - unfold getDashboards, try_catch, client_get_config, bind, http.
    destruct (respond env w _) as [[e|data] d]; [reflexivity|].
    rewrite paged_eq. by destruct (nullish data).
Qed.

End Reading.

(** ** Creating and updating queries *)

Section Mutations.

Variable JSON_stringify : json -> json.
Variable env : backend.

(** [createQuery] once its POST has settled. *)
Lemma createQuery_eq (queryData : gmap string json) (w : world) :
  let r := Request POST "/api/queries" (JObj (createQuery_requestData queryData)) in
  createQuery JSON_stringify env queryData w =
  match respond env w r with
  | (inr data, d) =>
      (if nullish data
       then Throw (Error ("Failed to create query: " +:+ cannot_read data "id"))
       else if converts (field "id" data) then Return data
       else Throw (Error ("Failed to create query: " +:+
                          "Cannot convert object to primitive value")),
       after_request r d w)
  | (inl e, d) =>
      match updateQuery_inner_catch JSON_stringify e (after_request r d w) with
      | (Throw msg, w') =>
          (Throw (Error ("Failed to create query: " +:+ errorText msg)), w')
      | other => other
      end
  end.
Proof.
  cbv zeta. unfold createQuery, try_catch, client_post, bind, http.
  destruct (respond env w _) as [[e|data] d]; [reflexivity|].
  unfold member, ToString, cannot_read.
  destruct (nullish data); [reflexivity|]. unfold ret at 1.
  by destruct (converts (field "id" data)).
Qed.

Lemma createQuery_sent (queryData : gmap string json) (w : world) :
  sent (createQuery JSON_stringify env queryData w).2 =
  sent w ++ [Request POST "/api/queries" (JObj (createQuery_requestData queryData))].
Proof.
  rewrite createQuery_eq. cbv zeta.
  destruct (respond env w _) as [[e|data] d]; simpl; [|done].
  pose proof (updateQuery_inner_catch_world JSON_stringify e
                (after_request (Request POST "/api/queries"
                   (JObj (createQuery_requestData queryData))) d w)) as Hw.
  destruct (updateQuery_inner_catch _ _ _) as [[a|e'|] w']; simpl in *; by subst.
Qed.

(** X3.  The object [createQuery] hands to [post] always has the seven keys
    [name], [data_source_id], [query], [description], [options], [schedule]
    and [tags]: the first three hold the payload's values as they are; each
    of the other four holds the payload's value when that is truthy and
    otherwise its default (the empty string, [{}], [null], [[]]), so that a
    falsy value given by the caller is replaced as an absent one is. *)
Theorem createQuery_body (queryData : gmap string json) :
  exists requestData : gmap string json,
    (forall w, sent (createQuery JSON_stringify env queryData w).2
               = sent w ++ [Request POST "/api/queries" (JObj requestData)]) /\
    dom requestData = list_to_set CreateQueryRequest_fields /\
    (forall k, k ∈ ["name"; "data_source_id"; "query"] ->
               requestData !! k = Some (get k queryData)) /\
    (forall k d,
        (k, d) ∈ [("description", JStr EmptyString); ("options", JObj ∅);
                  ("schedule", JNull); ("tags", JArr [])] ->
        requestData !! k = Some (if truthy (get k queryData) then get k queryData else d)).
Proof.
  exists (createQuery_requestData queryData). split; [intros; apply createQuery_sent|].
  split; [|split].
  - unfold createQuery_requestData, CreateQueryRequest_fields.
    rewrite !dom_insert_L, dom_singleton_L. set_solver.
  - intros k Hk. unfold createQuery_requestData.
    repeat (apply elem_of_cons in Hk as [->|Hk]; [by simplify_map_eq|]).
    by apply elem_of_nil in Hk.
  - intros k d Hk. unfold createQuery_requestData, or_else.
    repeat (apply elem_of_cons in Hk as [[= -> ->]|Hk]; [by simplify_map_eq|]).
    by apply elem_of_nil in Hk.
Qed.

Lemma inner_catch_throws (e : thrown) (w : world) :
  exists msg : thrown,
    updateQuery_inner_catch JSON_stringify e w = (Throw msg, w) /\
    (instanceofError e = true ->
     errorText msg = mutation_failure JSON_stringify e) /\
    (instanceofError msg = false -> msg = e).
Proof.
  unfold updateQuery_inner_catch, member, bind, throw, ret.
  destruct e as [m [[st dt]|] [|]|m|v]; simpl; try by eexists.
  destruct (nullish v); [by eexists|].
  destruct (truthy (field "response" v)); [by eexists|].
  destruct (truthy (field "request" v)); by eexists.
Qed.

(** X4.  [updateQuery] returns the body of a successful POST unchanged.  So
    does [createQuery], once it has read the [id] off the body and put it in
    a log line: for a body that is [null] or [undefined], and for an [id] that
    does not convert to a string, it fails with the [TypeError] under its
    prefix although the POST succeeded.  Every failure is an [Error] whose
    message starts with [Failed to update query <id>: ] or
    [Failed to create query: ]; for a rejection that is an [Error] the rest is
    [Redash API error (<status>): <JSON of the response body>] when the remote
    answered, [No response received from Redash API: <message>] when a request
    was sent and not answered, and the bare message otherwise. *)
Theorem mutation_results (queryData : gmap string json) (w : world) :
  (forall queryId,
     let r := Request POST ("/api/queries/" +:+ string_of_Z queryId)
                      (JObj (updateQuery_requestData queryData)) in
     match respond env w r with
     | (inr data, d) =>
         updateQuery JSON_stringify env queryId queryData w
         = (Return data, after_request r d w)
     | (inl e, d) =>
         exists rest : string,
           updateQuery JSON_stringify env queryId queryData w
           = (Throw (Error ("Failed to update query " +:+ string_of_Z queryId +:+ ": "
                            +:+ rest)), after_request r d w) /\
           (instanceofError e = true -> rest = mutation_failure JSON_stringify e)
     end) /\
  (let r := Request POST "/api/queries" (JObj (createQuery_requestData queryData)) in
   match respond env w r with
   | (inr data, d) =>
       createQuery JSON_stringify env queryData w =
       (if nullish data
        then Throw (Error ("Failed to create query: " +:+ cannot_read data "id"))
        else if converts (field "id" data) then Return data
        else Throw (Error ("Failed to create query: " +:+
                           "Cannot convert object to primitive value")),
        after_request r d w)
   | (inl e, d) =>
       exists rest : string,
         createQuery JSON_stringify env queryData w
         = (Throw (Error ("Failed to create query: " +:+ rest)), after_request r d w) /\
         (instanceofError e = true -> rest = mutation_failure JSON_stringify e)
   end).
Proof.
  split; [intros queryId|]; cbv zeta.
  - unfold updateQuery, try_catch, client_post, http.
    destruct (respond env w _) as [[e|data] d]; [|reflexivity].
    destruct (inner_catch_throws e
                (after_request (Request POST ("/api/queries/" +:+ string_of_Z queryId)
                   (JObj (updateQuery_requestData queryData))) d w))
      as (msg & -> & Htext & _).
    exists (errorText msg). split; [reflexivity|exact Htext].
  - rewrite createQuery_eq. cbv zeta.
    destruct (respond env w _) as [[e|data] d]; [|reflexivity].
    destruct (inner_catch_throws e
                (after_request (Request POST "/api/queries"
                   (JObj (createQuery_requestData queryData))) d w))
      as (msg & -> & Htext & _).
    exists (errorText msg). split; [reflexivity|exact Htext].
Qed.

End Mutations.

(** The POST succeeds with the body [null]: the query exists, and
    [createQuery] fails. *)
Example createQuery_null_body :
  createQuery no_stringify null_backend {[ "name" := JStr "Sales" ]} start
  = (Throw (Error ("Failed to create query: " +:+
                   "Cannot read properties of null (reading 'id')")),
     World 0 [Request POST "/api/queries"
                (JObj (createQuery_requestData {[ "name" := JStr "Sales" ]}))]).
Proof. reflexivity. Qed.

(** ** CSV results *)

Section Csv.

Variable JSON_stringify : json -> json.
Variable env : backend.

(** The GET of the CSV text, sent in world [w]. *)
Lemma csv_fetch_eq (queryId : Z) (w : world) :
  try_catch
    (client_get_config env ("/api/queries/" +:+ string_of_Z queryId +:+ "/results.csv")
                       {[ "responseType" := JStr "text" ]})
    (fun error => throw (getQueryResultsAsCsv_catch queryId error)) w
  = match respond env w (csv_request queryId) with
    | (inr data, d) => (Return data, after_request (csv_request queryId) d w)
    | (inl e, d) =>
        (Throw (getQueryResultsAsCsv_catch queryId e),
         after_request (csv_request queryId) d w)
    end.
Proof.
  unfold try_catch, client_get_config, http. fold (csv_request queryId).
  by destruct (respond env w (csv_request queryId)) as [[e|data] d].
Qed.

(** X5.  Without [refresh], [getQueryResultsAsCsv] sends the CSV GET and
    nothing else.  With [refresh] it first runs [executeQuery] without
    parameters: when that returns, its result is dropped and the CSV GET is
    sent from there; when that throws, no CSV GET is sent.  The CSV body is
    returned unchanged, and a rejected CSV GET is classified by the [catch]
    clause. *)
Theorem getQueryResultsAsCsv_runs (fuel : nat) (queryId : Z) (refresh : bool)
    (w : world) :
  let fetch (w0 : world) :=
    match respond env w0 (csv_request queryId) with
    | (inr data, d) => (Return data, after_request (csv_request queryId) d w0)
    | (inl e, d) =>
        (Throw (getQueryResultsAsCsv_catch queryId e),
         after_request (csv_request queryId) d w0)
    end in
  getQueryResultsAsCsv JSON_stringify env fuel queryId refresh w =
  if refresh then
    match executeQuery JSON_stringify env fuel queryId JUndefined w with
    | (Return _, w1) => fetch w1
    | (Throw e, w1) => (Throw (getQueryResultsAsCsv_catch queryId e), w1)
    | (OutOfFuel, w1) => (OutOfFuel, w1)
    end
  else fetch w.
Proof.
  cbv zeta. unfold getQueryResultsAsCsv. destruct refresh.
  - unfold try_catch at 1. unfold bind at 1.
    destruct (executeQuery _ _ _ _ _ w) as [[v|e|] w1]; try reflexivity.
    exact (csv_fetch_eq queryId w1).
  - exact (csv_fetch_eq queryId w).
Qed.

(** X6.  When the refresh of [getQueryResultsAsCsv] fails, the requests sent
    are those of [executeQuery] alone, and the error is
    [Failed to fetch CSV results for query <id>: ] before the message of the
    error of [executeQuery].  That message starts with
    [Failed to execute query <id>: ], so that the error carries both prefixes,
    unless it is the [TypeError] of a conversion to a string, which takes a
    remote that rejects a request with an error response whose message does
    not convert. *)
Theorem getQueryResultsAsCsv_refresh_fails (fuel : nat) (queryId : Z) (w w1 : world)
    (e : thrown) :
  executeQuery JSON_stringify env fuel queryId JUndefined w = (Throw e, w1) ->
  exists msg : string,
    e = Error msg /\
    getQueryResultsAsCsv JSON_stringify env fuel queryId true w =
    (Throw (Error ("Failed to fetch CSV results for query " +:+ string_of_Z queryId +:+
                   ": " +:+ msg)), w1) /\
    ((exists rest : string,
         msg = "Failed to execute query " +:+ string_of_Z queryId +:+ ": " +:+ rest)
     \/ msg = "Cannot convert object to primitive value") /\
    ((forall w0 r e0 d,
         respond env w0 r = (inl e0, d) -> unprintable JSON_stringify e0 = false) ->
     exists rest : string,
       msg = "Failed to execute query " +:+ string_of_Z queryId +:+ ": " +:+ rest).
Proof.
  intros Hthrow.
  destruct (executeQuery_caught _ _ _ _ _ _ _ _ Hthrow) as (e0 & Hraised & He).
  pose proof (executeQuery_catch_cases JSON_stringify queryId e0) as Hcases.
  pose proof (raised_printable JSON_stringify env e0) as Hprintable.
  assert (Hcsv : forall msg, e = Error msg ->
            getQueryResultsAsCsv JSON_stringify env fuel queryId true w =
            (Throw (Error ("Failed to fetch CSV results for query " +:+
                           string_of_Z queryId +:+ ": " +:+ msg)), w1)).
  { intros msg ->. unfold getQueryResultsAsCsv, try_catch. unfold bind at 1.
    rewrite Hthrow. unfold throw, getQueryResultsAsCsv_catch.
    by rewrite ?app_assoc_str. }
  destruct (unprintable JSON_stringify e0) eqn:Hu.
  - exists "Cannot convert object to primitive value".
    assert (He' : e = Error "Cannot convert object to primitive value")
      by (by rewrite He, Hcases).
    split; [done|]. split; [by apply Hcsv|]. split; [by right|].
    intros Hall. specialize (Hprintable Hall Hraised). congruence.
  - destruct Hcases as [rest Hrest].
    exists ("Failed to execute query " +:+ string_of_Z queryId +:+ ": " +:+ rest).
    assert (He' : e = Error ("Failed to execute query " +:+ string_of_Z queryId +:+
                             ": " +:+ rest)) by (by rewrite He, Hrest).
    split; [done|]. split; [by apply Hcsv|]. split; [left|intros _]; by exists rest.
Qed.

End Csv.

Lemma getQueryResultsAsCsv_refresh_fails_witness :
  executeQuery no_stringify failed_backend 1 123 JUndefined start
  = (Throw (Error "Failed to execute query 123: Query execution failed: syntax error"),
     World 0 [execution_post (Saved 123 JUndefined); poll_request job_123]) /\
  exists msg : string,
    Error "Failed to execute query 123: Query execution failed: syntax error"
    = Error msg /\
    getQueryResultsAsCsv no_stringify failed_backend 1 123 true start =
    (Throw (Error ("Failed to fetch CSV results for query " +:+ string_of_Z 123 +:+
                   ": " +:+ msg)),
     World 0 [execution_post (Saved 123 JUndefined); poll_request job_123]) /\
    ((exists rest : string,
         msg = "Failed to execute query " +:+ string_of_Z 123 +:+ ": " +:+ rest)
     \/ msg = "Cannot convert object to primitive value") /\
    ((forall w0 r e0 d,
         respond failed_backend w0 r = (inl e0, d) -> unprintable no_stringify e0 = false) ->
     exists rest : string,
       msg = "Failed to execute query " +:+ string_of_Z 123 +:+ ": " +:+ rest).
Proof.
  split; [reflexivity|].
  exact (getQueryResultsAsCsv_refresh_fails no_stringify failed_backend 1%nat 123 start
           _ _ eq_refl).
Defined.

(** A refresh that fails with the [TypeError] of a conversion: the error has
    the first prefix only. *)
Example getQueryResultsAsCsv_refresh_unprefixed :
  getQueryResultsAsCsv no_stringify odd_backend 5 123 true start
  = (Throw (Error ("Failed to fetch CSV results for query 123: " +:+
                   "Cannot convert object to primitive value")),
     World 0 [execution_post (Saved 123 JUndefined)]).
Proof. reflexivity. Qed.

(** The tests of [getQueryResultsAsCsv]: only the CSV GET without refresh, the
    execution first with it. *)
Example getQueryResultsAsCsv_no_refresh :
  sent (getQueryResultsAsCsv no_stringify immediate_backend 5 1 false start).2
  = [csv_request 1].
Proof. reflexivity. Qed.

Example getQueryResultsAsCsv_refresh :
  sent (getQueryResultsAsCsv no_stringify immediate_backend 5 1 true start).2
  = [execution_post (Saved 1 JUndefined); csv_request 1].
Proof. reflexivity. Qed.

(** ** Operations that acknowledge *)

Section Acknowledging.

Ltac run_ack :=
  intros env id w;
  unfold try_catch, bind, client_delete, client_post_empty, http, ret, throw;
  destruct (respond env w _) as [[e|data] d]; try reflexivity;
  simpl; rewrite ?app_assoc_str; reflexivity.

(** X7.  [unshareDashboard], [removeDashboardFavorite], [removeQueryFavorite]
    and [removeAlertSubscription] (by DELETE), [addDashboardFavorite],
    [addQueryFavorite] and [muteAlert] (by POST without body) send one request
    to the endpoint of the id, return [{ success: true }] whatever the
    response body, and on rejection throw an error that names the operation,
    the id and the cause. *)
Theorem acknowledging_operations :
  acknowledges unshareDashboard
    (fun id => Request DELETE ("/api/dashboards/" +:+ string_of_Z id +:+ "/share") JUndefined)
    (fun id => "Failed to unshare dashboard " +:+ string_of_Z id +:+ ": ") /\
  acknowledges removeDashboardFavorite
    (fun id => Request DELETE ("/api/dashboards/" +:+ string_of_Z id +:+ "/favorite")
                       JUndefined)
    (fun id => "Failed to remove dashboard " +:+ string_of_Z id +:+ " from favorites: ") /\
  acknowledges removeQueryFavorite
    (fun id => Request DELETE ("/api/queries/" +:+ string_of_Z id +:+ "/favorite")
                       JUndefined)
    (fun id => "Failed to remove query " +:+ string_of_Z id +:+ " from favorites: ") /\
  acknowledges (fun env (ids : Z * Z) => removeAlertSubscription env ids.1 ids.2)
    (fun ids => Request DELETE ("/api/alerts/" +:+ string_of_Z ids.1 +:+
                                "/subscriptions/" +:+ string_of_Z ids.2) JUndefined)
    (fun ids => "Failed to remove subscription " +:+ string_of_Z ids.2 +:+
                " from alert " +:+ string_of_Z ids.1 +:+ ": ") /\
  acknowledges addDashboardFavorite
    (fun id => Request POST ("/api/dashboards/" +:+ string_of_Z id +:+ "/favorite")
                       JUndefined)
    (fun id => "Failed to add dashboard " +:+ string_of_Z id +:+ " to favorites: ") /\
  acknowledges addQueryFavorite
    (fun id => Request POST ("/api/queries/" +:+ string_of_Z id +:+ "/favorite") JUndefined)
    (fun id => "Failed to add query " +:+ string_of_Z id +:+ " to favorites: ") /\
  acknowledges muteAlert
    (fun id => Request POST ("/api/alerts/" +:+ string_of_Z id +:+ "/mute") JUndefined)
    (fun id => "Failed to mute alert " +:+ string_of_Z id +:+ ": ").
Proof.
  split; [|split; [|split; [|split; [|split; [|split]]]]].
  - unfold acknowledges, unshareDashboard. run_ack.
  - unfold acknowledges, removeDashboardFavorite. run_ack.
  - unfold acknowledges, removeQueryFavorite. run_ack.
  - unfold acknowledges, removeAlertSubscription. run_ack.
  - unfold acknowledges, addDashboardFavorite. run_ack.
  - unfold acknowledges, addQueryFavorite. run_ack.
  - unfold acknowledges, muteAlert. run_ack.
Qed.

End Acknowledging.

(** ** More on the polling loop *)

Section Polling.

Variable JSON_stringify : json -> json.
Variable env : backend.
Variables (jobId : json) (timeout interval startTime : Z).

#[local] Abbreviation poll_try := (poll_try env jobId interval).
#[local] Abbreviation poll_loop fuel :=
  (poll_loop JSON_stringify env fuel jobId timeout interval startTime).

(** What one iteration sends, and that its clock does not go back. *)
Lemma poll_try_shape (w : world) :
  now w <= now (poll_try w).2 /\
  match (poll_try w).1 with
  | Return None => sent (poll_try w).2 = sent w ++ [poll_request jobId]
  | _ =>
      sent (poll_try w).2 = sent w ++ [poll_request jobId] \/
      exists id, sent (poll_try w).2 = sent w ++ [poll_request jobId; result_request id]
  end.
Proof.
  unfold RedashClient.poll_try, client_get. fold (poll_request jobId).
  unfold bind, http, member, ToString, sleep, throw, ret.
  destruct (respond env w (poll_request jobId)) as [[e|data] d]; simpl; [split; [lia|by left]|].
  destruct (nullish data); simpl; [split; [lia|by left]|].
  destruct (nullish (field "job" data)); simpl; [split; [lia|by left]|].
  destruct (strict_eq_num (field "status" (field "job" data)) 3).
  - destruct (truthy (field "query_result_id" (field "job" data))); simpl;
      [|split; [lia|by left]].
    destruct (converts (field "query_result_id" (field "job" data))); simpl;
      [|split; [lia|by left]].
    fold (result_request (field "query_result_id" (field "job" data))).
    destruct (respond env _ (result_request _)) as [[e|resultData] d']; simpl;
      (split; [lia|right; eexists; by rewrite <- app_assoc]).
  - destruct (strict_eq_num (field "status" (field "job" data)) 4); simpl.
    + destruct (converts _); simpl; (split; [lia|by left]).
    + split; [lia|done].
Qed.

(** X8.  Whatever the backend does, the loop of [pollQueryResults] sends only
    GETs: polls of the job, at most one per iteration, and at most one fetch
    of a persisted result, which is then the last request.  A loop that is
    entered when the timeout has already passed sends nothing; the deadline is
    checked before each poll only, so that a poll under way is not cut short
    and the fetch of a result can go out after the deadline.  The clock of the
    loop never goes back. *)
Theorem poll_loop_requests (fuel : nat) (w : world) :
  exists (polls : nat) (tail : list request),
    sent (poll_loop fuel w).2 = sent w ++ replicate polls (poll_request jobId) ++ tail /\
    (polls <= fuel)%nat /\
    (tail = [] \/ exists id, tail = [result_request id] /\ (0 < polls)%nat) /\
    (timeout <= now w - startTime -> polls = 0%nat /\ tail = []) /\
    now w <= now (poll_loop fuel w).2.
Proof.
  revert w. induction fuel as [|fuel IH]; intros w.
  - exists 0%nat, []. simpl. rewrite app_nil_r. repeat split; auto; lia.
  - rewrite poll_loop_S. destruct (now w - startTime <? timeout) eqn:Hwin.
    2:{ exists 0%nat, []. simpl. rewrite app_nil_r. repeat split; auto; lia. }
    apply Z.ltb_lt in Hwin. rewrite poll_iteration_eq.
    destruct (poll_try_shape w) as [Hnow Hsent].
    destruct (poll_try w) as [[[v|]|e|] w'] eqn:Htry; simpl in *.
    2:{ destruct (IH w') as (polls & tail & Hs & Hle & Htail & _ & Hclock).
        exists (S polls), tail. rewrite Hs, Hsent, <- app_assoc. simpl.
        split; [done|]. split; [lia|]. split.
        { destruct Htail as [->|(id & -> & ?)]; [by left|right; exists id; split; [done|lia]]. }
        split; [lia|lia]. }
    all: destruct Hsent as [Hsent|[id Hsent]];
      [ exists 1%nat, [] | exists 1%nat, [result_request id] ];
      rewrite Hsent; simpl;
      (split; [done|]); (split; [lia|]);
      (split; [first [by left | right; exists id; split; [done|lia]]|]);
      (split; [lia|done]).
Qed.

(** X9.  A poll answered with a body that has no job ([null], or an object
    without [job]) ends the loop at once with a poll failure, not with a
    timeout: the error is [Failed to poll for query results (job <jobId>): ]
    followed by the message of the [TypeError]. *)
Theorem poll_without_job (fuel : nat) (w : world) (data : json) (d : N) :
  now w - startTime < timeout ->
  respond env w (poll_request jobId) = (inr data, d) ->
  nullish data || nullish (field "job" data) = true ->
  poll_loop (S fuel) w =
  (Throw (Error ("Failed to poll for query results (job " +:+ toString jobId +:+ "): "
                 +:+ (if nullish data then cannot_read data "job"
                      else cannot_read (field "job" data) "status"))),
   after_request (poll_request jobId) d w).
Proof.
  intros Hwin Hresp Hno.
  rewrite poll_loop_S, (proj2 (Z.ltb_lt _ _) Hwin), poll_iteration_eq.
  unfold RedashClient.poll_try, client_get. fold (poll_request jobId).
  rewrite (bind_http_ok _ _ _ _ _ _ Hresp).
  unfold bind at 1. unfold member at 1. destruct (nullish data) eqn:Hdata.
  - unfold throw, pollQueryResults_catch. by destruct data.
  - simpl in Hno. unfold ret at 1. unfold bind at 1. unfold member at 1.
    rewrite Hno. unfold throw, pollQueryResults_catch.
    by destruct (field "job" data).
Qed.

(** X10.  A job whose status is anything but the number 3 or the number 4 (a
    missing status, a string such as ['3'], another number) leaves the loop
    pending: the iteration sends its poll and nothing else, and the next
    iteration starts no sooner than [interval] milliseconds later. *)
Theorem poll_pending (fuel : nat) (w : world) (data : json) (d : N) :
  now w - startTime < timeout ->
  respond env w (poll_request jobId) = (inr data, d) ->
  nullish (field "job" data) = false ->
  field "status" (field "job" data) <> JNum 3 ->
  field "status" (field "job" data) <> JNum 4 ->
  exists w2 : world,
    poll_loop (S fuel) w = poll_loop fuel w2 /\
    sent w2 = sent w ++ [poll_request jobId] /\
    now w + interval <= now w2.
Proof.
  intros Hwin Hresp Hjob H3 H4.
  assert (Hdata : nullish data = false) by (by destruct data).
  assert (Hpend : is_pending data = true).
  { unfold is_pending. rewrite Hdata, Hjob. simpl.
    destruct (strict_eq_num _ 3) eqn:E3; [by apply strict_eq_num_inv in E3|].
    destruct (strict_eq_num _ 4) eqn:E4; [by apply strict_eq_num_inv in E4|]. done. }
  eexists. split; [exact (poll_loop_pending_step _ _ _ _ _ _ _ _ _ _ Hwin Hresp Hpend)|].
  simpl. split; [done|lia].
Qed.

End Polling.

Lemma poll_without_job_witness :
  now start - 0 < 60000 /\
  respond immediate_backend start (poll_request job_123) = (inr immediate_result, 0%N) /\
  nullish immediate_result || nullish (field "job" immediate_result) = true /\
  poll_loop no_stringify immediate_backend 1 job_123 60000 1000 0 start =
  (Throw (Error ("Failed to poll for query results (job job-123): " +:+
                 "Cannot read properties of undefined (reading 'status')")),
   World 0 [poll_request job_123]).
Proof.
  split; [reflexivity|]. split; [reflexivity|]. split; [reflexivity|].
  exact (poll_without_job no_stringify immediate_backend job_123 60000 1000 0 0%nat
           start immediate_result 0%N eq_refl eq_refl eq_refl).
Defined.

Lemma poll_pending_witness :
  now start - 0 < 60000 /\
  respond string_status_backend start (poll_request job_123)
  = (inr (JObj {[ "job" := JObj {[ "status" := JStr "3" ]} ]}), 0%N) /\
  exists w2 : world,
    poll_loop no_stringify string_status_backend 2 job_123 60000 1000 0 start
    = poll_loop no_stringify string_status_backend 1 job_123 60000 1000 0 w2 /\
    sent w2 = sent start ++ [poll_request job_123] /\
    now start + 1000 <= now w2.
Proof.
  split; [reflexivity|]. split; [reflexivity|].
  refine (poll_pending no_stringify string_status_backend job_123 60000 1000 0 1%nat
            start (JObj {[ "job" := JObj {[ "status" := JStr "3" ]} ]}) 0%N
            eq_refl eq_refl eq_refl _ _); vm_compute; discriminate.
Defined.

(** The deadline is not checked before the fetch of a persisted result: here
    the poll takes 70 seconds, and the result is fetched, and returned, after
    the timeout of 60 seconds. *)
Example result_fetched_after_deadline :
  pollQueryResults no_stringify slow_backend 1 job_123 60000 1000 start
  = (Return inline_result,
     World 70000 [poll_request job_123; result_request (JNum 42)]).
Proof. reflexivity. Qed.

(** ** More on the public calls *)

Section Executing.

Variable JSON_stringify : json -> json.
Variable env : backend.

(** X11.  When the POST of [executeQuery] or [executeAdhocQuery] is answered
    with the body [null], the call does not return it: reading [job] off the
    body throws, and the call fails with its own prefix before the message of
    the [TypeError], having sent the POST alone. *)
Theorem execute_null_body (x : execution) (fuel : nat) (w : world) (data : json)
    (d : N) :
  respond env w (execution_post x) = (inr data, d) ->
  nullish data = true ->
  execute JSON_stringify env fuel x w =
  (Throw (Error ((match x with
                  | Saved queryId _ =>
                      "Failed to execute query " +:+ string_of_Z queryId +:+ ": "
                  | Adhoc _ _ => "Failed to execute adhoc query: "
                  end) +:+ cannot_read data "job")),
   after_request (execution_post x) d w).
Proof.
  intros Hresp Hdata. rewrite execute_eq. unfold try_catch.
  rewrite (bind_http_ok _ _ _ _ _ _ Hresp).
  unfold bind, member. rewrite Hdata. unfold throw.
  destruct x; simpl; [|reflexivity].
  by rewrite !app_assoc_str.
Qed.

(** X12.  Whatever [executeAdhocQuery] throws is an [Error] whose message
    starts with [Failed to execute adhoc query: ].  When its POST is rejected,
    the rest of the message is the message of the rejection alone: unlike
    [executeQuery], the status and the body of an error response do not
    appear. *)
Theorem executeAdhocQuery_failures (fuel : nat) (query : string) (dataSourceId : Z)
    (w : world) :
  match executeAdhocQuery JSON_stringify env fuel query dataSourceId w with
  | (Throw e, _) =>
      exists rest : string, e = Error ("Failed to execute adhoc query: " +:+ rest)
  | _ => True
  end /\
  match respond env w (execution_post (Adhoc query dataSourceId)) with
  | (inl e, d) =>
      executeAdhocQuery JSON_stringify env fuel query dataSourceId w =
      (Throw (Error ("Failed to execute adhoc query: " +:+ errorText e)),
       after_request (execution_post (Adhoc query dataSourceId)) d w)
  | _ => True
  end.
Proof.
  split.
  - unfold executeAdhocQuery, try_catch.
    destruct (bind _ _ w) as [[v|e0|] w0]; try done.
    unfold throw, executeAdhocQuery_catch. by eexists.
  - destruct (respond env w _) as [[e|data] d] eqn:Hresp; [|done].
    change (executeAdhocQuery JSON_stringify env fuel query dataSourceId w)
      with (execute JSON_stringify env fuel (Adhoc query dataSourceId) w).
    rewrite execute_eq. unfold try_catch.
    by rewrite (bind_http_err _ _ _ _ _ _ Hresp).
Qed.

End Executing.

Lemma execute_null_body_witness :
  respond null_backend start (execution_post (Saved 123 JUndefined)) = (inr JNull, 0%N) /\
  nullish JNull = true /\
  executeQuery no_stringify null_backend 5 123 JUndefined start =
  (Throw (Error ("Failed to execute query 123: " +:+
                 "Cannot read properties of null (reading 'job')")),
   World 0 [execution_post (Saved 123 JUndefined)]).
Proof.
  split; [reflexivity|]. split; [reflexivity|].
  exact (execute_null_body no_stringify null_backend (Saved 123 JUndefined) 5%nat start
           JNull 0%N eq_refl eq_refl).
Defined.

(** ** More on header construction *)

Section Configuration.

Variable JSON_parse : string -> option json.

(** X13.  The constructor throws its configuration error exactly when
    [REDASH_URL] or [REDASH_API_KEY] is unset or empty; otherwise the client
    gets [REDASH_URL] as base URL. *)
Theorem constructor_configuration (url key raw : option string) :
  match constructor JSON_parse url key raw with
  | inl e =>
      e = Error "REDASH_URL and REDASH_API_KEY must be provided in .env file" /\
      (url = None \/ url = Some EmptyString \/ key = None \/ key = Some EmptyString)
  | inr cfg =>
      url = Some (baseURL cfg) /\ baseURL cfg <> EmptyString /\
      exists apiKey, key = Some apiKey /\ apiKey <> EmptyString
  end.
Proof.
  unfold constructor.
  destruct url as [[|c u]|], key as [[|c' k]|]; simpl;
    try (split; [reflexivity|tauto]).
  split; [reflexivity|]. split; [discriminate|]. eexists. split; [reflexivity|discriminate].
Qed.

(** X14.  In the headers of the client, every extra header other than
    [Authorization] and [authorization] is present with its own value, and so
    replaces the default [Content-Type] if it has that name; without it
    [Content-Type] is [application/json].  When the extra headers hold a
    non-empty [Authorization] or [authorization], both are dropped and
    [Authorization] is the derived [Key <apiKey>]. *)
Theorem constructor_extra_headers (url key raw : option string) (cfg : AxiosConfig) :
  constructor JSON_parse url key raw = inr cfg ->
  let extraHeaders := parseExtraHeaders JSON_parse raw in
  (forall k v, k <> "Authorization" -> k <> "authorization" ->
               extraHeaders !! k = Some v -> headers cfg !! k = Some v) /\
  (extraHeaders !! "Content-Type" = None ->
   headers cfg !! "Content-Type" = Some "application/json") /\
  (header_truthy (extraHeaders !! "Authorization")
   || header_truthy (extraHeaders !! "authorization") = true ->
   headers cfg !! "Authorization" = Some ("Key " +:+ default EmptyString key) /\
   headers cfg !! "authorization" = None).
Proof.
  intros H. pose proof (constructor_Authorization JSON_parse _ _ _ _ H) as Hauth.
  cbv zeta in Hauth. unfold constructor in H. cbv zeta.
  set (extraHeaders := parseExtraHeaders JSON_parse raw) in *.
  destruct (String.eqb _ _ || String.eqb _ _) in H; [discriminate|].
  injection H as <-. cbn [headers] in *.
  split; [|split].
  - intros k v Hk1 Hk2 Hv. apply lookup_union_Some_l.
    destruct (_ || _); [|done].
    rewrite !lookup_delete_ne by done. done.
  - intros Hct. rewrite lookup_union_r.
    + rewrite lookup_insert_ne by done. apply lookup_singleton_eq.
    + destruct (_ || _); [|done]. by rewrite !lookup_delete_ne.
  - intros Hcond. rewrite Hcond in Hauth |- *. split; [exact Hauth|].
    rewrite lookup_union_None. split.
    + apply lookup_delete_eq.
    + rewrite lookup_insert_ne by done. by rewrite lookup_singleton_ne.
Qed.

(** X15.  When [REDASH_EXTRA_HEADERS] is the JSON text of an object whose
    values all convert to strings, the extra headers are the properties of the
    object whose value is not [null], each with its value turned into a
    string.  When some value does not convert, the JSON form is given up and
    the text is read as [key=value] pairs. *)
Theorem parseExtraHeaders_json (raw : string) (obj : gmap string json) :
  String.eqb raw EmptyString = false ->
  JSON_parse raw = Some (JObj obj) ->
  ((forall k v, obj !! k = Some v -> converts v = true) ->
   forall k,
     parseExtraHeaders JSON_parse (Some raw) !! k =
     match obj !! k with
     | Some v => if nullish v then None else Some (toString v)
     | None => None
     end) /\
  (forall k v, obj !! k = Some v -> converts v = false ->
               parseExtraHeaders JSON_parse (Some raw) = parseKeyValue raw).
Proof.
  intros Hraw Hparse. unfold parseExtraHeaders. rewrite Hraw, Hparse. cbv zeta. split.
  - intros Hall k. rewrite bool_decide_eq_true_2.
    2:{ intros k' v' [Hv _]%map_lookup_filter_Some. by eapply Hall. }
    rewrite lookup_fmap, map_lookup_filter.
    destruct (obj !! k) as [v|]; simpl; [|done].
    by destruct (nullish v).
  - intros k v Hk Hv. rewrite bool_decide_eq_false_2; [done|].
    intros Hall. assert (Hc : converts v = true); [|congruence].
    apply (Hall k v). apply map_lookup_filter_Some. split; [done|].
    simpl. by destruct v.
Qed.

End Configuration.

Lemma constructor_extra_headers_witness :
  exists cfg : AxiosConfig,
    constructor (fun _ => None) (Some "https://redash.example.com")
                (Some "test-api-key") (Some "X-Custom-Header=value1") = inr cfg /\
    let extraHeaders :=
      parseExtraHeaders (fun _ => None) (Some "X-Custom-Header=value1") in
    (forall k v, k <> "Authorization" -> k <> "authorization" ->
                 extraHeaders !! k = Some v -> headers cfg !! k = Some v) /\
    (extraHeaders !! "Content-Type" = None ->
     headers cfg !! "Content-Type" = Some "application/json") /\
    (header_truthy (extraHeaders !! "Authorization")
     || header_truthy (extraHeaders !! "authorization") = true ->
     headers cfg !! "Authorization"
     = Some ("Key " +:+ default EmptyString (Some "test-api-key")) /\
     headers cfg !! "authorization" = None).
Proof.
  eexists. split; [reflexivity|].
  apply (constructor_extra_headers (fun _ => None) (Some "https://redash.example.com")
           (Some "test-api-key") (Some "X-Custom-Header=value1")).
  reflexivity.
Defined.

Lemma parseExtraHeaders_json_witness :
  String.eqb sample_json_text EmptyString = false /\
  sample_parse sample_json_text = Some (JObj {[ "X-Api" := JNum 1 ]}) /\
  ((forall k v, ({[ "X-Api" := JNum 1 ]} : gmap string json) !! k = Some v ->
                converts v = true) ->
   forall k,
     parseExtraHeaders sample_parse (Some sample_json_text) !! k =
     match ({[ "X-Api" := JNum 1 ]} : gmap string json) !! k with
     | Some v => if nullish v then None else Some (toString v)
     | None => None
     end) /\
  (forall k v, ({[ "X-Api" := JNum 1 ]} : gmap string json) !! k = Some v ->
               converts v = false ->
               parseExtraHeaders sample_parse (Some sample_json_text)
               = parseKeyValue sample_json_text).
Proof.
  split; [reflexivity|]. split; [reflexivity|].
  apply (parseExtraHeaders_json sample_parse sample_json_text
           {[ "X-Api" := JNum 1 ]}); reflexivity.
Defined.

(** The header of the sample text is [X-Api: 1]. *)
Example parseExtraHeaders_sample :
  parseExtraHeaders sample_parse (Some sample_json_text) = {[ "X-Api" := "1" ]}.
Proof. by vm_compute. Qed.

(** ** The [key=value] form of the extra headers *)

Section KeyValue.

Lemma string_forall_app (P : ascii -> bool) (a b : string) :
  string_forall P (a +:+ b) = string_forall P a && string_forall P b.
Proof.
  induction a as [|c a IH]; [done|].
  rewrite app_cons. simpl. rewrite IH. by rewrite andb_assoc.
Qed.

Lemma string_forall_impl (P Q : ascii -> bool) (s : string) :
  (forall c, P c = true -> Q c = true) ->
  string_forall P s = true -> string_forall Q s = true.
Proof.
  intros HPQ. induction s as [|c s IH]; [done|]. simpl.
  intros [Hc Hs]%andb_true_iff. rewrite (HPQ c Hc). by apply IH.
Qed.

Lemma split_whole (sep : ascii -> bool) (s : string) :
  string_forall (fun c => negb (sep c)) s = true -> split sep s = [s].
Proof.
  induction s as [|c s IH]; [done|]. simpl.
  intros [Hc Hs]%andb_true_iff. apply negb_true_iff in Hc. rewrite Hc.
  by rewrite (IH Hs).
Qed.

Lemma split_forall (P sep : ascii -> bool) (s : string) :
  string_forall P s = true ->
  Forall (fun part => string_forall P part = true) (split sep s).
Proof.
  induction s as [|c s IH]; [by repeat constructor|]. simpl.
  intros [Hc Hs]%andb_true_iff. specialize (IH Hs).
  destruct (sep c); [by constructor|].
  destruct (split sep s) as [|h t]; [by repeat constructor; simpl; rewrite Hc|].
  inversion IH as [|? ? Hh Ht]; subst. constructor; [|done].
  simpl. by rewrite Hc, Hh.
Qed.

Lemma prefix_equals (c : ascii) (s : string) :
  String.prefix "=" (String c s) = is_equals c.
Proof.
  change (String.prefix "=" (String c s))
    with (match ascii_dec "=" c with
          | left _ => String.prefix EmptyString s
          | right _ => false
          end).
  unfold is_equals. destruct (ascii_dec "=" c) as [<-|Hne]; [by destruct s|].
  symmetry. apply Ascii.eqb_neq. congruence.
Qed.

Lemma index_equals (a b : string) :
  string_forall (fun c => negb (is_equals c)) a = true ->
  String.index 0 "=" (a +:+ String "=" b) = Some (String.length a).
Proof.
  induction a as [|c a IH].
  - intros _. rewrite app_empty_l.
    change (String.index 0 "=" (String "=" b))
      with (if String.prefix "=" (String "=" b) then Some 0%nat
            else match String.index 0 "=" b with
                 | Some n => Some (S n) | None => None end).
    by rewrite prefix_equals.
  - simpl string_forall. intros [Hc Ha]%andb_true_iff. apply negb_true_iff in Hc.
    rewrite app_cons.
    change (String.index 0 "=" (String c (a +:+ String "=" b)))
      with (if String.prefix "=" (String c (a +:+ String "=" b)) then Some 0%nat
            else match String.index 0 "=" (a +:+ String "=" b) with
                 | Some n => Some (S n) | None => None end).
    by rewrite prefix_equals, Hc, (IH Ha).
Qed.

Lemma index_no_equals (s : string) :
  string_forall (fun c => negb (is_equals c)) s = true ->
  String.index 0 "=" s = None.
Proof.
  induction s as [|c s IH]; [done|].
  simpl string_forall. intros [Hc Hs]%andb_true_iff. apply negb_true_iff in Hc.
  change (String.index 0 "=" (String c s))
    with (if String.prefix "=" (String c s) then Some 0%nat
          else match String.index 0 "=" s with
               | Some n => Some (S n) | None => None end).
  by rewrite prefix_equals, Hc, (IH Hs).
Qed.

Lemma substring_all (s : string) : String.substring 0 (String.length s) s = s.
Proof. induction s as [|c s IH]; [done|]. simpl. by rewrite IH. Qed.

Lemma substring_app_l (a b : string) :
  String.substring 0 (String.length a) (a +:+ b) = a.
Proof.
  induction a as [|c a IH]; [by destruct b|].
  rewrite app_cons. simpl. by rewrite IH.
Qed.

Lemma length_app_str (a b : string) :
  String.length (a +:+ b) = (String.length a + String.length b)%nat.
Proof. induction a as [|c a IH]; [done|]. rewrite app_cons. simpl. by rewrite IH. Qed.

Lemma substring_app_r (a b : string) (c : ascii) :
  String.substring (String.length a + 1)
                   (String.length (a +:+ String c b) - (String.length a + 1))
                   (a +:+ String c b) = b.
Proof.
  rewrite length_app_str. simpl String.length.
  replace (String.length a + S (String.length b) - (String.length a + 1))%nat
    with (String.length b) by lia.
  induction a as [|x a IH].
  - rewrite app_empty_l. simpl. apply substring_all.
  - rewrite app_cons. simpl. exact IH.
Qed.

Lemma rev_app_eq (s acc : string) : String.rev_app s acc = String.rev s +:+ acc.
Proof.
  unfold String.rev. revert acc. induction s as [|c s IH]; intros acc; [done|].
  simpl. rewrite IH, (IH (String c EmptyString)). by rewrite app_assoc_str.
Qed.

Lemma rev_cons (c : ascii) (s : string) :
  String.rev (String c s) = String.rev s +:+ String c EmptyString.
Proof. unfold String.rev at 1. simpl. apply rev_app_eq. Qed.

Lemma rev_app_str (a b : string) :
  String.rev (a +:+ b) = String.rev b +:+ String.rev a.
Proof.
  induction a as [|c a IH].
  - by rewrite app_empty_l, app_empty_r.
  - by rewrite app_cons, !rev_cons, IH, app_assoc_str.
Qed.

Lemma rev_rev (s : string) : String.rev (String.rev s) = s.
Proof.
  induction s as [|c s IH]; [done|].
  by rewrite rev_cons, rev_app_str, IH.
Qed.

Lemma string_forall_rev (P : ascii -> bool) (s : string) :
  string_forall P (String.rev s) = string_forall P s.
Proof.
  induction s as [|c s IH]; [done|].
  rewrite rev_cons, string_forall_app, IH. simpl.
  by rewrite andb_true_r, andb_comm.
Qed.

(** Boolean tests on character codes, as facts about numbers. *)
Ltac codes :=
  repeat match goal with
  | H : _ && _ = true |- _ => apply andb_true_iff in H as [? ?]
  | H : _ || _ = true |- _ => apply orb_true_iff in H as [?|?]
  | H : negb _ = true |- _ => apply negb_true_iff in H
  | H : _ && _ = false |- _ => apply andb_false_iff in H as [?|?]
  | H : _ || _ = false |- _ => apply orb_false_iff in H as [? ?]
  | H : (_ =? _)%nat = true |- _ => apply Nat.eqb_eq in H
  | H : (_ <=? _)%nat = true |- _ => apply Nat.leb_le in H
  | H : (_ <? _)%nat = true |- _ => apply Nat.ltb_lt in H
  | H : (_ =? _)%nat = false |- _ => apply Nat.eqb_neq in H
  | H : (_ <=? _)%nat = false |- _ => apply Nat.leb_gt in H
  | H : (_ <? _)%nat = false |- _ => apply Nat.ltb_ge in H
  end.

Ltac refute := apply not_true_is_false; intros ?; codes; lia.

Lemma white_space2_first (a b : ascii) :
  white_space2 a b = true ->
  white_space1 a = false /\ white_space1 b = false.
Proof.
  unfold white_space2, white_space1. intros H. codes. split; refute.
Qed.

Lemma white_space3_first (a b c : ascii) :
  white_space3 a b c = true ->
  white_space1 a = false /\ white_space2 a b = false /\
  white_space1 c = false /\ white_space2 b c = false.
Proof.
  unfold white_space3, white_space2, white_space1. cbv zeta. intros H. codes.
  all: repeat split; refute.
Qed.

Lemma plain_not_white_space (a : ascii) :
  plain a = true ->
  white_space1 a = false /\
  (forall b, white_space2 a b = false /\ white_space2 b a = false) /\
  (forall b c, white_space3 a b c = false /\ white_space3 c b a = false).
Proof.
  unfold plain. intros H. codes. split; [done|]. split.
  - intros b. unfold white_space2. split; refute.
  - intros b c. unfold white_space3. cbv zeta. split; refute.
Qed.

(** White space holds no [;], [,] or [=]: its bytes are the ASCII white space
    and bytes from 128 on. *)
Lemma white_space_byte (c : ascii) :
  white_space1 c || (128 <=? nat_of_ascii c)%nat = true ->
  is_separator c = false /\ is_equals c = false.
Proof. destruct c as [[] [] [] [] [] [] [] []]; by vm_compute. Qed.

Lemma white_space2_bytes (a b : ascii) :
  white_space2 a b = true ->
  (128 <=? nat_of_ascii a)%nat = true /\ (128 <=? nat_of_ascii b)%nat = true.
Proof.
  unfold white_space2. intros H. codes. split; apply Nat.leb_le; lia.
Qed.

Lemma white_space3_bytes (a b c : ascii) :
  white_space3 a b c = true ->
  (128 <=? nat_of_ascii a)%nat = true /\ (128 <=? nat_of_ascii b)%nat = true /\
  (128 <=? nat_of_ascii c)%nat = true.
Proof.
  unfold white_space3. cbv zeta. intros H. codes.
  all: repeat split; apply Nat.leb_le; lia.
Qed.

Lemma strip_eq (backwards : bool) (s : string) :
  strip backwards s =
  match s with
  | EmptyString => EmptyString
  | String a s1 =>
      if white_space1 a then strip backwards s1
      else
        match s1 with
        | EmptyString => s
        | String b s2 =>
            if (if backwards then white_space2 b a else white_space2 a b)
            then strip backwards s2
            else
              match s2 with
              | EmptyString => s
              | String c s3 =>
                  if (if backwards then white_space3 c b a else white_space3 a b c)
                  then strip backwards s3
                  else s
              end
        end
  end.
Proof. by destruct s. Qed.

(** A string that [trimStart] empties is a sequence of white space
    characters. *)
Lemma blank_Blank (s : string) : blank s = true -> Blank s.
Proof.
  unfold blank, trimStart. intros H%String.eqb_eq. revert H.
  assert (Hn : forall (n : nat) (s : string),
             (String.length s <= n)%nat -> strip false s = EmptyString -> Blank s).
  { clear s. induction n as [|n IH]; intros s Hlen.
    - destruct s; [constructor|simpl in Hlen; lia].
    - rewrite strip_eq. destruct s as [|a s1]; [constructor|]. simpl in Hlen.
      destruct (white_space1 a) eqn:H1.
      { intros H. apply Blank_1; [done|]. apply IH; [lia|done]. }
      destruct s1 as [|b s2]; [done|]. simpl in Hlen.
      destruct (white_space2 a b) eqn:H2.
      { intros H. apply Blank_2; [done|]. apply IH; [lia|done]. }
      destruct s2 as [|c s3]; [done|]. simpl in Hlen.
      destruct (white_space3 a b c) eqn:H3; [|done].
      intros H. apply Blank_3; [done|]. apply IH; [lia|done]. }
  apply (Hn (String.length s)). lia.
Qed.

Lemma Blank_bytes (s : string) :
  Blank s ->
  string_forall (fun c => white_space1 c || (128 <=? nat_of_ascii c)%nat) s = true.
Proof.
  induction 1 as [|a s H1 _ IH|a b s H2 _ IH|a b c s H3 _ IH];
    cbn [string_forall]; [done|..].
  - by rewrite H1, IH.
  - destruct (white_space2_bytes _ _ H2) as [-> ->]. by rewrite !orb_true_r, IH.
  - destruct (white_space3_bytes _ _ _ H3) as (-> & -> & ->).
    by rewrite !orb_true_r, IH.
Qed.

(** [trimStart] goes through the white space a string starts with, and
    [trimEnd] through the white space it ends with. *)
Lemma Blank_strip (p y : string) : Blank p -> strip false (p +:+ y) = strip false y.
Proof.
  induction 1 as [|a s H1 _ IH|a b s H2 _ IH|a b c s H3 _ IH]; [done|..].
  - rewrite app_cons, strip_eq. by rewrite H1.
  - destruct (white_space2_first _ _ H2) as [H1 _].
    rewrite !app_cons, strip_eq. by rewrite H1, H2.
  - destruct (white_space3_first _ _ _ H3) as (H1 & H2 & _).
    rewrite !app_cons, strip_eq. by rewrite H1, H2, H3.
Qed.

Lemma Blank_strip_rev (q : string) :
  Blank q -> forall y, strip true (String.rev q +:+ y) = strip true y.
Proof.
  induction 1 as [|a s H1 _ IH|a b s H2 _ IH|a b c s H3 _ IH]; intros y; [done|..].
  - rewrite rev_cons, app_assoc_str, IH, app_cons, app_empty_l, strip_eq.
    by rewrite H1.
  - destruct (white_space2_first _ _ H2) as [_ H1].
    rewrite !rev_cons, !app_assoc_str, IH, !app_cons, !app_empty_l, strip_eq.
    by rewrite H1, H2.
  - destruct (white_space3_first _ _ _ H3) as (_ & _ & H1 & H2).
    rewrite !rev_cons, !app_assoc_str, IH, !app_cons, !app_empty_l, strip_eq.
    by rewrite H1, H2, H3.
Qed.

(** Neither stops before an ASCII character that is not white space. *)
Lemma strip_plain (backwards : bool) (c : ascii) (s : string) :
  plain c = true -> strip backwards (String c s) = String c s.
Proof.
  intros (H1 & H2 & H3)%plain_not_white_space. rewrite strip_eq, H1.
  destruct s as [|b s]; [done|].
  destruct (H2 b) as [-> ->].
  destruct s as [|d s]; [by destruct backwards|].
  destruct (H3 b d) as [-> ->]. by destruct backwards.
Qed.

(** [trimStart] on white space, then text without white space, then white
    space. *)
Lemma trimStart_padded (p x q : string) :
  blank p = true ->
  string_forall plain x = true ->
  blank q = true ->
  trimStart (p +:+ x +:+ q) = if String.eqb x EmptyString then EmptyString else x +:+ q.
Proof.
  intros Hp%blank_Blank Hx Hq. unfold trimStart. rewrite (Blank_strip _ _ Hp).
  destruct x as [|c x].
  - rewrite app_empty_l. by apply String.eqb_eq in Hq.
  - rewrite app_cons. simpl in Hx. apply andb_true_iff in Hx as [Hc _].
    by apply strip_plain.
Qed.

Lemma trim_padded (p x q : string) :
  blank p = true ->
  string_forall plain x = true ->
  blank q = true ->
  trim (p +:+ x +:+ q) = x.
Proof.
  intros Hp Hx Hq. unfold trim. rewrite (trimStart_padded p x q Hp Hx Hq).
  destruct x as [|c x]; [done|].
  change (String.eqb (String c x) EmptyString) with false. cbv iota.
  unfold trimEnd. rewrite rev_app_str, (Blank_strip_rev _ (blank_Blank _ Hq)).
  assert (Hrev : string_forall plain (String.rev (String c x)) = true)
    by (by rewrite string_forall_rev).
  destruct (String.rev (String c x)) as [|z r] eqn:E.
  - apply (f_equal String.rev) in E. rewrite rev_rev in E. discriminate.
  - simpl in Hrev. apply andb_true_iff in Hrev as [Hz _].
    rewrite (strip_plain true z r Hz), <- E. apply rev_rev.
Qed.

Lemma parseKeyValue_fold (raw : string) :
  parseKeyValue raw = foldl keyValue_step ∅ (split is_separator raw).
Proof. reflexivity. Qed.

Lemma assign_union (key value : string) (headers : gmap string string) :
  assign key value headers = assign key value ∅ ∪ headers.
Proof.
  unfold assign. destruct (String.eqb key "__proto__").
  - by rewrite (left_id_L ∅ (∪)).
  - by rewrite insert_empty, insert_union_singleton_l.
Qed.

Lemma keyValue_step_union (headers : gmap string string) (part : string) :
  keyValue_step headers part = keyValue_step ∅ part ∪ headers.
Proof.
  unfold keyValue_step. destruct (indexOf part "=") as [idx|].
  - destruct (String.eqb _ _).
    + by rewrite (left_id_L ∅ (∪)).
    + apply assign_union.
  - by rewrite (left_id_L ∅ (∪)).
Qed.

Lemma keyValue_fold_union (parts : list string) :
  forall headers : gmap string string,
    foldl keyValue_step headers parts = foldl keyValue_step ∅ parts ∪ headers.
Proof.
  induction parts as [|part parts IH]; intros headers; cbn [foldl].
  - by rewrite (left_id_L ∅ (∪)).
  - rewrite (IH (keyValue_step headers part)), (IH (keyValue_step ∅ part)).
    rewrite (keyValue_step_union headers part). by rewrite (assoc_L (∪)).
Qed.

Lemma split_app (sep : ascii -> bool) (a b : string) (c : ascii) :
  sep c = true -> split sep (a +:+ String c b) = split sep a ++ split sep b.
Proof.
  intros Hc. induction a as [|x a IH].
  - rewrite app_empty_l. simpl. by rewrite Hc.
  - rewrite app_cons. simpl. rewrite IH. destruct (sep x); [done|].
    destruct (split sep a) as [|h t] eqn:E; [|done].
    by destruct a as [|y a']; simpl in E; repeat case_match.
Qed.

(** X16.  The fallback parser of the extra headers never yields a header with
    an empty name, and a text without any [=] yields no header at all. *)
Theorem parseKeyValue_skips (raw : string) :
  parseKeyValue raw !! EmptyString = None /\
  (string_forall (fun c => negb (is_equals c)) raw = true -> parseKeyValue raw = ∅).
Proof.
  rewrite parseKeyValue_fold. split.
  - generalize (split is_separator raw). intros parts.
    assert (H : forall headers : gmap string string,
               headers !! EmptyString = None ->
               foldl keyValue_step headers parts !! EmptyString = None).
    { induction parts as [|part parts IH]; intros headers Hh; [done|].
      cbn [foldl]. apply IH. unfold keyValue_step.
      destruct (indexOf part "=") as [idx|]; [|done].
      destruct (String.eqb _ _) eqn:E; [done|].
      apply String.eqb_neq in E. unfold assign.
      destruct (String.eqb _ "__proto__"); [done|]. by rewrite lookup_insert_ne. }
    by apply H.
  - intros Hraw.
    pose proof (split_forall _ is_separator raw Hraw) as Hparts.
    induction Hparts as [|part parts Hpart _ IH]; [done|].
    cbn [foldl]. unfold keyValue_step at 2. unfold indexOf.
    by rewrite (index_no_equals part Hpart).
Qed.

(** X17.  A text [name=value], with white space of any kind allowed around
    the name and around the value, and with a name and a value made of ASCII
    characters other than white space, yields exactly the header [name] with
    the value [value]: the white space is trimmed, and the value may be empty
    or hold further [=].  The one exception is the name [__proto__], which
    yields no header. *)
Theorem parseKeyValue_pair (p1 k p2 p3 v p4 : string) :
  blank p1 = true -> blank p2 = true -> blank p3 = true -> blank p4 = true ->
  header_name k = true ->
  header_value v = true ->
  parseKeyValue (p1 +:+ k +:+ p2 +:+ "=" +:+ p3 +:+ v +:+ p4)
  = if String.eqb k "__proto__" then ∅ else {[ k := v ]}.
Proof.
  intros Hp1 Hp2 Hp3 Hp4 [Hk0 Hk]%andb_true_iff Hv.
  apply negb_true_iff in Hk0.
  assert (Hwhite : forall p, blank p = true ->
            string_forall (fun c => negb (is_separator c)) p = true /\
            string_forall (fun c => negb (is_equals c)) p = true).
  { intros p Hp%blank_Blank%Blank_bytes.
    split; (eapply string_forall_impl; [|exact Hp]);
      intros c [H1 H2]%white_space_byte; by rewrite ?H1, ?H2. }
  assert (Hk_plain : string_forall plain k = true).
  { eapply string_forall_impl; [|exact Hk]. by intros c [[-> _]%andb_true_iff _]%andb_true_iff. }
  assert (Hk_sep : string_forall (fun c => negb (is_separator c)) k = true).
  { eapply string_forall_impl; [|exact Hk]. by intros c [[_ ->]%andb_true_iff _]%andb_true_iff. }
  assert (Hk_eq : string_forall (fun c => negb (is_equals c)) k = true).
  { eapply string_forall_impl; [|exact Hk]. by intros c [_ ->]%andb_true_iff. }
  assert (Hv_plain : string_forall plain v = true).
  { eapply string_forall_impl; [|exact Hv]. by intros c [-> _]%andb_true_iff. }
  assert (Hv_sep : string_forall (fun c => negb (is_separator c)) v = true).
  { eapply string_forall_impl; [|exact Hv]. by intros c [_ ->]%andb_true_iff. }
  destruct (Hwhite _ Hp1) as [Hs1 He1], (Hwhite _ Hp2) as [Hs2 He2],
    (Hwhite _ Hp3) as [Hs3 _], (Hwhite _ Hp4) as [Hs4 _].
  pose (a := p1 +:+ k +:+ p2). pose (b := p3 +:+ v +:+ p4).
  assert (Hraw : p1 +:+ k +:+ p2 +:+ "=" +:+ p3 +:+ v +:+ p4 = a +:+ String "=" b).
  { unfold a, b. by rewrite !app_assoc_str. }
  rewrite Hraw, parseKeyValue_fold, split_whole.
  2:{ unfold a, b. rewrite !string_forall_app. cbn [string_forall].
      rewrite !string_forall_app.
      by rewrite Hs1, Hk_sep, Hs2, Hs3, Hv_sep, Hs4. }
  cbn [foldl]. unfold keyValue_step, indexOf.
  rewrite index_equals.
  2:{ unfold a. rewrite !string_forall_app. by rewrite He1, Hk_eq, He2. }
  cbv zeta. unfold slice, slice_from.
  rewrite Nat.sub_0_r, substring_app_l, substring_app_r.
  unfold a, b. rewrite !trim_padded by done. rewrite Hk0. unfold assign.
  destruct (String.eqb k "__proto__"); [done|]. by rewrite insert_empty.
Qed.

(** X18.  Entries are read from left to right and a later entry wins: the
    headers of [a;b] (or [a,b]) are those of [b], and those of [a] for the
    names that [b] does not give. *)
Theorem parseKeyValue_sequence (a b : string) (c : ascii) :
  is_separator c = true ->
  parseKeyValue (a +:+ String c b) = parseKeyValue b ∪ parseKeyValue a.
Proof.
  intros Hc. rewrite !parseKeyValue_fold, (split_app _ _ _ _ Hc), foldl_app.
  apply keyValue_fold_union.
Qed.

End KeyValue.

Lemma parseKeyValue_pair_witness :
  blank " " = true /\ blank no_break_space = true /\ blank EmptyString = true /\
  header_name "X-Custom-Header" = true /\ header_value "a=b" = true /\
  parseKeyValue (" " +:+ "X-Custom-Header" +:+ " " +:+ "=" +:+ no_break_space +:+
                 "a=b" +:+ EmptyString)
  = if String.eqb "X-Custom-Header" "__proto__" then ∅
    else {[ "X-Custom-Header" := "a=b" ]}.
Proof.
  split; [reflexivity|]. split; [reflexivity|]. split; [reflexivity|].
  split; [reflexivity|]. split; [reflexivity|].
  exact (parseKeyValue_pair " " "X-Custom-Header" " " no_break_space "a=b" EmptyString
           eq_refl eq_refl eq_refl eq_refl eq_refl eq_refl).
Defined.

Lemma parseKeyValue_sequence_witness :
  is_separator ";" = true /\
  parseKeyValue ("X=1" +:+ String ";" "X=2") = parseKeyValue "X=2" ∪ parseKeyValue "X=1".
Proof.
  split; [reflexivity|].
  exact (parseKeyValue_sequence "X=1" "X=2" ";" eq_refl).
Defined.

(** A value between two no-break spaces (U+00A0) is trimmed, and an entry
    named [__proto__] is dropped. *)
Example parseKeyValue_no_break_space :
  parseKeyValue ("X-A=" +:+ no_break_space +:+ "v" +:+ no_break_space)
  = {[ "X-A" := "v" ]}.
Proof. by vm_compute. Qed.

Example parseKeyValue_proto :
  parseKeyValue "__proto__=x;X-A=v" = {[ "X-A" := "v" ]}.
Proof. by vm_compute. Qed.

(** The test [should parse key=value extra headers]. *)
Example parseKeyValue_two_headers :
  parseKeyValue "X-Custom-Header=value1;X-Another-Header=value2"
  = {[ "X-Custom-Header" := "value1"; "X-Another-Header" := "value2" ]}.
Proof. by vm_compute. Qed.

(** ** The tool handlers *)

Section Tools.

Variable JSON_stringify : json -> json.
Variable JSON_stringify_pretty : json -> json.
Variable env : backend.

Lemma get_requestData (d : gmap string json) (k : string) :
  k ∈ UpdateQueryRequest_fields -> get k (updateQuery_requestData d) = get k d.
Proof.
  intros Hk. unfold get at 1. rewrite updateQuery_requestData_lookup.
  rewrite decide_True by done.
  destruct (is_undefined (get k d)) eqn:E; [|done].
  simpl. by destruct (get k d).
Qed.

Lemma or_else_twice (x d : json) : or_else (or_else x d) d = or_else x d.
Proof. unfold or_else. destruct (truthy x) eqn:E; [by rewrite E|]. by destruct (truthy d). Qed.

Lemma get_seven (x1 x2 x3 x4 x5 x6 x7 : json) :
  let m : gmap string json :=
    {[ "name" := x1; "data_source_id" := x2; "query" := x3; "description" := x4;
       "options" := x5; "schedule" := x6; "tags" := x7 ]} in
  get "name" m = x1 /\ get "data_source_id" m = x2 /\ get "query" m = x3 /\
  get "description" m = x4 /\ get "options" m = x5 /\ get "schedule" m = x6 /\
  get "tags" m = x7.
Proof. cbv zeta. unfold get. repeat split; by simplify_map_eq. Qed.

(** X19.  The tools [update_query] and [create_query] build the payload with
    the same rule as the client method they call, and applying the rule twice
    changes nothing: the body posted is the one the client method builds from
    the tool's own parameters.  In particular [update_query] posts exactly the
    parameters that are not [undefined], and never [queryId]. *)
Theorem tool_payloads (params : gmap string json) :
  updateQuery_requestData (Server.updateQuery_queryData params)
  = updateQuery_requestData params /\
  createQuery_requestData (Server.createQuery_queryData params)
  = createQuery_requestData params /\
  updateQuery_requestData params !! "queryId" = None.
Proof.
  split; [|split].
  - change (Server.updateQuery_queryData params) with (updateQuery_requestData params).
    apply map_eq. intros k. rewrite !updateQuery_requestData_lookup.
    case_decide as Hk; [|done]. by rewrite (get_requestData _ _ Hk).
  - unfold createQuery_requestData at 1. unfold Server.createQuery_queryData.
    destruct (get_seven (get "name" params) (get "data_source_id" params)
                (get "query" params)
                (or_else (get "description" params) (JStr EmptyString))
                (or_else (get "options" params) (JObj ∅))
                (or_else (get "schedule" params) JNull)
                (or_else (get "tags" params) (JArr [])))
      as (-> & -> & -> & -> & -> & -> & ->).
    by rewrite !or_else_twice.
  - rewrite updateQuery_requestData_lookup. rewrite decide_False; [done|].
    apply (bool_decide_unpack _). by vm_compute.
Qed.

Ltac run_tool :=
  intros w; unfold try_catch, bind, ret;
  match goal with |- context [match ?m w with _ => _ end] =>
    destruct (m w) as [[v|e|] w'] end; rewrite ?app_assoc_str; reflexivity.

(** X20.  The tools [update_query], [create_query], [execute_query] and
    [get_query_results_csv] never throw: a value returned by the client becomes
    the text of the result, and an error thrown by the client becomes a result
    with [isError: true] whose text is the tool's prefix before the client's
    message. *)
Theorem tools_wrap (fuel : nat) (queryId : Z) (params : gmap string json)
    (parameters : json) (refresh : bool) :
  wraps (Server.updateQuery JSON_stringify JSON_stringify_pretty env queryId params)
        (updateQuery JSON_stringify env queryId (Server.updateQuery_queryData params))
        JSON_stringify_pretty
        ("Error updating query " +:+ string_of_Z queryId +:+ ": ") /\
  wraps (Server.createQuery JSON_stringify JSON_stringify_pretty env params)
        (createQuery JSON_stringify env (Server.createQuery_queryData params))
        JSON_stringify_pretty "Error creating query: " /\
  wraps (Server.executeQuery JSON_stringify JSON_stringify_pretty env fuel queryId
                             parameters)
        (executeQuery JSON_stringify env fuel queryId parameters)
        JSON_stringify_pretty
        ("Error executing query " +:+ string_of_Z queryId +:+ ": ") /\
  wraps (Server.getQueryResultsCsv JSON_stringify env fuel queryId refresh)
        (getQueryResultsAsCsv JSON_stringify env fuel queryId refresh)
        (fun csv => csv)
        ("Error getting CSV results for query " +:+ string_of_Z queryId +:+ ": ").
Proof.
  split; [|split; [|split]].
  - unfold wraps, Server.updateQuery. cbv zeta. run_tool.
  - unfold wraps, Server.createQuery. cbv zeta. run_tool.
  - unfold wraps, Server.executeQuery. run_tool.
  - unfold wraps, Server.getQueryResultsCsv. run_tool.
Qed.

(** X21.  When [executeQuery] fails, the text the tool [execute_query] answers
    is [Error executing query <id>: ] before the message of the error.  That
    message starts with [Failed to execute query <id>: ], so that the text
    carries both prefixes before the cause, unless it is the [TypeError] of a
    conversion to a string, which takes a remote that rejects a request with
    an error response whose message does not convert. *)
Theorem tool_executeQuery_error (fuel : nat) (queryId : Z) (parameters : json)
    (w w' : world) (e : thrown) :
  executeQuery JSON_stringify env fuel queryId parameters w = (Throw e, w') ->
  exists msg : string,
    e = Error msg /\
    Server.executeQuery JSON_stringify JSON_stringify_pretty env fuel queryId parameters w
    = (Return (Server.tool_error
                 ("Error executing query " +:+ string_of_Z queryId +:+ ": " +:+ msg)),
       w') /\
    ((exists rest : string,
         msg = "Failed to execute query " +:+ string_of_Z queryId +:+ ": " +:+ rest)
     \/ msg = "Cannot convert object to primitive value") /\
    ((forall w0 r e0 d,
         respond env w0 r = (inl e0, d) -> unprintable JSON_stringify e0 = false) ->
     exists rest : string,
       msg = "Failed to execute query " +:+ string_of_Z queryId +:+ ": " +:+ rest).
Proof.
  intros Hthrow.
  destruct (executeQuery_caught _ _ _ _ _ _ _ _ Hthrow) as (e0 & Hraised & He).
  pose proof (executeQuery_catch_cases JSON_stringify queryId e0) as Hcases.
  pose proof (raised_printable JSON_stringify env e0) as Hprintable.
  assert (Htool : forall msg, e = Error msg ->
            Server.executeQuery JSON_stringify JSON_stringify_pretty env fuel queryId
              parameters w
            = (Return (Server.tool_error
                         ("Error executing query " +:+ string_of_Z queryId +:+ ": " +:+
                          msg)), w')).
  { intros msg ->. unfold Server.executeQuery, try_catch, bind. rewrite Hthrow.
    unfold ret. simpl. rewrite ?app_assoc_str. reflexivity. }
  destruct (unprintable JSON_stringify e0) eqn:Hu.
  - exists "Cannot convert object to primitive value".
    assert (He' : e = Error "Cannot convert object to primitive value")
      by (by rewrite He, Hcases).
    split; [done|]. split; [by apply Htool|]. split; [by right|].
    intros Hall. specialize (Hprintable Hall Hraised). congruence.
  - destruct Hcases as [rest Hrest].
    exists ("Failed to execute query " +:+ string_of_Z queryId +:+ ": " +:+ rest).
    assert (He' : e = Error ("Failed to execute query " +:+ string_of_Z queryId +:+
                             ": " +:+ rest)) by (by rewrite He, Hrest).
    split; [done|]. split; [by apply Htool|]. split; [left|intros _]; by exists rest.
Qed.

End Tools.

Lemma tool_executeQuery_error_witness :
  executeQuery no_stringify failed_backend 1 123 JUndefined start
  = (Throw (Error "Failed to execute query 123: Query execution failed: syntax error"),
     World 0 [execution_post (Saved 123 JUndefined); poll_request job_123]) /\
  exists msg : string,
    Error "Failed to execute query 123: Query execution failed: syntax error"
    = Error msg /\
    Server.executeQuery no_stringify no_stringify failed_backend 1 123 JUndefined start
    = (Return (Server.tool_error
                 ("Error executing query " +:+ string_of_Z 123 +:+ ": " +:+ msg)),
       World 0 [execution_post (Saved 123 JUndefined); poll_request job_123]) /\
    ((exists rest : string,
         msg = "Failed to execute query " +:+ string_of_Z 123 +:+ ": " +:+ rest)
     \/ msg = "Cannot convert object to primitive value") /\
    ((forall w0 r e0 d,
         respond failed_backend w0 r = (inl e0, d) -> unprintable no_stringify e0 = false) ->
     exists rest : string,
       msg = "Failed to execute query " +:+ string_of_Z 123 +:+ ": " +:+ rest).
Proof.
  split; [reflexivity|].
  exact (tool_executeQuery_error no_stringify no_stringify failed_backend 1%nat 123
           JUndefined start _ _ eq_refl).
Defined.

(** ** Resources *)

Section Resources.

Lemma strip_prefix_app (p s : string) : Server.strip_prefix p (p +:+ s) = Some s.
Proof.
  induction p as [|c p IH]; [by destruct s|].
  rewrite app_cons. simpl. by rewrite Ascii.eqb_refl.
Qed.

Lemma strip_prefix_inv (p s r : string) :
  Server.strip_prefix p s = Some r -> s = p +:+ r.
Proof.
  revert s. induction p as [|c p IH]; intros s H.
  - destruct s; by injection H as <-.
  - destruct s as [|c' s]; [done|]. simpl in H.
    destruct (Ascii.eqb c c') eqn:E; [|done].
    apply Ascii.eqb_eq in E as <-. by rewrite (IH _ H).
Qed.

Lemma all_digits_uint (d : Decimal.uint) :
  Server.all_digits (NilEmpty.string_of_uint d) = true.
Proof. induction d; simpl; by rewrite ?IHd. Qed.

Lemma digits_string_of_Z (n : Z) :
  0 <= n -> safe_integer n -> Server.digits (string_of_Z n) = true.
Proof.
  intros Hn [_ Hsafe]. unfold string_of_Z.
  rewrite (proj2 (Z.leb_le _ _)) by lia. unfold decimal, Server.digits.
  destruct n as [|p|p]; [done| |lia]. simpl.
  pose proof (all_digits_uint (Pos.to_uint p)) as Hd.
  unfold NilZero.string_of_uint. destruct (Pos.to_uint p); try done.
Qed.

Lemma match_resource_uri_iff (uri type id : string) :
  Server.match_resource_uri uri = Some (type, id) <->
  (type = "query" \/ type = "dashboard") /\ Server.digits id = true /\
  uri = "redash://" +:+ type +:+ "/" +:+ id.
Proof.
  unfold Server.match_resource_uri. split.
  - destruct (Server.strip_prefix "redash://" uri) as [rest|] eqn:Huri; [|done].
    apply strip_prefix_inv in Huri as ->.
    destruct (Server.strip_prefix "query/" rest) as [id0|] eqn:Hq.
    + apply strip_prefix_inv in Hq as ->.
      destruct (Server.digits id0) eqn:Hd; [|done].
      intros [= <- <-]. by repeat split; auto.
    + destruct (Server.strip_prefix "dashboard/" rest) as [id0|] eqn:Hdb; [|done].
      apply strip_prefix_inv in Hdb as ->.
      destruct (Server.digits id0) eqn:Hd; [|done].
      intros [= <- <-]. by repeat split; auto.
  - intros ([-> | ->] & Hd & ->).
    + change ("redash://" +:+ "query" +:+ "/" +:+ id)
        with ("redash://" +:+ ("query/" +:+ id)).
      by rewrite strip_prefix_app, strip_prefix_app, Hd.
    + change ("redash://" +:+ "dashboard" +:+ "/" +:+ id)
        with ("redash://" +:+ ("dashboard/" +:+ id)).
      rewrite strip_prefix_app.
      change (Server.strip_prefix "query/" ("dashboard/" +:+ id)) with (@None string).
      by rewrite strip_prefix_app, Hd.
Qed.

(** X22.  A resource URI is accepted exactly when it is [redash://query/<id>]
    or [redash://dashboard/<id>] with [<id>] one or more decimal digits and
    nothing after them; the groups of the match are then the type and the
    digits.  For every other URI, [ReadResource] throws
    [Invalid resource URI: <uri>] and sends no request. *)
Theorem resource_uris (uri : string) :
  (forall type id,
      Server.match_resource_uri uri = Some (type, id) <->
      (type = "query" \/ type = "dashboard") /\ Server.digits id = true /\
      uri = "redash://" +:+ type +:+ "/" +:+ id) /\
  ((forall type id,
       (type = "query" \/ type = "dashboard") -> Server.digits id = true ->
       uri <> "redash://" +:+ type +:+ "/" +:+ id) ->
   forall JSON_stringify JSON_stringify_pretty parseInt env fuel w,
     Server.readResource JSON_stringify JSON_stringify_pretty parseInt env fuel uri w
     = (Throw (Error ("Invalid resource URI: " +:+ uri)), w)).
Proof.
  split; [intros; apply match_resource_uri_iff|].
  intros Hno JSON_stringify JSON_stringify_pretty parseInt env fuel w.
  unfold Server.readResource, try_catch.
  destruct (Server.match_resource_uri uri) as [[type id]|] eqn:Hm; [|reflexivity].
  apply match_resource_uri_iff in Hm as (Ht & Hd & Huri).
  by destruct (Hno type id Ht Hd).
Qed.

(** X23.  The URI that [ListResources] gives to a query or a dashboard whose
    [id] is a safe integer that is not negative is accepted by [ReadResource],
    with the same type and the digits of that id. *)
Theorem listed_resources_are_readable (item : json) (n : Z) (w : world) :
  field "id" item = JNum n ->
  0 <= n ->
  safe_integer n ->
  (exists resource uri,
      Server.query_resource item w = (Return resource, w) /\
      field "uri" resource = JStr uri /\
      Server.match_resource_uri uri = Some ("query", string_of_Z n)) /\
  (exists resource uri,
      Server.dashboard_resource item w = (Return resource, w) /\
      field "uri" resource = JStr uri /\
      Server.match_resource_uri uri = Some ("dashboard", string_of_Z n)).
Proof.
  intros Hid Hn Hsafe.
  assert (Hitem : nullish item = false) by (by destruct item).
  pose proof (digits_string_of_Z n Hn Hsafe) as Hd.
  split.
  - unfold Server.query_resource. rewrite bind_member_ok by done. rewrite Hid.
    eexists _, _. split; [reflexivity|]. split; [reflexivity|].
    apply match_resource_uri_iff. by auto.
  - unfold Server.dashboard_resource. rewrite bind_member_ok by done. rewrite Hid.
    eexists _, _. split; [reflexivity|]. split; [reflexivity|].
    apply match_resource_uri_iff. by auto.
Qed.

End Resources.

Lemma listed_resources_are_readable_witness :
  field "id" (JObj {[ "id" := JNum 123; "name" := JStr "Sales" ]}) = JNum 123 /\
  0 <= 123 /\
  safe_integer 123 /\
  (exists resource uri,
      Server.query_resource (JObj {[ "id" := JNum 123; "name" := JStr "Sales" ]}) start
      = (Return resource, start) /\
      field "uri" resource = JStr uri /\
      Server.match_resource_uri uri = Some ("query", string_of_Z 123)) /\
  (exists resource uri,
      Server.dashboard_resource (JObj {[ "id" := JNum 123; "name" := JStr "Sales" ]}) start
      = (Return resource, start) /\
      field "uri" resource = JStr uri /\
      Server.match_resource_uri uri = Some ("dashboard", string_of_Z 123)).
Proof.
  assert (H : safe_integer 123) by (unfold safe_integer, MAX_SAFE_INTEGER; lia).
  split; [reflexivity|]. split; [lia|]. split; [exact H|].
  apply (listed_resources_are_readable
           (JObj {[ "id" := JNum 123; "name" := JStr "Sales" ]}) 123 start);
    [reflexivity | lia | exact H].
Defined.

(** An item whose [id] is 1e21 is listed under a URI that cannot be read, and
    so is an item without [id]. *)
Example listed_large_id :
  exists resource,
    Server.query_resource (JObj {[ "id" := JNum (10 ^ 21) ]}) start
    = (Return resource, start) /\
    field "uri" resource = JStr "redash://query/1e+21" /\
    Server.match_resource_uri "redash://query/1e+21" = None.
Proof. eexists. split; [by vm_compute|]. by split. Qed.
Example listed_without_id :
  exists resource,
    Server.query_resource (JObj {[ "name" := JStr "Sales" ]}) start
    = (Return resource, start) /\
    field "uri" resource = JStr "redash://query/undefined" /\
    Server.match_resource_uri "redash://query/undefined" = None.
Proof. eexists. repeat split. Qed.

(** The tests of the resource URIs. *)
Example resource_uri_tests :
  Server.match_resource_uri "redash://query/123" = Some ("query", "123") /\
  Server.match_resource_uri "redash://dashboard/456" = Some ("dashboard", "456") /\
  Server.match_resource_uri "redash://invalid/123" = None /\
  Server.match_resource_uri "redash://query/abc" = None /\
  Server.match_resource_uri "invalid://query/123" = None /\
  Server.match_resource_uri "redash://query" = None.
Proof. repeat split. Qed.

(** ** Listing the resources *)

Section Listing.

Variable env : backend.

Lemma settles_bind {A B} (m : M A) (k : A -> M B) :
  settles m -> (forall a, settles (k a)) -> settles (bind m k).
Proof.
  intros Hm Hk w. unfold bind. specialize (Hm w).
  destruct (m w) as [[a|e|] w']; simpl in *; [apply Hk|done|done].
Qed.

Lemma settles_ret {A} (a : A) : settles (ret a).
Proof. by intros w. Qed.

Lemma settles_throw {A} (e : thrown) : settles (@throw A e).
Proof. by intros w. Qed.

Lemma settles_http (r : request) : settles (http env r).
Proof. intros w. unfold http. by destruct (respond env w r) as [[e|data] d]. Qed.

Lemma settles_ToString (v : json) : settles (ToString v).
Proof. intros w. unfold ToString. by destruct (converts v). Qed.

Lemma settles_member (v : json) (k : string) : settles (member v k).
Proof. intros w. unfold member. by destruct (nullish v). Qed.

Lemma settles_try_catch {A} (m : M A) (h : thrown -> M A) :
  settles m -> (forall e, settles (h e)) -> settles (try_catch m h).
Proof.
  intros Hm Hh w. unfold try_catch. specialize (Hm w).
  destruct (m w) as [[a|e|] w']; simpl in *; [done|apply Hh|done].
Qed.

Lemma settles_mapM {A B} (f : A -> M B) (xs : list A) :
  (forall x, settles (f x)) -> settles (Server.mapM f xs).
Proof.
  intros Hf. induction xs as [|x xs IH]; [apply settles_ret|].
  simpl. apply settles_bind; [apply Hf|]. intros y.
  apply settles_bind; [apply IH|]. intros ys. apply settles_ret.
Qed.

Lemma settles_paged (data : json) : settles (paged data).
Proof.
  unfold paged. repeat (apply settles_bind; [apply settles_member|intros ?]).
  apply settles_ret.
Qed.

Lemma settles_array_map (what : string) (f : json -> M json) (v : json) :
  (forall x, settles (f x)) -> settles (Server.array_map what f v).
Proof.
  intros Hf. destruct v; simpl; try apply settles_throw. by apply settles_mapM.
Qed.

Lemma settles_listing : settles (
  bind (getQueries env (Some 1) (Some 100) JUndefined) (fun queries =>
  bind (Server.array_map "queries.results" Server.query_resource
          (field "results" queries)) (fun queryResources =>
  bind (getDashboards env (Some 1) (Some 100)) (fun dashboards =>
  bind (Server.array_map "dashboards.results" Server.dashboard_resource
          (field "results" dashboards)) (fun dashboardResources =>
  ret (JObj {[ "resources" := JArr (queryResources ++ dashboardResources) ]})))))).
Proof.
  apply settles_bind.
  { apply settles_try_catch; [|intros; apply settles_throw].
    apply settles_bind; [apply settles_http|apply settles_paged]. }
  intros queries. apply settles_bind.
  { apply settles_array_map. intros x. unfold Server.query_resource.
    apply settles_bind; [apply settles_member|intros].
    apply settles_bind; [apply settles_ToString|intros; apply settles_ret]. }
  intros queryResources. apply settles_bind.
  { apply settles_try_catch; [|intros; apply settles_throw].
    apply settles_bind; [apply settles_http|apply settles_paged]. }
  intros dashboards. apply settles_bind.
  { apply settles_array_map. intros x. unfold Server.dashboard_resource.
    apply settles_bind; [apply settles_member|intros].
    apply settles_bind; [apply settles_ToString|intros; apply settles_ret]. }
  intros. apply settles_ret.
Qed.

(** X24.  [ListResources] always returns: whatever is thrown while the queries
    and the dashboards are listed is swallowed, and the answer is then the
    empty list [{ resources: [] }].  This is so when the GET of the queries is
    rejected, and also when its body has no [results] array. *)
Theorem listResources_returns (w : world) :
  (exists (v : json) (w' : world), Server.listResources env w = (Return v, w')) /\
  match respond env w list_queries_request with
  | (inl _, d) =>
      Server.listResources env w
      = (Return no_resources, after_request list_queries_request d w)
  | (inr data, d) =>
      (forall xs, field "results" data <> JArr xs) ->
      Server.listResources env w
      = (Return no_resources, after_request list_queries_request d w)
  end.
Proof.
  split.
  - pose proof (settles_listing w) as Hs.
    unfold Server.listResources, try_catch.
    destruct (bind _ _ w) as [[v|e|] w'] eqn:E; simpl in Hs; [by eexists _, _| |done].
    by eexists _, _.
  - assert (Hq : getQueries env (Some 1) (Some 100) JUndefined w =
      match respond env w list_queries_request with
      | (inl _, d) =>
          (Throw (Error "Failed to fetch queries from Redash"),
           after_request list_queries_request d w)
      | (inr data, d) =>
          try_catch (paged data)
            (fun _ => throw (Error "Failed to fetch queries from Redash"))
            (after_request list_queries_request d w)
      end).
    { unfold getQueries, try_catch, bind, client_get_config, http.
      change (Request GET "/api/queries" _) with list_queries_request.
      by destruct (respond env w list_queries_request) as [[e|data] d]. }
    destruct (respond env w list_queries_request) as [[e|data] d].
    + unfold Server.listResources, try_catch at 1.
      unfold bind at 1. by rewrite Hq.
    + intros Hresults. unfold Server.listResources, try_catch at 1.
      unfold bind at 1. rewrite Hq. clear Hq.
      unfold try_catch. rewrite paged_eq.
      destruct (nullish data) eqn:Hdata; [reflexivity|].
      unfold bind at 1. unfold Server.array_map.
      assert (Hf : field "results" (page_of data) = field "results" data).
      { unfold page_of, field at 1. by simplify_map_eq. }
      rewrite Hf. destruct (field "results" data) eqn:Hr; try reflexivity.
      by destruct (Hresults xs).
Qed.

End Listing.

(** A failure while the dashboards are listed discards the queries already
    listed. *)
Example listResources_partial_failure :
  Server.listResources
    (instant (fun r =>
       if String.eqb (req_url r) "/api/queries"
       then inr (JObj {[ "count" := JNum 1; "page" := JNum 1; "page_size" := JNum 100;
                         "results" := JArr [JObj {[ "id" := JNum 7;
                                                    "name" := JStr "Sales" ]}] ]})
       else inl (AxiosError "Network Error" None true)))
    start
  = (Return no_resources,
     World 0 [list_queries_request;
              Request GET "/api/dashboards"
                (JObj {[ "params" := JObj {[ "page" := JNum 1;
                                             "page_size" := JNum 100 ]} ]})]).
Proof. by vm_compute. Qed.

(** ** Reading a resource *)

Section ReadingResources.

Variable JSON_stringify JSON_stringify_pretty : json -> json.
Variable parseInt : string -> Z.
Variable env : backend.

#[local] Abbreviation readResource :=
  (Server.readResource JSON_stringify JSON_stringify_pretty parseInt env).

Lemma getQuery_eq (id : Z) (w : world) :
  getQuery env id w =
  let r := Request GET ("/api/queries/" +:+ string_of_Z id) JUndefined in
  match respond env w r with
  | (inr data, d) => (Return data, after_request r d w)
  | (inl _, d) =>
      (Throw (Error ("Failed to fetch query " +:+ string_of_Z id +:+ " from Redash")),
       after_request r d w)
  end.
Proof.
  cbv zeta. unfold getQuery, try_catch, bind, client_get, http, ret, throw.
  by destruct (respond env w _) as [[e|data] d].
Qed.

(** X25.  Let [<id>] be decimal digits that denote a safe integer [n], which
    [parseInt] then returns exactly.  For the URI [redash://dashboard/<id>],
    [ReadResource] sends one GET to [/api/dashboards/<n>] and returns one
    content entry with the same URI and the pretty-printed body as its text;
    a rejection is rethrown as [getDashboard] shaped it.  For
    [redash://query/<id>] the query is fetched first: when that GET is
    rejected nothing is executed, and otherwise the outcome is that of
    [executeQuery] on [n] without parameters, whose result is put beside the
    query in the text. *)
Theorem readResource_reads (fuel : nat) (id : string) (w : world) :
  Server.digits id = true ->
  safe_integer (decimal_value id) ->
  parseInt id = decimal_value id ->
  let n := decimal_value id in
  (let uri := "redash://dashboard/" +:+ id in
   let r := Request GET ("/api/dashboards/" +:+ string_of_Z n) JUndefined in
   match respond env w r with
   | (inr data, d) =>
       readResource fuel uri w
       = (Return (Server.resource_contents uri (JSON_stringify_pretty data)),
          after_request r d w)
   | (inl _, d) =>
       readResource fuel uri w
       = (Throw (Error ("Failed to fetch dashboard " +:+ string_of_Z n +:+
                        " from Redash")),
          after_request r d w)
   end) /\
  (let uri := "redash://query/" +:+ id in
   let r := Request GET ("/api/queries/" +:+ string_of_Z n) JUndefined in
   match respond env w r with
   | (inr query, d) =>
       readResource fuel uri w
       = match executeQuery JSON_stringify env fuel n JUndefined (after_request r d w) with
         | (Return result, w') =>
             (Return (Server.resource_contents uri
                        (JSON_stringify_pretty
                           (JObj {[ "query" := query; "result" := result ]}))),
              w')
         | (Throw e, w') => (Throw e, w')
         | (OutOfFuel, w') => (OutOfFuel, w')
         end
   | (inl _, d) =>
       readResource fuel uri w
       = (Throw (Error ("Failed to fetch query " +:+ string_of_Z n +:+ " from Redash")),
          after_request r d w)
   end).
Proof.
  intros Hd _ Hparse n. split; cbv zeta.
  - assert (Hm : Server.match_resource_uri ("redash://dashboard/" +:+ id)
                 = Some ("dashboard", id)).
    { apply match_resource_uri_iff. split; [by right|]. split; [done|].
      by rewrite ?app_assoc_str. }
    unfold Server.readResource. rewrite Hm, Hparse.
    change (String.eqb "dashboard" "query") with false.
    change (String.eqb "dashboard" "dashboard") with true. cbv iota.
    fold n. unfold getDashboard, try_catch, bind, client_get, http, ret, throw.
    by destruct (respond env w _) as [[e|data] d].
  - assert (Hm : Server.match_resource_uri ("redash://query/" +:+ id)
                 = Some ("query", id)).
    { apply match_resource_uri_iff. split; [by left|]. split; [done|].
      by rewrite ?app_assoc_str. }
    unfold Server.readResource. rewrite Hm, Hparse.
    change (String.eqb "query" "query") with true. cbv iota.
    fold n.
    destruct (respond env w _) as [[e|query] d] eqn:Hr;
      unfold try_catch, bind; rewrite getQuery_eq; cbv zeta; rewrite Hr;
      [reflexivity|].
    unfold ret, throw.
    by destruct (executeQuery _ _ _ _ _ _) as [[result|e|] w'].
Qed.

End ReadingResources.

Lemma readResource_reads_witness :
  Server.digits "456" = true /\
  safe_integer (decimal_value "456") /\
  decimal_value "456" = decimal_value "456" /\
  let n := decimal_value "456" in
  (let uri := "redash://dashboard/" +:+ "456" in
   let r := Request GET ("/api/dashboards/" +:+ string_of_Z n) JUndefined in
   match respond (instant (fun _ => inr (JObj {[ "id" := JNum 456 ]}))) start r with
   | (inr data, d) =>
       Server.readResource no_stringify no_stringify decimal_value
         (instant (fun _ => inr (JObj {[ "id" := JNum 456 ]}))) 0 uri start
       = (Return (Server.resource_contents uri (no_stringify data)),
          after_request r d start)
   | (inl _, d) =>
       Server.readResource no_stringify no_stringify decimal_value
         (instant (fun _ => inr (JObj {[ "id" := JNum 456 ]}))) 0 uri start
       = (Throw (Error ("Failed to fetch dashboard " +:+ string_of_Z n +:+
                        " from Redash")),
          after_request r d start)
   end) /\
  (let uri := "redash://query/" +:+ "456" in
   let r := Request GET ("/api/queries/" +:+ string_of_Z n) JUndefined in
   match respond (instant (fun _ => inr (JObj {[ "id" := JNum 456 ]}))) start r with
   | (inr query, d) =>
       Server.readResource no_stringify no_stringify decimal_value
         (instant (fun _ => inr (JObj {[ "id" := JNum 456 ]}))) 0 uri start
       = match executeQuery no_stringify
                 (instant (fun _ => inr (JObj {[ "id" := JNum 456 ]}))) 0 n JUndefined
                 (after_request r d start) with
         | (Return result, w') =>
             (Return (Server.resource_contents uri
                        (no_stringify
                           (JObj {[ "query" := query; "result" := result ]}))),
              w')
         | (Throw e, w') => (Throw e, w')
         | (OutOfFuel, w') => (OutOfFuel, w')
         end
   | (inl _, d) =>
       Server.readResource no_stringify no_stringify decimal_value
         (instant (fun _ => inr (JObj {[ "id" := JNum 456 ]}))) 0 uri start
       = (Throw (Error ("Failed to fetch query " +:+ string_of_Z n +:+ " from Redash")),
          after_request r d start)
   end).
Proof.
  assert (H : safe_integer (decimal_value "456")) by (by vm_compute).
  split; [reflexivity|]. split; [exact H|]. split; [reflexivity|].
  apply (readResource_reads no_stringify no_stringify decimal_value
           (instant (fun _ => inr (JObj {[ "id" := JNum 456 ]}))) 0 "456" start);
    [reflexivity | exact H | reflexivity].
Defined.

(** Reading [redash://dashboard/456] asks for dashboard 456. *)
Example readResource_dashboard_456 :
  (Server.readResource no_stringify (fun v => v) decimal_value
     (instant (fun _ => inr (JObj {[ "id" := JNum 456 ]}))) 0
     "redash://dashboard/456" start)
  = (Return (Server.resource_contents "redash://dashboard/456"
               (JObj {[ "id" := JNum 456 ]})),
     World 0 [Request GET "/api/dashboards/456" JUndefined]).
Proof. by vm_compute. Qed.
